(** * CRM recommendation platform: a shallow embedding of the data
    pipeline and of the recommendation engine, with the properties the
    specification states about them.

    Conventions of the embedding.
    - A SQL table is the list of its rows in scan order; a table with a
      primary key that the code only reads and writes by key is a [gmap].
    - A nullable column is an [option]; Python truthiness is written out
      ([None], the empty string, [0] and [0.0] are falsy).
    - Scores are Python floats in the source; here they are exact
      rationals ([Q]), so rounding is not part of the model.
    - Calendar dates are day numbers ([Z]); [today] is an argument.
    - A Python [set] is a [gset]; a [dict] whose iteration order matters
      is an association list with Python's update-in-place behaviour. *)

From Stdlib Require Import ZArith QArith Qminmax Ascii String Sorted.
From Stdlib Require Floats.PrimFloat.
From Stdlib Require Import Lqa.
From stdpp Require Import base decidable option numbers list gmap strings pretty.

Local Open Scope Z_scope.

(** ** Python helpers *)

Module Py.

(** [bool(s)] for a nullable string. *)
Definition truthy_str (v : option string) : bool :=
  match v with
  | Some s => negb (String.eqb s "")
  | None => false
  end.

(** [bool(x)] for a nullable number. *)
Definition truthy_Q (v : option Q) : bool :=
  match v with
  | Some q => negb (Qeq_bool q 0%Q)
  | None => false
  end.

(** [a == b] on nullable strings ([None == None] holds). *)
Definition eq_opt_str (a b : option string) : bool :=
  bool_decide (a = b).

(** [l[:k]]: a negative [k] counts from the end. *)
Definition slice_to {A} (l : list A) (k : Z) : list A :=
  if 0 <=? k then take (Z.to_nat k) l
  else take (Z.to_nat (Z.of_nat (length l) + k)) l.

Definition len {A} (l : list A) : Z := Z.of_nat (length l).

(** [x < y] on rationals, as a boolean. *)
Definition Qlt_bool (x y : Q) : bool := negb (Qle_bool y x).

Section Sorted.
Context {A : Type} (key : A -> Q).

(** One step of a stable descending insertion: [x] comes from the left
    of everything already in [l], so it goes in front of the first
    element whose key is not strictly greater. *)
Fixpoint insert_desc (x : A) (l : list A) : list A :=
  match l with
  | [] => [x]
  | y :: l' =>
      if Qlt_bool (key x) (key y) then y :: insert_desc x l' else x :: l
  end.

(** [sorted(l, key=key, reverse=True)]: descending and stable. *)
Definition sorted_desc (l : list A) : list A := foldr insert_desc [] l.

Fixpoint insert_asc (x : A) (l : list A) : list A :=
  match l with
  | [] => [x]
  | y :: l' =>
      if Qlt_bool (key y) (key x) then y :: insert_asc x l' else x :: l
  end.

(** Ascending stable sort, the order of a SQL [ORDER BY key]. *)
Definition sorted_asc (l : list A) : list A := foldr insert_asc [] l.

(** The order of a ranking: the later element has no greater key. *)
Definition desc (a b : A) : Prop := (key b <= key a)%Q.
End Sorted.

(** Scores that never go up along the list. *)
Definition weakly_decreasing (l : list Q) : Prop :=
  StronglySorted (fun a b => (b <= a)%Q) l.

(** [enumerate(l, start)]. *)
Fixpoint enumerate {A} (start : Z) (l : list A) : list (Z * A) :=
  match l with
  | [] => []
  | x :: l' => (start, x) :: enumerate (start + 1) l'
  end.

End Py.

(** ** The store read by the recommendation engine *)

Module Product.
Record t := mk {
  product_key : string;
  product_name : option string;
  family : option string;
  popularity_score : option Q;
}.
End Product.

Module OrderLine.
Record t := mk {
  customer_code : string;
  product_key : string;
  order_date : option Z;
  amount_ht : option Q;
}.
End OrderLine.

Module ContactEvent.
Record t := mk {
  customer_code : string;
  contact_date : Z;
}.
End ContactEvent.

(** A row of [reco_item], with the columns [_save_recommendations]
    writes. *)
Module RecoItem.
Record t := mk {
  reco_run_id : string;
  customer_code : string;
  rank : Z;
  scenario : string;
  product_key : string;
  product_name : string;
  score_total : Q;
  score_affinity : Q;
  score_popularity : Q;
  score_profit : Q;
  explanation : string;
}.
End RecoItem.

Module Db.
Record t := mk {
  order_line : list OrderLine.t;
  product : list Product.t;
  contact_event : list ContactEvent.t;
  reco_item : list RecoItem.t;
}.

(** [SELECT ... FROM product WHERE product_key = :pk] then [fetchone()]. *)
Definition fetch_product (db : t) (pk : string) : option Product.t :=
  List.find (fun p => String.eqb (Product.product_key p) pk) (product db).

(** The rows of [order_line] with [customer_code = :customer_code]. *)
Definition orders_of (db : t) (customer_code : string) : list OrderLine.t :=
  List.filter (fun ol => String.eqb (OrderLine.customer_code ol) customer_code)
    (order_line db).
End Db.

(** ** Scoring, ranking and diversification
    ([core/recommendation/scorer.py]) *)

Module RecoScore.
Record t := mk {
  product_key : string;
  scenario : string;
  base_score : Q;
  affinity_score : Q;
  popularity_score : Q;
  profit_score : Q;
  final_score : Q;
}.
End RecoScore.

Module Scorer.

(** [self.weights]. *)
Definition weight_affinity : Q := 0.40%Q.
Definition weight_popularity : Q := 0.30%Q.
Definition weight_profit : Q := 0.20%Q.
Definition weight_base : Q := 0.10%Q.

(** The families of [order_line JOIN product ON product_key] restricted
    to the customer, one per joined row. *)
Definition purchased_families (db : Db.t) (customer_code : string)
  : list (option string) :=
  List.flat_map
    (fun ol =>
       List.map Product.family
         (List.filter
            (fun p => String.eqb (Product.product_key p) (OrderLine.product_key ol))
            (Db.product db)))
    (Db.orders_of db customer_code).

Definition count_family (f : option string) (l : list (option string)) : Z :=
  Py.len (List.filter (fun g => Py.eq_opt_str g f) l).

(** The groups of [GROUP BY p.family], in order of first occurrence. *)
Fixpoint family_groups (l : list (option string)) : list (option string) :=
  match l with
  | [] => []
  | f :: l' =>
      f :: List.filter (fun g => negb (Py.eq_opt_str g f)) (family_groups l')
  end.

(** [GROUP BY p.family ORDER BY COUNT( * ) DESC LIMIT 1] then
    [fetchone()]: the family with the most joined rows, [None] when the
    customer has no joined row. SQL leaves the choice among families of
    equal count open; the first such group is taken here. *)
Definition preferred_family (db : Db.t) (customer_code : string)
  : option (option string) :=
  let fams := purchased_families db customer_code in
  List.fold_left
    (fun best g =>
       match best with
       | None => Some g
       | Some b => if count_family b fams <? count_family g fams then Some g else best
       end)
    (family_groups fams) None.

Definition compute_affinity_score (db : Db.t) (customer_code product_key : string) : Q :=
  let preferred := preferred_family db customer_code in
  match Db.fetch_product db product_key with
  | None => 50%Q
  | Some product =>
      let score := 50%Q in
      let score :=
        match preferred with
        | Some pf =>
            if Py.eq_opt_str (Product.family product) pf then (score + 25)%Q
            else if Py.truthy_str (Product.family product) then (score + 10)%Q
            else score
        | None =>
            if Py.truthy_str (Product.family product) then (score + 10)%Q else score
        end in
      Qmin 100%Q score
  end.

Definition compute_popularity_score (db : Db.t) (product_key : string) : Q :=
  match Db.fetch_product db product_key with
  | None => 50%Q
  | Some row =>
      if Py.truthy_Q (Product.popularity_score row)
      then (default 0%Q (Product.popularity_score row) * 100)%Q
      else 50%Q
  end.

(** The margin is not in the product table: the source reads the
    popularity again. *)
Definition compute_profit_score (db : Db.t) (product_key : string) : Q :=
  match Db.fetch_product db product_key with
  | None => 50%Q
  | Some row =>
      if Py.truthy_Q (Product.popularity_score row)
      then (default 0%Q (Product.popularity_score row) * 100)%Q
      else 50%Q
  end.

Definition score_recommendation (db : Db.t) (customer_code product_key scenario : string)
    (base_score : Q) : RecoScore.t :=
  let affinity := compute_affinity_score db customer_code product_key in
  let popularity := compute_popularity_score db product_key in
  let profit := compute_profit_score db product_key in
  let final_score :=
    (weight_affinity * affinity + weight_popularity * popularity
     + weight_profit * profit + weight_base * base_score)%Q in
  RecoScore.mk product_key scenario base_score affinity popularity profit final_score.

Definition rank_recommendations (scores : list RecoScore.t) (max_recommendations : Z)
  : list RecoScore.t :=
  let ranked := Py.sorted_desc RecoScore.final_score scores in
  Py.slice_to ranked max_recommendations.

(** [families.get(score.product_key)], where [families] maps every
    ranked product to [row[0] if row else None]. *)
Definition family_of (db : Db.t) (product_key : string) : option string :=
  match Db.fetch_product db product_key with
  | Some row => Product.family row
  | None => None
  end.

(** The selection loop of [diversify_recommendations], from the state
    [(selected, used_families)] over the candidates still to visit. The
    [break] is the test made after each candidate. *)
Fixpoint diversify_loop (db : Db.t) (max_recommendations : Z)
    (ranked_scores : list RecoScore.t)
    (selected : list RecoScore.t) (used_families : gset (option string))
  : list RecoScore.t :=
  match ranked_scores with
  | [] => selected
  | score :: rest =>
      let family := family_of db (RecoScore.product_key score) in
      let '(selected', used') :=
        match selected with
        | [] =>
            (selected ++ [score],
             if Py.truthy_str family then {[family]} ∪ used_families
             else used_families)
        | _ :: _ =>
            if bool_decide (family ∉ used_families)
            then (selected ++ [score], {[family]} ∪ used_families)
            else if Py.len selected <? max_recommendations
            then (selected ++ [score], used_families)
            else (selected, used_families)
        end in
      if max_recommendations <=? Py.len selected' then selected'
      else diversify_loop db max_recommendations rest selected' used'
  end.

Definition diversify_recommendations (db : Db.t) (ranked_scores : list RecoScore.t)
    (max_recommendations : Z) : list RecoScore.t :=
  match ranked_scores with
  | [] => []
  | _ :: _ => diversify_loop db max_recommendations ranked_scores [] ∅
  end.

(** The procedure in the words of the specification (section 4.7), kept
    apart from the source's loop for comparison: one pass accepts the
    first candidate and then only candidates of a family not yet
    represented, stopping at K; the candidates it passed over are
    remembered in rank order. *)
Fixpoint specified_pass (db : Db.t) (max_recommendations : Z)
    (ranked_scores selected passed_over : list RecoScore.t)
    (represented : gset (option string))
  : list RecoScore.t * list RecoScore.t :=
  match ranked_scores with
  | [] => (selected, passed_over)
  | score :: rest =>
      let family := family_of db (RecoScore.product_key score) in
      if max_recommendations <=? Py.len selected
      then (selected, passed_over ++ ranked_scores)
      else if bool_decide (selected = []) || bool_decide (family ∉ represented)
      then specified_pass db max_recommendations rest (selected ++ [score])
             passed_over ({[family]} ∪ represented)
      else specified_pass db max_recommendations rest selected
             (passed_over ++ [score]) represented
  end.

(** Only when the pass collects fewer than K are same-family candidates
    accepted, in rank order, until K. *)
Definition specified_diversification (db : Db.t) (ranked_scores : list RecoScore.t)
    (max_recommendations : Z) : list RecoScore.t :=
  let '(selected, passed_over) :=
    specified_pass db max_recommendations ranked_scores [] [] ∅ in
  selected ++ take (Z.to_nat (max_recommendations - Py.len selected)) passed_over.

End Scorer.

(** The popularity score and the weighted sum of [score_recommendation]
    in the arithmetic the source runs on, IEEE 754 binary64. *)
Module Binary64.
Import Floats.PrimFloat.
#[local] Set Warnings "-inexact-float".

Definition popularity_score (popularity : float) : float :=
  (popularity * 100)%float.

(** The body of [compute_popularity_score] and of [compute_profit_score]
    on the row the query fetched: [None] for no row, [Some None] for a
    [NULL] popularity. [if row[0]] on a float is [row[0] != 0.0]. *)
Definition compute_popularity_score (row : option (option float)) : float :=
  match row with
  | None => 50%float
  | Some None => 50%float
  | Some (Some popularity) =>
      if (popularity =? 0)%float then 50%float else (popularity * 100)%float
  end.

Definition final_score (affinity popularity profit base_score : float) : float :=
  (0.40 * affinity + 0.30 * popularity + 0.20 * profit + 0.10 * base_score)%float.

End Binary64.

(** ** Customer features ([core/recommendation/feature_computer.py]) *)

Module FeatureComputer.

Definition contacts_of (db : Db.t) (customer_code : string) : list ContactEvent.t :=
  List.filter (fun e => String.eqb (ContactEvent.customer_code e) customer_code)
    (Db.contact_event db).

(** [SELECT MAX(contact_date) FROM contact_event WHERE customer_code =
    :customer_code]: [None] is the SQL [NULL] of an empty selection. *)
Definition max_contact_date (db : Db.t) (customer_code : string) : option Z :=
  List.fold_right
    (fun e acc =>
       match acc with
       | None => Some (ContactEvent.contact_date e)
       | Some m => Some (Z.max (ContactEvent.contact_date e) m)
       end)
    None (contacts_of db customer_code).

Definition get_silence_window (db : Db.t) (today : Z) (customer_code : string)
    (days : Z) : bool :=
  match max_contact_date db customer_code with
  | None => false
  | Some last_contact =>
      let days_since := today - last_contact in
      days_since <? days
  end.

End FeatureComputer.

(** ** Scenario matching ([core/recommendation/scenario_matcher.py]) *)

Inductive RecoScenario := REBUY | CROSS_SELL | UPSELL | WINBACK | NURTURE.

Module ScenarioMatcher.

(** [scenario.value]. *)
Definition value (s : RecoScenario) : string :=
  match s with
  | REBUY => "REBUY"
  | CROSS_SELL => "CROSS_SELL"
  | UPSELL => "UPSELL"
  | WINBACK => "WINBACK"
  | NURTURE => "NURTURE"
  end.

(** The [WHERE] clause of the NURTURE product query; a [NULL] popularity
    fails the comparison. *)
Definition nurture_eligible (p : Product.t) : bool :=
  match Product.popularity_score p with
  | Some pop => Qle_bool 0.3%Q pop
  | None => false
  end
  && bool_decide (Product.family p <> None).

(** [ORDER BY RANDOM() LIMIT 3]: the store draws one number per selected
    row and sorts on it. The draws are the argument [random], indexed by
    the position of the row among the selected ones; nothing in the
    source seeds or fixes them. *)
Definition order_by_random (random : nat -> Q) (rows : list Product.t)
  : list Product.t :=
  List.map snd
    (Py.sorted_asc fst (imap (fun i p => (random i, p)) rows)).

Definition match_nurture (db : Db.t) (random : nat -> Q) (customer_code : string)
  : option (list string) :=
  let count := Py.len (Db.orders_of db customer_code) in
  if (count =? 0) || (3 <? count) then None
  else
    let rows :=
      take 3 (order_by_random random (List.filter nurture_eligible (Db.product db))) in
    let products := List.map Product.product_key rows in
    match products with
    | [] => None
    | _ :: _ => Some products
    end.

Section Matchers.

(** The four other producers are SQL queries whose result this model
    takes as given: what the call returns, [None] also when its statement
    raised. NURTURE is read on a session that can still run
    statements. *)
Variables match_rebuy match_cross_sell match_upsell match_winback
  : Db.t -> string -> option (list string).

(** [if v] on an optional list. *)
Definition truthy_products (v : option (list string)) : bool :=
  match v with
  | Some (_ :: _) => true
  | _ => false
  end.

(** The dict of the non-empty results, in insertion order. *)
Definition match_scenarios (db : Db.t) (random : nat -> Q) (customer_code : string)
  : list (RecoScenario * list string) :=
  let results :=
    [ (REBUY, match_rebuy db customer_code);
      (CROSS_SELL, match_cross_sell db customer_code);
      (UPSELL, match_upsell db customer_code);
      (WINBACK, match_winback db customer_code);
      (NURTURE, match_nurture db random customer_code) ] in
  List.flat_map
    (fun kv => if truthy_products (snd kv) then [(fst kv, default [] (snd kv))] else [])
    results.

End Matchers.

End ScenarioMatcher.

(** ** The orchestrator ([core/recommendation/engine.py]) *)

Module Explanation.
Record t := mk {
  title : string;
  reason : string;
  components : list string;
}.
End Explanation.

Module RecommendationItem.
Record t := mk {
  rank : Z;
  product_key : string;
  scenario : string;
  score : RecoScore.t;
  explanation : Explanation.t;
}.
End RecommendationItem.

Module RecommendationResult.
Record t {Features : Type} := mk {
  customer_code : string;
  run_id : string;
  recommendations : list RecommendationItem.t;
  features : Features;
  scenarios_matched : list (string * list string);
}.
Arguments t : clear implicits.
End RecommendationResult.

Module RecommendationEngine.

Section Engine.

(** What the engine calls and this model does not open: the feature
    aggregates, the four SQL scenario producers and the explanation
    texts. None of them writes to the store. *)
Context {Features : Type}.
Variable compute_customer_features : Db.t -> string -> Features.
Variables match_rebuy match_cross_sell match_upsell match_winback
  : Db.t -> string -> option (list string).
Variable generate_explanation : Db.t -> string -> string -> string -> Explanation.t.

(** [scenario_base_scores.get(scenario, 70.0)]. *)
Definition scenario_base_score (s : RecoScenario) : Q :=
  match s with
  | REBUY => 85%Q
  | CROSS_SELL => 75%Q
  | UPSELL => 80%Q
  | WINBACK => 70%Q
  | NURTURE => 65%Q
  end.

(** Step 3: one score per (scenario, product), scenarios in dict order. *)
Definition score_all (db : Db.t) (customer_code : string)
    (scenarios_match : list (RecoScenario * list string)) : list RecoScore.t :=
  List.flat_map
    (fun sp =>
       List.map
         (fun product_key =>
            Scorer.score_recommendation db customer_code product_key
              (ScenarioMatcher.value (fst sp)) (scenario_base_score (fst sp)))
         (snd sp))
    scenarios_match.

(** Step 5: [for rank, score in enumerate(diversified, start=1)]. *)
Definition build_items (db : Db.t) (customer_code : string)
    (diversified : list RecoScore.t) : list RecommendationItem.t :=
  List.map
    (fun rs =>
       let '(rank, score) := rs in
       RecommendationItem.mk rank (RecoScore.product_key score)
         (RecoScore.scenario score) score
         (generate_explanation db customer_code
            (RecoScore.product_key score) (RecoScore.scenario score)))
    (Py.enumerate 1 diversified).

(** The row [_save_recommendations] inserts for one item. *)
Definition reco_row (db : Db.t) (run_id customer_code : string)
    (item : RecommendationItem.t) : RecoItem.t :=
  let product_name :=
    match Db.fetch_product db (RecommendationItem.product_key item) with
    | Some row =>
        default (RecommendationItem.product_key item) (Product.product_name row)
    | None => RecommendationItem.product_key item
    end in
  RecoItem.mk run_id customer_code
    (RecommendationItem.rank item)
    (RecommendationItem.scenario item)
    (RecommendationItem.product_key item)
    product_name
    (RecoScore.final_score (RecommendationItem.score item))
    (RecoScore.affinity_score (RecommendationItem.score item))
    (RecoScore.popularity_score (RecommendationItem.score item))
    (RecoScore.profit_score (RecommendationItem.score item))
    (Explanation.reason (RecommendationItem.explanation item)).

(** [_save_recommendations]: every item is inserted and the lot is
    committed; when the store raises ([commit_ok = false]) the [except]
    branch rolls everything back. *)
Definition save_recommendations (commit_ok : bool) (db : Db.t)
    (run_id customer_code : string) (items : list RecommendationItem.t) : Db.t :=
  if commit_ok then
    Db.mk (Db.order_line db) (Db.product db) (Db.contact_event db)
      (Db.reco_item db ++ List.map (reco_row db run_id customer_code) items)
  else db.

Definition generate_recommendations (db : Db.t) (today : Z) (run_id : string)
    (random : nat -> Q) (commit_ok : bool)
    (customer_code : string) (max_recommendations : Z)
    (enable_silence_check : bool)
  : RecommendationResult.t Features * bool * Db.t :=
  let features := compute_customer_features db customer_code in
  let result0 := RecommendationResult.mk Features customer_code run_id [] features [] in
  if enable_silence_check
     && FeatureComputer.get_silence_window db today customer_code 30
  then (result0, false, db)
  else
    let scenarios_match :=
      ScenarioMatcher.match_scenarios match_rebuy match_cross_sell
        match_upsell match_winback db random customer_code in
    match scenarios_match with
    | [] => (result0, false, db)
    | _ :: _ =>
        let matched :=
          List.map (fun kv => (ScenarioMatcher.value (fst kv), snd kv)) scenarios_match in
        let result1 :=
          RecommendationResult.mk Features customer_code run_id [] features matched in
        let all_scores := score_all db customer_code scenarios_match in
        match all_scores with
        | [] => (result1, false, db)
        | _ :: _ =>
            let ranked := Scorer.rank_recommendations all_scores max_recommendations in
            let diversified :=
              Scorer.diversify_recommendations db ranked max_recommendations in
            let items := build_items db customer_code diversified in
            let result2 :=
              RecommendationResult.mk Features customer_code run_id items
                features matched in
            (result2, true, save_recommendations commit_ok db run_id customer_code items)
        end
    end.

End Engine.

End RecommendationEngine.

(** ** The audit service ([core/audit/service.py]) *)

Inductive ApprovalStatus := PENDING | APPROVED | REJECTED | FLAGGED.

(** A row of [audit_log]; the primary key [audit_id] is the key of the
    table below. *)
Module AuditLogDB.
Record t := mk {
  run_id : string;
  customer_code : string;
  product_key : string;
  scenario : string;
  recommendation_score : Q;
  approval_status : ApprovalStatus;
  approval_reason : option string;
  created_at : Z;
  approved_at : option Z;
  approved_by : option string;
  flags : option (list string);
}.
End AuditLogDB.

Module AuditService.

Import AuditLogDB.

(** [self.db.query(AuditLogDB).filter(audit_id == ...).first()] is the
    lookup [table !! audit_id]. *)

(** The constructor of the dataclass [AuditLog] as [log_recommendation]
    calls it. [approval_reason] is a field without a default; the call
    passes the seven fields before it and not this one, and the
    constructor then raises [TypeError]: [None] here. The argument says
    whether the field is passed. *)
Definition new_audit_log (approval_reason : option (option string))
    (now : Z) (run_id customer_code product_key scenario : string) (score : Q)
    (approval_status : ApprovalStatus) : option AuditLogDB.t :=
  match approval_reason with
  | None => None
  | Some reason =>
      Some (AuditLogDB.mk run_id customer_code product_key scenario score
              approval_status reason now None None (Some []))
  end.

(** [log_recommendation]: the audit object is built first, without its
    [approval_reason], so the call raises before [self.db.add] is reached
    and stores nothing. [None] is the exception. *)
Definition log_recommendation (table : gmap string AuditLogDB.t) (now : Z)
    (audit_id run_id customer_code product_key scenario : string) (score : Q)
    (approval_status : ApprovalStatus) : option (gmap string AuditLogDB.t) :=
  match new_audit_log None now run_id customer_code product_key scenario score
          approval_status with
  | None => None
  | Some _ =>
      Some (<[audit_id :=
                AuditLogDB.mk run_id customer_code product_key scenario score
                  approval_status None now None None (Some [])]> table)
  end.

Definition approve_recommendation (table : gmap string AuditLogDB.t) (now : Z)
    (audit_id approved_by : string) (reason : option string)
  : bool * gmap string AuditLogDB.t :=
  match table !! audit_id with
  | None => (false, table)
  | Some e =>
      (true,
       <[audit_id :=
           AuditLogDB.mk (run_id e) (customer_code e) (product_key e) (scenario e)
             (recommendation_score e)
             APPROVED reason (created_at e) (Some now) (Some approved_by)
             (flags e)]> table)
  end.

Definition reject_recommendation (table : gmap string AuditLogDB.t) (now : Z)
    (audit_id approved_by reason : string)
  : bool * gmap string AuditLogDB.t :=
  match table !! audit_id with
  | None => (false, table)
  | Some e =>
      (true,
       <[audit_id :=
           AuditLogDB.mk (run_id e) (customer_code e) (product_key e) (scenario e)
             (recommendation_score e)
             REJECTED (Some reason) (created_at e) (Some now) (Some approved_by)
             (flags e)]> table)
  end.

(** [flag_recommendation] on the stored row. [flags] is a plain JSON
    column: when it is empty or [NULL] the code assigns a new list and the
    reason appended to it is written with the row; when it already holds
    a reason the code appends to the loaded list in place, a change the
    session does not see, and the stored flags stay as they were. *)
Definition flag_recommendation (table : gmap string AuditLogDB.t)
    (audit_id flag_reason : string)
  : bool * gmap string AuditLogDB.t :=
  match table !! audit_id with
  | None => (false, table)
  | Some e =>
      let stored_flags :=
        match flags e with
        | Some (f :: fs) => f :: fs
        | _ => [flag_reason]
        end in
      (true,
       <[audit_id :=
           AuditLogDB.mk (run_id e) (customer_code e) (product_key e) (scenario e)
             (recommendation_score e)
             FLAGGED (approval_reason e) (created_at e) (approved_at e) (approved_by e)
             (Some stored_flags)]> table)
  end.

(** A request to the service about one audit entry, and the run of a
    sequence of requests, each at its own time. *)
Inductive request :=
| Approve (approved_by : string) (reason : option string)
| Reject (approved_by reason : string)
| Flag (flag_reason : string).

Definition serve (table : gmap string AuditLogDB.t) (now : Z) (audit_id : string)
    (r : request) : bool * gmap string AuditLogDB.t :=
  match r with
  | Approve by_ reason => approve_recommendation table now audit_id by_ reason
  | Reject by_ reason => reject_recommendation table now audit_id by_ reason
  | Flag reason => flag_recommendation table audit_id reason
  end.

Fixpoint serve_all (table : gmap string AuditLogDB.t) (audit_id : string)
    (rs : list (Z * request)) : gmap string AuditLogDB.t :=
  match rs with
  | [] => table
  | (now, r) :: rs' => serve_all (snd (serve table now audit_id r)) audit_id rs'
  end.

(** The status a request writes. *)
Definition target (r : request) : ApprovalStatus :=
  match r with
  | Approve _ _ => APPROVED
  | Reject _ _ => REJECTED
  | Flag _ => FLAGGED
  end.

(** The approval status of an entry, when it exists. *)
Definition status_of (table : gmap string AuditLogDB.t) (audit_id : string)
  : option ApprovalStatus :=
  approval_status <$> table !! audit_id.

End AuditService.

(** ** Row dictionaries *)

(** The values a customer row holds: JSON strings and nulls from the
    staging table, the integer row id, and the counters the merge adds. *)
Inductive Value :=
| VNone
| VStr (s : string)
| VInt (z : Z)
| VBool (b : bool).

#[global] Instance Value_eq_dec : EqDecision Value.
Proof. solve_decision. Defined.

#[global] Instance Value_countable : Countable Value.
Proof.
  refine (inj_countable'
    (fun v => match v with
              | VNone => inl (inl tt)
              | VStr s => inl (inr s)
              | VInt z => inr (inl z)
              | VBool b => inr (inr b)
              end)
    (fun x => match x with
              | inl (inl _) => VNone
              | inl (inr s) => VStr s
              | inr (inl z) => VInt z
              | inr (inr b) => VBool b
              end) _).
  intros []; reflexivity.
Defined.

Module Dict.

(** A Python dict: keys are unique and keep their insertion position. *)
Definition t (K V : Type) := list (K * V).

Section Ops.
Context {K V : Type} `{EqDecision K}.

(** [d.get(k)]. *)
Fixpoint get (d : t K V) (k : K) : option V :=
  match d with
  | [] => None
  | (k', v) :: d' => if decide (k' = k) then Some v else get d' k
  end.

(** [d[k] = v]: in place for a key already there, at the end for a new
    one. *)
Fixpoint set (d : t K V) (k : K) (v : V) : t K V :=
  match d with
  | [] => [(k, v)]
  | (k', v') :: d' =>
      if decide (k' = k) then (k', v) :: d' else (k', v') :: set d' k v
  end.

End Ops.

(** [bool(v)]. *)
Definition truthy (v : Value) : bool :=
  match v with
  | VNone => false
  | VStr s => negb (String.eqb s "")
  | VInt z => negb (z =? 0)
  | VBool b => b
  end.

(** [str(v)]. *)
Definition str (v : Value) : string :=
  match v with
  | VNone => "None"
  | VStr s => s
  | VInt z => pretty z
  | VBool true => "True"
  | VBool false => "False"
  end.

End Dict.

Abbreviation Row := (Dict.t string Value).

(** ** Stage A: customer deduplication
    ([core/transform/customer_deduplicator.py]) *)

Module CustomerDeduplicator.

(** [row.get(field)], with Python's [None] for a missing key. *)
Definition field (row : Row) (name : string) : Value :=
  default VNone (Dict.get row name).

(** [groups[key].append(row)], creating the group when it is new. *)
Definition add_to_group (groups : Dict.t Value (list Row)) (key : Value) (row : Row)
  : Dict.t Value (list Row) :=
  match Dict.get groups key with
  | None => Dict.set groups key [row]
  | Some g => Dict.set groups key (g ++ [row])
  end.

Definition get_email_groups (rows : list Row) : Dict.t Value (list Row) :=
  List.fold_left
    (fun groups row =>
       let email := field row "email" in
       if Dict.truthy email then add_to_group groups email row else groups)
    rows [].

Definition get_phone_groups (rows : list Row) : Dict.t Value (list Row) :=
  List.fold_left
    (fun groups row =>
       let phone := field row "phone" in
       if Dict.truthy phone then add_to_group groups phone row else groups)
    rows [].

(** The inner loop of the merge over the items of one later record. *)
Definition merge_row (state : Row * list Value) (row : Row) : Row * list Value :=
  List.fold_left
    (fun st fv =>
       let '(merged, customer_codes) := st in
       let '(fld, value) := fv in
       if String.eqb fld "customer_code" then (merged, customer_codes ++ [value])
       else if Dict.truthy value && negb (Dict.truthy (field merged fld))
       then (Dict.set merged fld value, customer_codes)
       else (merged, customer_codes))
    row state.

(** [','.join(filter(None, customer_codes))]; the codes are strings. *)
Definition join_codes (customer_codes : list Value) : string :=
  String.concat ","
    (List.map Dict.str (List.filter Dict.truthy customer_codes)).

Definition merge_customer_records (duplicates : list Row) : Row :=
  match duplicates with
  | [] => []
  | [only] => only
  | first :: rest =>
      let '(merged, customer_codes) :=
        List.fold_left merge_row rest (first, [field first "customer_code"]) in
      let merged := Dict.set merged "customer_code" (VStr (join_codes customer_codes)) in
      let merged :=
        Dict.set merged "customer_codes_merged" (VBool (1 <? Py.len customer_codes)) in
      Dict.set merged "duplicate_count" (VInt (Py.len duplicates))
  end.

(** The state of [deduplicate_batch] while it walks the groups. *)
Record dedup_state := mk_state {
  dedup_customers : list Row;
  duplicates_map : Dict.t Value (list string);
  processed_ids : gset Value;
}.

(** One iteration of [for email, group in email_groups.items()]. *)
Definition process_group (st : dedup_state) (group : list Row) : dedup_state :=
  match group with
  | [] => st
  | [only] =>
      if bool_decide (field only "_id" ∉ processed_ids st)
      then mk_state (dedup_customers st ++ [only]) (duplicates_map st)
             ({[field only "_id"]} ∪ processed_ids st)
      else st
  | first :: rest =>
      let merged := merge_customer_records group in
      let primary_id := field first "_id" in
      let duplicate_ids := List.map (fun r => Dict.str (field r "_id")) rest in
      mk_state (dedup_customers st ++ [merged])
        (Dict.set (duplicates_map st) primary_id duplicate_ids)
        (list_to_set (List.map (fun r => field r "_id") group) ∪ processed_ids st)
  end.

(** One iteration of the closing loop over the rows not yet processed. *)
Definition process_row (st : dedup_state) (row : Row) : dedup_state :=
  if bool_decide (field row "_id" ∉ processed_ids st)
  then mk_state (dedup_customers st ++ [row]) (duplicates_map st)
         ({[field row "_id"]} ∪ processed_ids st)
  else st.

(** [{'_id': row[0], **row[1]}]. *)
Definition with_id (raw : Z * Row) : Row :=
  List.fold_left (fun d kv => Dict.set d (fst kv) (snd kv)) (snd raw)
    [("_id", VInt (fst raw))].

(** [deduplicate_batch] on the rows [(id, row_data)] that
    [raw_customers] holds for the batch. The phone groups are computed,
    as in the source, and the loops below never look at them. *)
Definition deduplicate_batch (raw_customers : list (Z * Row))
  : list Row * Dict.t Value (list string) :=
  let rows_with_id := List.map with_id raw_customers in
  match rows_with_id with
  | [] => ([], [])
  | _ :: _ =>
      let email_groups := get_email_groups rows_with_id in
      let phone_groups := get_phone_groups rows_with_id in
      let st := mk_state [] [] ∅ in
      let st := List.fold_left process_group (List.map snd email_groups) st in
      let st := List.fold_left process_row rows_with_id st in
      (dedup_customers st, duplicates_map st)
  end.

End CustomerDeduplicator.

(** ** Stage E: master profiles ([core/transform/transform_loaders.py]) *)

Module ClientMasterProfile.
Record t := mk {
  rfm_score : Z;
  segment : string;
}.
End ClientMasterProfile.

Module TransformDb.
Record t := mk {
  customer : list string;
  order_line : list OrderLine.t;
  client_master_profile : gmap string ClientMasterProfile.t;
}.
End TransformDb.

Module ClientMasterProfileLoader.

(** The single row of the [rfm] CTE for the customer, [None] when the
    customer has no order line: [(MAX(order_date), COUNT( * ),
    SUM(amount_ht))], the aggregates skipping [NULL]s. *)
Definition rfm_row (db : TransformDb.t) (customer_code : string)
  : option (option Z * Z * option Q) :=
  let lines :=
    List.filter (fun ol => String.eqb (OrderLine.customer_code ol) customer_code)
      (TransformDb.order_line db) in
  match lines with
  | [] => None
  | _ :: _ =>
      let last_order_date :=
        List.fold_right
          (fun ol acc =>
             match OrderLine.order_date ol, acc with
             | Some d, Some m => Some (Z.max d m)
             | Some d, None => Some d
             | None, _ => acc
             end) None lines in
      let total_amount :=
        List.fold_right
          (fun ol acc =>
             match OrderLine.amount_ht ol, acc with
             | Some a, Some s => Some (a + s)%Q
             | Some a, None => Some a
             | None, _ => acc
             end) None lines in
      Some (last_order_date, Py.len lines, total_amount)
  end.

(** The scores are the source's placeholder [3]; no binning is made. *)
Definition compute_rfm_scores (db : TransformDb.t) (customer_code : string)
  : option Z * option Z * option Z :=
  match rfm_row db customer_code with
  | None => (None, None, None)
  | Some (last_order_date, order_count, total_amount) =>
      let recency := if bool_decide (last_order_date <> None) then Some 3 else None in
      let frequency := if negb (order_count =? 0) then Some 3 else None in
      let monetary := if Py.truthy_Q total_amount then Some 3 else None in
      (recency, frequency, monetary)
  end.

(** One iteration of the loop of [build_profiles]: the upsert on
    [customer_code], on a profile table that has the columns the
    statement names, so that the statement goes through and [created]
    counts the customer. *)
Definition build_profile (db : TransformDb.t) (customer_code : string)
  : TransformDb.t :=
  let '(recency, frequency, monetary) := compute_rfm_scores db customer_code in
  let rfm_score := default 0 recency + default 0 frequency + default 0 monetary in
  TransformDb.mk (TransformDb.customer db) (TransformDb.order_line db)
    (<[customer_code := ClientMasterProfile.mk rfm_score "STANDARD"]>
       (TransformDb.client_master_profile db)).

Definition build_profiles (db : TransformDb.t) : Z * TransformDb.t :=
  let customer_codes := TransformDb.customer db in
  (Py.len customer_codes, List.fold_left build_profile customer_codes db).

End ClientMasterProfileLoader.

(** ** Strings *)

Module Str.

(** [c.isspace()] on the ASCII range. *)
Definition is_space (c : ascii) : bool :=
  let n := nat_of_ascii c in
  ((9 <=? n)%nat && (n <=? 13)%nat) || ((28 <=? n)%nat && (n <=? 32)%nat).

Fixpoint lstrip (l : list ascii) : list ascii :=
  match l with
  | [] => []
  | c :: l' => if is_space c then lstrip l' else l
  end.

(** [s.strip()], on the bytes of an ASCII string. *)
Definition strip (s : string) : string :=
  string_of_list_ascii
    (rev (lstrip (rev (lstrip (list_ascii_of_string s))))).

Definition lower_ascii (c : ascii) : ascii :=
  let n := nat_of_ascii c in
  if (65 <=? n)%nat && (n <=? 90)%nat then ascii_of_nat (n + 32) else c.

(** [s.lower()], on ASCII letters. *)
Definition lower (s : string) : string :=
  string_of_list_ascii (List.map lower_ascii (list_ascii_of_string s)).

Definition is_at (c : ascii) : bool := Ascii.eqb c "@"%char.
Definition is_dot (c : ascii) : bool := Ascii.eqb c "."%char.

(** The text before the first ["@"] and the text after it. *)
Fixpoint split_at (l : list ascii) : option (list ascii * list ascii) :=
  match l with
  | [] => None
  | c :: l' =>
      if is_at c then Some ([], l')
      else match split_at l' with
           | Some (a, b) => Some (c :: a, b)
           | None => None
           end
  end.

(** [re.match(r'^[^@]+@[^@]+\.[^@]+$', v)] on a stripped [v]: one ["@"],
    something before it, and after it a ["."] that is neither the first
    nor the last character. *)
Definition email_format (v : string) : bool :=
  match split_at (list_ascii_of_string v) with
  | None => false
  | Some (local_part, domain) =>
      negb (bool_decide (local_part = []))
      && negb (existsb is_at domain)
      && existsb is_dot (drop 1 (take (length domain - 1) domain))
  end.

Definition is_postal_char (c : ascii) : bool :=
  let n := nat_of_ascii c in
  ((48 <=? n)%nat && (n <=? 57)%nat) || ((65 <=? n)%nat && (n <=? 90)%nat)
  || ((97 <=? n)%nat && (n <=? 122)%nat) || Ascii.eqb c "-"%char.

(** [re.match(r'^[a-zA-Z0-9\-]{2,20}$', v)] on a stripped [v]. *)
Definition postal_format (v : string) : bool :=
  let l := list_ascii_of_string v in
  forallb is_postal_char l && (2 <=? length l)%nat && (length l <=? 20)%nat.

End Str.

(** ** Row validation ([core/ingestion/schemas.py],
    [core/ingestion/validators.py]) *)

(** A customer row as the reader hands it over: every value is a string
    or [None]; for [customer_code], [None] stands for a missing key. *)
Module CustomerRow.
Record t := mk {
  customer_code : option string;
  last_name : option string;
  first_name : option string;
  email : option string;
  phone : option string;
  address : option string;
  postal_code : option string;
  city : option string;
  country : option string;
}.
End CustomerRow.

(** The dump of a validated [CustomerSchema]. *)
Module CustomerSchema.
Record t := mk {
  customer_code : string;
  last_name : option string;
  first_name : option string;
  email : option string;
  phone : option string;
  address : option string;
  postal_code : option string;
  city : option string;
  country : option string;
}.

(** A field's outcome: its validated value or the message of its
    error. *)
Definition validate_customer_code (v : option string) : string + string :=
  match v with
  | None => inr "Field required"
  | Some v =>
      let v := Str.strip v in
      if String.eqb v "" || String.eqb (Str.strip v) ""
      then inr "Value error, customer_code is required"
      else inl (Str.strip v)
  end.

Definition validate_email (v : option string) : option string + string :=
  match v with
  | None => inl None
  | Some v =>
      let v := Str.strip v in
      if negb (String.eqb v "") && negb (String.eqb (Str.strip v) "") then
        let v := Str.lower (Str.strip v) in
        if Str.email_format v then inl (Some v)
        else inr ("Value error, Invalid email format: " +:+ v)
      else inl None
  end.

Definition validate_postal_code (v : option string) : option string + string :=
  match v with
  | None => inl None
  | Some v =>
      let v := Str.strip v in
      if negb (String.eqb v "") && negb (String.eqb (Str.strip v) "") then
        let v := Str.strip v in
        if Str.postal_format v then inl (Some v)
        else inr ("Value error, Invalid postal code: " +:+ v)
      else inl None
  end.

Definition field_error {A} (name : string) (r : A + string) : list string :=
  match r with
  | inl _ => []
  | inr msg => [name +:+ ": " +:+ msg]
  end.

(** [CustomerSchema( **row).model_dump()], or the messages
    ["field: msg"] of the validation error, in field order. Every string
    is stripped before its validator runs ([str_strip_whitespace]). *)
Definition validate (row : CustomerRow.t) : t + list string :=
  let code := validate_customer_code (CustomerRow.customer_code row) in
  let mail := validate_email (CustomerRow.email row) in
  let postal := validate_postal_code (CustomerRow.postal_code row) in
  match code, mail, postal with
  | inl c, inl e, inl p =>
      inl (mk c
             (Str.strip <$> CustomerRow.last_name row)
             (Str.strip <$> CustomerRow.first_name row)
             e
             (Str.strip <$> CustomerRow.phone row)
             (Str.strip <$> CustomerRow.address row)
             p
             (Str.strip <$> CustomerRow.city row)
             (Str.strip <$> CustomerRow.country row))
  | _, _, _ =>
      inr (field_error "customer_code" code ++ field_error "email" mail
           ++ field_error "postal_code" postal)
  end.

End CustomerSchema.

Module IngestionError.
Record t := mk {
  row_number : Z;
  file_type : string;
  error_code : string;
  error_message : string;
  raw_row : CustomerRow.t;
}.
End IngestionError.

Module CustomerValidator.

(** [BaseValidator.validate_row(row, CustomerSchema, row_number)]. *)
Definition validate_row (row : CustomerRow.t) (row_number : Z)
  : CustomerSchema.t + IngestionError.t :=
  match CustomerSchema.validate row with
  | inl validated => inl validated
  | inr error_messages =>
      inr (IngestionError.mk row_number "unknown" "VALIDATION_ERROR"
             (String.concat " | " error_messages) row)
  end.

(** [row.get('customer_code', '').strip()]. *)
Definition code_of (row : CustomerRow.t) : string :=
  Str.strip (default "" (CustomerRow.customer_code row)).

Record batch_state := mk_state {
  valid_rows : list CustomerSchema.t;
  errors : list IngestionError.t;
  seen_codes : gset string;
}.

(** One iteration of the loop of [validate_batch]. The code joins
    [seen_codes] before the row meets the schema. *)
Definition step (st : batch_state) (row_idx : Z) (row : CustomerRow.t)
  : batch_state :=
  let customer_code := code_of row in
  if bool_decide (customer_code ∈ seen_codes st) then
    mk_state (valid_rows st)
      (errors st ++
         [IngestionError.mk row_idx "customers" "DUPLICATE_CUSTOMER"
            ("Duplicate customer_code: " +:+ customer_code) row])
      (seen_codes st)
  else
    let seen := {[customer_code]} ∪ seen_codes st in
    match validate_row row row_idx with
    | inr error =>
        mk_state (valid_rows st)
          (errors st ++
             [IngestionError.mk (IngestionError.row_number error) "customers"
                (IngestionError.error_code error)
                (IngestionError.error_message error)
                (IngestionError.raw_row error)])
          seen
    | inl validated_row => mk_state (valid_rows st ++ [validated_row]) (errors st) seen
    end.

Definition run (st : batch_state) (rows : list (Z * CustomerRow.t)) : batch_state :=
  List.fold_left (fun st ir => step st (fst ir) (snd ir)) rows st.

Definition validate_batch (rows : list CustomerRow.t)
  : list CustomerSchema.t * list IngestionError.t :=
  let st := run (mk_state [] [] ∅) (Py.enumerate 2 rows) in
  (valid_rows st, errors st).

(** The error the duplicate branch reports for the row at index [k]. *)
Definition duplicate_error (k : nat) (row : CustomerRow.t) : IngestionError.t :=
  IngestionError.mk (Z.of_nat k + 2) "customers" "DUPLICATE_CUSTOMER"
    ("Duplicate customer_code: " +:+ code_of row) row.

(** What the loop knows after the rows [rows]. *)
Record batch_inv (rows : list CustomerRow.t) (st : batch_state)
  : Prop := {
  inv_seen : forall c,
    c ∈ seen_codes st
    <-> exists k rk, rows !! k = Some rk /\ code_of rk = c;
  inv_valid : forall v,
    In v (valid_rows st) ->
    exists k rk, rows !! k = Some rk
      /\ CustomerSchema.validate rk = inl v
      /\ forall k' rk', (k' < k)%nat -> rows !! k' = Some rk' ->
           code_of rk' <> code_of rk;
  inv_dup : forall k rk k' rk',
    (k' < k)%nat -> rows !! k' = Some rk' -> rows !! k = Some rk ->
    code_of rk' = code_of rk ->
    In (duplicate_error k rk) (errors st);
}.

End CustomerValidator.

(** ** Raw staging ([core/ingestion/loaders.py]) *)

Module RawRecord.
Record t := mk {
  id : Z;
  batch_id : string;
  row_hash : string;
  row_data : string;
  created_at : Z;
}.
End RawRecord.

(** A raw staging table with its [BIGSERIAL] counter. *)
Module RawTable.
Record t := mk {
  records : list RawRecord.t;
  next_id : Z;
}.

(** The columns of [UNIQUE(batch_id, row_hash)]. *)
Definition key (r : RawRecord.t) : string * string :=
  (RawRecord.batch_id r, RawRecord.row_hash r).

(** [UNIQUE(batch_id, row_hash)]: is the pair taken? *)
Definition taken (records : list RawRecord.t) (batch_id row_hash : string) : bool :=
  existsb
    (fun r => String.eqb (RawRecord.batch_id r) batch_id
              && String.eqb (RawRecord.row_hash r) row_hash)
    records.
End RawTable.

Module RawDataLoader.

Inductive load_error :=
| NotSerializable
| UniqueViolation
| TransactionAborted.

Section Loader.

(** The row type and the library functions the loader calls:
    [json.dumps(row, sort_keys=True, default=str)], [json.dumps(row)]
    (which raises on a value JSON cannot hold) and
    [hashlib.sha256(s.encode()).hexdigest()]. *)
Context {R : Type}.
Variable json_dumps_sorted : R -> string.
Variable json_dumps : R -> option string.
Variable sha256_hexdigest : string -> string.

Definition calculate_row_hash (row : R) : string :=
  sha256_hexdigest (json_dumps_sorted row).

(** The transaction the loop runs in: the records it sees, the sequence,
    whether a failed statement has put it in the aborted state, and the
    two results of the function. *)
Record txn := mk_txn {
  seen : list RawRecord.t;
  seq : Z;
  aborted : bool;
  loaded_count : Z;
  errors : list (Z * load_error);
}.

(** One iteration of the loop: the [INSERT] and the [except] around it.
    [aborts] says whether the store refuses every statement after a
    failed one until the transaction ends (PostgreSQL does) or carries
    on. *)
Definition insert_row (aborts : bool) (batch_id : string) (now : Z)
    (t : txn) (row : R) : txn :=
  let row_hash := calculate_row_hash row in
  match json_dumps row with
  | None =>
      mk_txn (seen t) (seq t) (aborted t) (loaded_count t)
        (errors t ++ [(loaded_count t + 1, NotSerializable)])
  | Some row_data =>
      if aborted t then
        mk_txn (seen t) (seq t) true (loaded_count t)
          (errors t ++ [(loaded_count t + 1, TransactionAborted)])
      else if RawTable.taken (seen t) batch_id row_hash then
        mk_txn (seen t) (seq t + 1) aborts (loaded_count t)
          (errors t ++ [(loaded_count t + 1, UniqueViolation)])
      else
        mk_txn (seen t ++ [RawRecord.mk (seq t) batch_id row_hash row_data now])
          (seq t + 1) false (loaded_count t + 1) (errors t)
  end.

(** [load_raw_customers]; the loaders of the two other staging tables
    are the same code on their own table. The closing [commit] of an
    aborted transaction keeps none of its inserts. *)
Definition load_raw_customers (aborts : bool) (table : RawTable.t) (now : Z)
    (rows : list R) (batch_id : string)
  : Z * list (Z * load_error) * RawTable.t :=
  match rows with
  | [] => (0, [], table)
  | _ :: _ =>
      let t :=
        List.fold_left (insert_row aborts batch_id now) rows
          (mk_txn (RawTable.records table) (RawTable.next_id table) false 0 []) in
      (loaded_count t, errors t,
       RawTable.mk (if aborted t then RawTable.records table else seen t) (seq t))
  end.

End Loader.

End RawDataLoader.

(** ** Gating ([core/audit/service.py], [core/audit/models.py]) *)

Module GatingPolicy.
Record t := mk {
  name : string;
  min_score : Q;
  max_score : Q;
  min_coverage : Q;
  max_diversity_violations : Z;
  require_approval : bool;
  compliance_rules : list string;
  enabled : bool;
}.

(** The dataclass defaults, for the fields a call leaves out. *)
Definition make (name : string) (min_score min_coverage : Q) (require_approval : bool)
  : t :=
  mk name min_score 100%Q min_coverage 0 require_approval [] true.
End GatingPolicy.

Module GatingService.

(** The recommendation row the service reads; only the score takes part
    in a check. *)
Record reco := mk_reco {
  customer_code : string;
  product_key : string;
  recommendation_score : Q;
}.

(** The messages of [check_recommendation], by kind and with the numbers
    they quote. *)
Inductive issue :=
| ScoreBelowMinimum (score minimum : Q)
| ScoreAboveMaximum (score maximum : Q)
| ComplianceRuleFailed (rule : string).

(** [_init_default_policies]. *)
Definition default_policies : gmap string GatingPolicy.t :=
  <["permissive" := GatingPolicy.make "permissive" 40%Q 0.3%Q false]>
    (<["standard" := GatingPolicy.make "standard" 60%Q 0.5%Q false]>
       (<["strict" := GatingPolicy.make "strict" 80%Q 0.7%Q true]> ∅)).

Definition register_policy (policies : gmap string GatingPolicy.t)
    (policy : GatingPolicy.t) : gmap string GatingPolicy.t :=
  <[GatingPolicy.name policy := policy]> policies.

(** Every rule passes: the source has no rule implemented. *)
Definition check_compliance_rule (r : reco) (rule : string) : bool := true.

Definition check_recommendation (policies : gmap string GatingPolicy.t)
    (r : reco) (policy_name : string) : bool * list issue :=
  match policies !! policy_name with
  | None => (true, [])
  | Some policy =>
      if negb (GatingPolicy.enabled policy) then (true, [])
      else
        let issues :=
          (if Py.Qlt_bool (recommendation_score r) (GatingPolicy.min_score policy)
           then [ScoreBelowMinimum (recommendation_score r) (GatingPolicy.min_score policy)]
           else [])
          ++ (if Py.Qlt_bool (GatingPolicy.max_score policy) (recommendation_score r)
              then [ScoreAboveMaximum (recommendation_score r) (GatingPolicy.max_score policy)]
              else [])
          ++ List.flat_map
               (fun rule =>
                  if check_compliance_rule r rule then [] else [ComplianceRuleFailed rule])
               (GatingPolicy.compliance_rules policy) in
        (bool_decide (issues = []), issues)
  end.

Record batch_report := mk_report {
  total : Z;
  passed : Z;
  failed : Z;
  pass_rate : Q;
  failed_recommendations : list (reco * list issue);
}.

Definition check_batch (policies : gmap string GatingPolicy.t)
    (recos : list reco) (policy_name : string) : batch_report :=
  let '(passed, failed) :=
    List.fold_left
      (fun pf r =>
         let '(is_passed, issues) := check_recommendation policies r policy_name in
         if is_passed then (fst pf ++ [r], snd pf)
         else (fst pf, snd pf ++ [(r, issues)]))
      recos ([], []) in
  mk_report (Py.len recos) (Py.len passed) (Py.len failed)
    (inject_Z (Py.len passed) / inject_Z (Z.max (Py.len recos) 1))%Q
    failed.

End GatingService.

(** ** Reading an audit entry *)

Module AuditTrail.

(** [entry.flags or []], as [to_dict] reports the flags. *)
Definition flags_of (e : AuditLogDB.t) : list string :=
  default [] (AuditLogDB.flags e).

(** The reasons of the flag requests of a sequence, in order. *)
Definition flag_reasons (rs : list (Z * AuditService.request)) : list string :=
  List.flat_map
    (fun nr => match snd nr with
               | AuditService.Flag reason => [reason]
               | _ => []
               end)
    rs.

(** The stored flags after flag requests with the reasons [reasons]:
    what was stored when there was something, else the first reason. *)
Definition written_once (stored reasons : list string) : list string :=
  match stored with
  | [] => take 1 reasons
  | f :: fs => f :: fs
  end.

(** The columns no request writes. *)
Definition identity (e : AuditLogDB.t) :=
  (AuditLogDB.run_id e, AuditLogDB.customer_code e, AuditLogDB.product_key e,
   AuditLogDB.scenario e, AuditLogDB.recommendation_score e, AuditLogDB.created_at e).

End AuditTrail.

(** ** Reading the result of the deduplication *)

Module DedupFacts.

(** The rows of [rows] whose column [name] holds [key], in order. *)
Definition rows_with (name : string) (key : Value) (rows : list Row) : list Row :=
  List.filter (fun r => bool_decide (CustomerDeduplicator.field r name = key)) rows.

(** A row is a dict: no key twice. *)
Definition is_dict (row : Row) : Prop := NoDup (List.map fst row).

(** The first truthy value of a column over the records, in order. *)
Definition first_truthy (name : string) (rows : list Row) : option Value :=
  List.find Dict.truthy (List.map (fun r => CustomerDeduplicator.field r name) rows).

(** The non-empty customer codes of the records, in order. *)
Definition codes_of (rows : list Row) : list string :=
  List.flat_map
    (fun r => match CustomerDeduplicator.field r "customer_code" with
              | VStr s => if String.eqb s "" then [] else [s]
              | _ => []
              end)
    rows.

(** The customer code of a record is a string or null. *)
Definition code_is_text (row : Row) : Prop :=
  match CustomerDeduplicator.field row "customer_code" with
  | VStr _ | VNone => True
  | _ => False
  end.

(** Email groups taken from [rows]: no key twice, no empty group, and in
    each group rows of [rows] with the email of the key. *)
Definition groups_ok (rows : list Row) (ps : list (Value * list Row)) : Prop :=
  NoDup (List.map fst ps)
  /\ forall key g, In (key, g) ps ->
       g <> []
       /\ forall r, In r g ->
            In r rows /\ CustomerDeduplicator.field r "email" = key.

End DedupFacts.

(** ** Reading a merged record *)

Module MergeFacts.

(** The rule of the merge for one column: keep what is there unless it
    is falsy and the newcomer is truthy. *)
Definition coalesce (kept newcomer : Value) : Value :=
  if Dict.truthy newcomer && negb (Dict.truthy kept) then newcomer else kept.

(** The codes a later record contributes: the value under its
    [customer_code] key, when it has the key. *)
Definition code_items (row : Row) : list Value :=
  match Dict.get row "customer_code" with
  | Some v => [v]
  | None => []
  end.

(** The columns the merge computes itself. *)
Definition computed (name : string) : Prop :=
  name = "customer_code" \/ name = "customer_codes_merged" \/ name = "duplicate_count".

End MergeFacts.

(** ** Validated rows read again *)

Module ValidationFacts.

(** The dump of a validated row, handed to the validator as a row. *)
Definition as_row (v : CustomerSchema.t) : CustomerRow.t :=
  CustomerRow.mk (Some (CustomerSchema.customer_code v))
    (CustomerSchema.last_name v) (CustomerSchema.first_name v)
    (CustomerSchema.email v) (CustomerSchema.phone v)
    (CustomerSchema.address v) (CustomerSchema.postal_code v)
    (CustomerSchema.city v) (CustomerSchema.country v).

End ValidationFacts.

(** ** Product aliases ([core/transform/product_resolver.py]) *)

Module ProductResolver.

(** The two attributes of a resolver: [_cache] and [_loaded]. *)
Record t := mk {
  cache : gmap string string;
  loaded : bool;
}.

(** [__init__]. *)
Definition init : t := mk ∅ false.

(** [load_aliases]. [query] is what the store answers to the [SELECT
    label_norm, product_key FROM product_alias WHERE is_active = TRUE]:
    its rows in order, or [None] when the statement raises. The loop
    assigns into the cache it finds; a failed statement returns the empty
    dict and leaves the resolver as it was. *)
Definition load_aliases (self : t) (query : option (list (string * string)))
  : gmap string string * t :=
  if loaded self then (cache self, self)
  else
    match query with
    | Some rows =>
        let cache' :=
          List.fold_left
            (fun c row =>
               let label_norm := fst row in
               let product_key := snd row in
               <[label_norm := product_key]> c)
            rows (cache self) in
        (cache', mk cache' true)
    | None => (∅, self)
    end.

Definition not_found (label_norm : string) : string :=
  "Product not found in alias mapping: " +:+ label_norm.

(** [resolve]: [(product_key, None)] or [(None, error_msg)]; an empty
    key in the cache is falsy and counts as not found. *)
Definition resolve (self : t) (query : option (list (string * string)))
    (label_norm : string) : (option string * option string) * t :=
  let self := if negb (loaded self) then snd (load_aliases self query) else self in
  let product_key := cache self !! label_norm in
  if Py.truthy_str product_key then ((product_key, None), self)
  else ((None, Some (not_found label_norm)), self).

(** [resolve_batch]: the labels are the keys of a dict, the originals
    its values; the results are keyed by label. *)
Definition resolve_batch (self : t) (query : option (list (string * string)))
    (labels : Dict.t string string)
  : Dict.t string (option string * option string) * t :=
  let self := if negb (loaded self) then snd (load_aliases self query) else self in
  List.fold_left
    (fun acc item =>
       let '(results, self) := acc in
       let '(label_norm, label_orig) := item in
       let '(answer, self) := resolve self query label_norm in
       (Dict.set results label_norm answer, self))
    labels ([], self).

(** [clear_cache]. *)
Definition clear_cache (self : t) : t := mk ∅ false.

End ProductResolver.

Module ResolverFacts.

(** The key of the last row for a label among the rows the store
    answered, when it is a non-empty key. *)
Definition last_alias (rows : list (string * string)) (label_norm : string)
  : option string :=
  match List.find (fun row => String.eqb (fst row) label_norm) (rev rows) with
  | Some row => if String.eqb (snd row) "" then None else Some (snd row)
  | None => None
  end.

(** What [resolve] answers for a label when the aliases are [rows]. *)
Definition answer (rows : list (string * string)) (label_norm : string)
  : option string * option string :=
  match last_alias rows label_norm with
  | Some product_key => (Some product_key, None)
  | None => (None, Some (ProductResolver.not_found label_norm))
  end.

End ResolverFacts.

(** ** The WINBACK producer ([core/recommendation/scenario_matcher.py]) *)

Module Winback.

(** [self.config['winback_days']]. *)
Definition winback_days : Z := 365.

(** [SELECT MAX(order_date) FROM order_line WHERE customer_code =
    :customer_code]: [None] when the customer has no dated order line. *)
Definition last_purchase (db : Db.t) (customer_code : string) : option Z :=
  List.fold_right
    (fun ol acc =>
       match OrderLine.order_date ol, acc with
       | Some d, Some m => Some (Z.max d m)
       | Some d, None => Some d
       | None, _ => acc
       end)
    None (Db.orders_of db customer_code).

(** The [WHERE] clause of the product query; a [NULL] popularity fails
    the comparison. *)
Definition popular (p : Product.t) : bool :=
  match Product.popularity_score p with
  | Some pop => Qle_bool 0.7%Q pop
  | None => false
  end.

(** The sort key of [ORDER BY p.popularity_score DESC] on the selected
    rows, none of which has a [NULL] there. *)
Definition popularity (p : Product.t) : Q :=
  default 0%Q (Product.popularity_score p).

(** [match_winback]. The order of the store among products of equal
    popularity is the order of the table here. *)
Definition match_winback (db : Db.t) (today : Z) (customer_code : string)
  : option (list string) :=
  match last_purchase db customer_code with
  | None => None
  | Some last_purchase =>
      let days_inactive := today - last_purchase in
      if days_inactive <? winback_days then None
      else
        let products :=
          List.map Product.product_key
            (take 3 (Py.sorted_desc popularity (List.filter popular (Db.product db)))) in
        match products with
        | [] => None
        | _ :: _ => Some products
        end
  end.

End Winback.

(** ** Customer features ([core/recommendation/feature_computer.py]) *)

(** The dict [compute_customer_features] returns when the store answers.
    The two dates are kept as day numbers where the source stores their
    ISO text; [days_since_purchase] is [None] when the key is not set. *)
Module CustomerFeatures.
Record t := mk {
  customer_code : string;
  computed_at : Z;
  purchase_count : Z;
  total_spent : Q;
  avg_order_value : Q;
  last_purchase_date : option Z;
  first_purchase_date : option Z;
  days_since_purchase : option Z;
  recency_score : Z;
  frequency_score : Z;
  monetary_score : Z;
}.
End CustomerFeatures.

Module FeatureAggregates.

(** The non-[NULL] values of a column over the selected rows. *)
Definition amounts (lines : list OrderLine.t) : list Q :=
  omap OrderLine.amount_ht lines.

Definition dates (lines : list OrderLine.t) : list Z :=
  omap OrderLine.order_date lines.

(** [SUM(amount_ht)] and [AVG(amount_ht)]: [NULL] without a value. *)
Definition sum_amount_ht (lines : list OrderLine.t) : option Q :=
  match amounts lines with
  | [] => None
  | a :: l => Some (List.fold_left Qplus l a)
  end.

Definition avg_amount_ht (lines : list OrderLine.t) : option Q :=
  match amounts lines with
  | [] => None
  | a :: l => Some (List.fold_left Qplus l a / inject_Z (Py.len (a :: l)))%Q
  end.

(** [MAX(order_date)] and [MIN(order_date)]. *)
Definition max_order_date (lines : list OrderLine.t) : option Z :=
  match dates lines with
  | [] => None
  | d :: l => Some (List.fold_left Z.max l d)
  end.

Definition min_order_date (lines : list OrderLine.t) : option Z :=
  match dates lines with
  | [] => None
  | d :: l => Some (List.fold_left Z.min l d)
  end.

Definition recency_bin (days_since : Z) : Z :=
  if days_since <=? 30 then 5
  else if days_since <=? 90 then 4
  else if days_since <=? 180 then 3
  else if days_since <=? 365 then 2
  else 1.

Definition frequency_bin (purchase_count : Z) : Z :=
  if 10 <=? purchase_count then 5
  else if 5 <=? purchase_count then 4
  else if 2 <=? purchase_count then 3
  else if purchase_count =? 1 then 2
  else 0.

Definition monetary_bin (total_spent : Q) : Z :=
  if Qle_bool 5000 total_spent then 5
  else if Qle_bool 2000 total_spent then 4
  else if Qle_bool 500 total_spent then 3
  else if Qle_bool 100 total_spent then 2
  else if Py.Qlt_bool 0 total_spent then 1 else 0.

(** [compute_customer_features]: [now] is [datetime.utcnow()] and
    [today] is [datetime.now().date()]. The aggregate query has no
    [GROUP BY], so it always answers with one row. The recency score is
    read off [days_since], not off its clamped copy. *)
Definition compute_customer_features (db : Db.t) (now today : Z)
    (customer_code : string) : CustomerFeatures.t :=
  let lines := Db.orders_of db customer_code in
  let purchase_count := Py.len lines in
  let total_spent :=
    if Py.truthy_Q (sum_amount_ht lines) then default 0%Q (sum_amount_ht lines)
    else 0%Q in
  let avg_order_value :=
    if Py.truthy_Q (avg_amount_ht lines) then default 0%Q (avg_amount_ht lines)
    else 0%Q in
  let last_purchase_date := max_order_date lines in
  let first_purchase_date := min_order_date lines in
  let days_since_purchase :=
    match last_purchase_date with
    | Some d => Some (Z.max 0 (today - d))
    | None => None
    end in
  let recency_score :=
    match last_purchase_date with
    | Some d => recency_bin (today - d)
    | None => 0
    end in
  CustomerFeatures.mk customer_code now purchase_count total_spent avg_order_value
    last_purchase_date first_purchase_date days_since_purchase
    recency_score (frequency_bin purchase_count) (monetary_bin total_spent).

(** [get_budget_level]. *)
Definition get_budget_level (db : Db.t) (customer_code : string) : string :=
  let avg := avg_amount_ht (Db.orders_of db customer_code) in
  if negb (Py.truthy_Q avg) then "STANDARD"
  else
    let avg_order_value := default 0%Q avg in
    if Qle_bool 500 avg_order_value then "LUXURY"
    else if Qle_bool 200 avg_order_value then "PREMIUM"
    else if Qle_bool 50 avg_order_value then "STANDARD"
    else "BUDGET".

End FeatureAggregates.

(** ** Quality metrics ([core/audit/service.py], [core/audit/models.py]) *)

Inductive QualityLevel := EXCELLENT | GOOD | ACCEPTABLE | POOR.

(** The recommendation rows the quality service reads, with the four
    columns it looks at. *)
Module RunItem.
Record t := mk {
  run_id : string;
  customer_code : string;
  product_key : string;
  recommendation_score : Q;
}.
End RunItem.

Module QualityMetrics.
Record t := mk {
  run_id : string;
  total_recommendations : Z;
  coverage_score : Q;
  diversity_score : Q;
  accuracy_score : Q;
  avg_score : Q;
  median_score : Q;
  diversity_ratio : Q;
  quality_level : QualityLevel;
}.
End QualityMetrics.

(** A row of [quality_metrics]; [run_id], its primary key, is the key of
    the table below. *)
Module QualityMetricsDB.
Record t := mk {
  total_recommendations : Z;
  coverage_score : Q;
  diversity_score : Q;
  accuracy_score : Q;
  avg_score : Q;
  median_score : Q;
  quality_level : QualityLevel;
  timestamp : Z;
}.
End QualityMetricsDB.

Module QualityService.

(** [len(set(...))] on strings. *)
Definition unique (l : list string) : Z :=
  Z.of_nat (size (list_to_set l : gset string)).

(** [sum(scores)]. *)
Definition sum (scores : list Q) : Q := List.fold_left Qplus scores 0%Q.

Definition scores_of (recos : list RunItem.t) : list Q :=
  List.map RunItem.recommendation_score recos.

Definition compute_diversity_score (recos : list RunItem.t) : Q :=
  match recos with
  | [] => 0%Q
  | _ :: _ =>
      let unique_products := unique (List.map RunItem.product_key recos) in
      let total_recos := Py.len recos in
      let diversity_ratio :=
        (inject_Z unique_products / inject_Z (Z.max total_recos 1))%Q in
      Qmin (diversity_ratio / 0.7) 1
  end.

Definition compute_accuracy_score (recos : list RunItem.t) : Q :=
  match recos with
  | [] => 0%Q
  | _ :: _ =>
      let scores := scores_of recos in
      let avg_score := (sum scores / inject_Z (Py.len scores))%Q in
      Qmin (avg_score / 100) 1
  end.

(** The dict [customer_recos] of [_compute_diversity_ratio]. *)
Definition group_by_customer (recos : list RunItem.t)
  : Dict.t string (list RunItem.t) :=
  List.fold_left
    (fun customer_recos r =>
       let customer_recos :=
         match Dict.get customer_recos (RunItem.customer_code r) with
         | None => Dict.set customer_recos (RunItem.customer_code r) []
         | Some _ => customer_recos
         end in
       Dict.set customer_recos (RunItem.customer_code r)
         (default [] (Dict.get customer_recos (RunItem.customer_code r)) ++ [r]))
    recos [].

Definition customer_ratio (customer_recos_list : list RunItem.t) : Q :=
  let unique_ := unique (List.map RunItem.product_key customer_recos_list) in
  let total := Py.len customer_recos_list in
  if 0 <? total then (inject_Z unique_ / inject_Z total)%Q else 0%Q.

Definition compute_diversity_ratio (recos : list RunItem.t) : Q :=
  match recos with
  | [] => 0%Q
  | _ :: _ =>
      let ratios := List.map (fun g => customer_ratio (snd g)) (group_by_customer recos) in
      match ratios with
      | [] => 0%Q
      | _ :: _ => (sum ratios / inject_Z (Py.len ratios))%Q
      end
  end.

Definition empty_metrics (run_id : string) : QualityMetrics.t :=
  QualityMetrics.mk run_id 0 0 0 0 0 0 0 POOR.

Definition quality_level_of (quality_score : Q) : QualityLevel :=
  if Qle_bool 0.90 quality_score then EXCELLENT
  else if Qle_bool 0.75 quality_score then GOOD
  else if Qle_bool 0.60 quality_score then ACCEPTABLE
  else POOR.

(** [compute_quality_metrics]: the metrics and the table of stored
    metrics after the call, or [None] when the insert of the row raises
    because the run already has one ([run_id] is the primary key). A run
    without recommendations returns before anything is stored. *)
Definition compute_quality_metrics (items : list RunItem.t)
    (stored : gmap string QualityMetricsDB.t) (now : Z)
    (run_id : string) (total_customers : Z)
  : option (QualityMetrics.t * gmap string QualityMetricsDB.t) :=
  let recos := List.filter (fun r => String.eqb (RunItem.run_id r) run_id) items in
  match recos with
  | [] => Some (empty_metrics run_id, stored)
  | _ :: _ =>
      let unique_customers := unique (List.map RunItem.customer_code recos) in
      let coverage_score :=
        (inject_Z unique_customers / inject_Z (Z.max total_customers 1))%Q in
      let diversity_score := compute_diversity_score recos in
      let accuracy_score := compute_accuracy_score recos in
      let scores := scores_of recos in
      let avg_score := (sum scores / inject_Z (Py.len scores))%Q in
      let median_score :=
        nth (Z.to_nat (Py.len scores / 2)) (Py.sorted_asc (fun x => x) scores) 0%Q in
      let diversity_ratio := compute_diversity_ratio recos in
      let quality_score :=
        (coverage_score * 0.4 + diversity_score * 0.3 + accuracy_score * 0.3)%Q in
      let quality_level := quality_level_of quality_score in
      match stored !! run_id with
      | Some _ => None
      | None =>
          Some
            (QualityMetrics.mk run_id (Py.len recos) coverage_score diversity_score
               accuracy_score avg_score median_score diversity_ratio quality_level,
             <[run_id :=
                 QualityMetricsDB.mk (Py.len recos) coverage_score diversity_score
                   accuracy_score avg_score median_score quality_level now]> stored)
      end
  end.

End QualityService.

(** * Worked inputs

    The stores and rows the examples of the specification describe, and
    the inputs at which the properties below are exercised. *)

Module Examples.

(** E5: three candidates in rank order, two of the family Red. *)
Definition e5_db : Db.t :=
  Db.mk []
    [ Product.mk "P1" None (Some "Red") None;
      Product.mk "P2" None (Some "Red") None;
      Product.mk "P3" None (Some "White") None ]
    [] [].

Definition e5_candidate (scenario product_key : string) (final_score : Q)
  : RecoScore.t :=
  RecoScore.mk product_key scenario 0%Q 0%Q 0%Q 0%Q final_score.

Definition e5_ranked : list RecoScore.t :=
  [ e5_candidate "REBUY" "P1" 90%Q;
    e5_candidate "REBUY" "P2" 88%Q;
    e5_candidate "CROSS_SELL" "P3" 70%Q ].

(** E3: customer C001 bought WINE001 (family Red, popularity 0.8) once. *)
Definition e3_db : Db.t :=
  Db.mk
    [ OrderLine.mk "C001" "WINE001" (Some 0) (Some 20%Q) ]
    [ Product.mk "WINE001" (Some "Wine 001") (Some "Red") (Some 0.8%Q) ]
    [] [].

(** The same store with the popularity of WINE001 recorded as zero. *)
Definition zero_popularity_db : Db.t :=
  Db.mk
    [ OrderLine.mk "C001" "WINE001" (Some 0) (Some 20%Q) ]
    [ Product.mk "WINE001" (Some "Wine 001") (Some "Red") (Some 0%Q) ]
    [] [].

(** The callees of the engine the model leaves open, fixed for the
    examples: REBUY proposes what the customer bought, the other SQL
    producers find nothing, features and explanations are constant. *)
Definition features_none (_ : Db.t) (_ : string) : unit := tt.

Definition rebuy_bought (db : Db.t) (customer_code : string) : option (list string) :=
  match List.map OrderLine.product_key (Db.orders_of db customer_code) with
  | [] => None
  | pks => Some pks
  end.

Definition match_nothing (_ : Db.t) (_ : string) : option (list string) := None.

Definition explain_plain (_ : Db.t) (_ _ _ : string) : Explanation.t :=
  Explanation.mk "Recommended for you" "Based on your preferences"
    ["Carefully selected"].

Definition no_random (_ : nat) : Q := 0%Q.

(** [recommend] with those callees. *)
Definition recommend (db : Db.t) (today : Z) (customer_code : string)
    (max_recommendations : Z) (enable_silence_check : bool) :=
  RecommendationEngine.generate_recommendations features_none
    rebuy_bought match_nothing match_nothing match_nothing explain_plain
    db today "run-1" no_random true customer_code max_recommendations
    enable_silence_check.

(** E3 at day 120 after the order, with no contact on record. *)
Definition e3_today : Z := 120.

(** E4: the store of E3 with a last contact of C001 a given number of
    days before [e3_today]. *)
Definition contacted_db (days_ago : Z) : Db.t :=
  Db.mk (Db.order_line e3_db) (Db.product e3_db)
    [ ContactEvent.mk "C001" (e3_today - 200);
      ContactEvent.mk "C002" (e3_today - 1);
      ContactEvent.mk "C001" (e3_today - days_ago) ]
    [].

(** An audit log with one row, PENDING since time 0, and the same log
    after the row was rejected at time 1, or flagged. *)
Definition audit_pending : gmap string AuditLogDB.t :=
  {[ "a1" := AuditLogDB.mk "run-1" "C001" "WINE001" "REBUY" 40%Q PENDING None 0
               None None (Some []) ]}.

Definition audit_rejected : gmap string AuditLogDB.t :=
  snd (AuditService.reject_recommendation audit_pending 1 "a1" "admin" "Score too low").

Definition audit_flagged : gmap string AuditLogDB.t :=
  snd (AuditService.flag_recommendation audit_pending "a1" "Needs manual review").

(** A product table with four products NURTURE may propose (A, B, E, F),
    one without family (C) and one not popular enough (D); C001 has one
    order line, C002 none. Two draws of the store's random numbers. *)
Definition nurture_db : Db.t :=
  Db.mk
    [ OrderLine.mk "C001" "A" (Some 0) (Some 20%Q) ]
    [ Product.mk "A" None (Some "Red") (Some 0.5%Q);
      Product.mk "B" None (Some "White") (Some 0.3%Q);
      Product.mk "C" None None (Some 0.9%Q);
      Product.mk "D" None (Some "Rose") (Some 0.2%Q);
      Product.mk "E" None (Some "Red") (Some 0.7%Q);
      Product.mk "F" None (Some "Red") (Some 0.6%Q) ]
    [] [].

Definition draw_up (i : nat) : Q := inject_Z (Z.of_nat i).
Definition draw_down (i : nat) : Q := inject_Z (- Z.of_nat i).

(** A file of three validated rows, the third equal to the first, with
    rows standing for their own JSON text and a stand-in digest. *)
Definition raw_rows : list string := ["{c1}"; "{c2}"; "{c1}"].
Definition repeated_rows : list string := ["{c1}"; "{c1}"; "{c1}"].
Definition json_text (row : string) : string := row.
Definition json_text_opt (row : string) : option string := Some row.
Definition digest (s : string) : string := "sha256:" +:+ s.
Definition empty_raw_table : RawTable.t := RawTable.mk [] 1.

(** A customers file whose first row for C1 has a malformed email and
    whose third row, for the same code, is well formed. *)
Definition customer_row (code : string) (email : option string) : CustomerRow.t :=
  CustomerRow.mk (Some code) None None email None None (Some "75001") None None.

Definition customers_batch : list CustomerRow.t :=
  [ customer_row " C1 " (Some "not-an-email");
    customer_row "C2" None;
    customer_row "C1" (Some " Jean@Ex.com ") ].

(** Two customers: C001 with three order lines, C002 with none. *)
Definition profiles_db : TransformDb.t :=
  TransformDb.mk ["C001"; "C002"]
    [ OrderLine.mk "C001" "WINE001" (Some 10) (Some 900%Q);
      OrderLine.mk "C001" "WINE002" (Some 20) (Some 800%Q);
      OrderLine.mk "C001" "WINE001" (Some 30) (Some 700%Q) ]
    ∅.

(** Staging rows of customers: [(id, row_data)]. *)
Definition staged (code : string) (email phone : Value) : Row :=
  [ ("customer_code", VStr code); ("last_name", VStr "Dupont");
    ("email", email); ("phone", phone) ].

(** Two rows without email that share a phone number. *)
Definition same_phone_batch : list (Z * Row) :=
  [ (1, staged "C001" VNone (VStr "+33612345678"));
    (2, staged "C002" VNone (VStr "+33612345678")) ].

(** E2: three rows with the emails a@x, a@x, b@x. *)
Definition e2_batch : list (Z * Row) :=
  [ (1, staged "C001" (VStr "a@x") VNone);
    (2, staged "C002" (VStr "a@x") VNone);
    (3, staged "C003" (VStr "b@x") VNone) ].

(** E6: two recommendations with the scores 85 and 40. *)
Definition e6_recos : list GatingService.reco :=
  [ GatingService.mk_reco "C001" "WINE001" 85%Q;
    GatingService.mk_reco "C001" "WINE002" 40%Q ].


(** Two aliases of one product and an alias whose key is empty. *)
Definition alias_rows : list (string * string) :=
  [ ("pinot noir 2022", "PINOT_NOIR_2022");
    ("pinot noir", "PINOT_NOIR_2022");
    ("riesling", "") ].


(** A customer whose only order is 400 days old on day 1000, another who
    bought 10 days ago, and four popular products out of five. *)
Definition winback_db : Db.t :=
  Db.mk
    [ OrderLine.mk "C001" "WINE001" (Some 600) (Some 50%Q);
      OrderLine.mk "C002" "WINE001" (Some 990) (Some 50%Q) ]
    [ Product.mk "WINE001" (Some "Pinot") (Some "Red") (Some 0.75%Q);
      Product.mk "WINE002" (Some "Riesling") (Some "White") (Some 0.9%Q);
      Product.mk "WINE003" (Some "Gamay") (Some "Red") (Some 0.5%Q);
      Product.mk "WINE004" (Some "Sylvaner") (Some "White") (Some 0.8%Q);
      Product.mk "WINE005" (Some "Muscat") (Some "White") (Some 0.7%Q) ]
    [] [].


(** The recommendations of two runs: run r1 proposes three products to
    two customers, run r2 one product to one customer. *)
Definition run_items : list RunItem.t :=
  [ RunItem.mk "r1" "C001" "WINE001" 80%Q;
    RunItem.mk "r1" "C001" "WINE002" 70%Q;
    RunItem.mk "r2" "C003" "WINE001" 90%Q;
    RunItem.mk "r1" "C002" "WINE001" 90%Q ].

End Examples.

(** * Properties *)

(** ** Helper lemmas on the Python model *)

Lemma Qlt_bool_true (x y : Q) : Py.Qlt_bool x y = true -> (x < y)%Q.
Proof.
  unfold Py.Qlt_bool. intros H. apply negb_true_iff in H.
  apply Qnot_le_lt. intros Hle. apply Qle_bool_iff in Hle. congruence.
Qed.

Lemma Qlt_bool_false (x y : Q) : Py.Qlt_bool x y = false -> (y <= x)%Q.
Proof.
  unfold Py.Qlt_bool. intros H. apply negb_false_iff in H.
  now apply Qle_bool_iff.
Qed.

Lemma len_app {A} (l1 l2 : list A) : Py.len (l1 ++ l2) = Py.len l1 + Py.len l2.
Proof. unfold Py.len. rewrite length_app. lia. Qed.

Lemma len_nonneg {A} (l : list A) : 0 <= Py.len l.
Proof. unfold Py.len. lia. Qed.

Lemma enumerate_fst {A} (l : list A) (start : Z) :
  List.map fst (Py.enumerate start l) = seqZ start (Py.len l).
Proof.
  revert start. induction l as [|x l IH]; intros start; simpl.
  - reflexivity.
  - unfold Py.len. simpl length. rewrite Nat2Z.inj_succ.
    rewrite seqZ_cons by lia. f_equal.
    rewrite IH. unfold Py.len. f_equal; lia.
Qed.

Lemma enumerate_snd {A} (l : list A) (start : Z) :
  List.map snd (Py.enumerate start l) = l.
Proof.
  revert start. induction l as [|x l IH]; intros start; simpl; [done|].
  now rewrite IH.
Qed.

Lemma enumerate_length {A} (l : list A) (start : Z) :
  length (Py.enumerate start l) = length l.
Proof. revert start. induction l; intros; simpl; auto. Qed.

Section SortedDesc.
Context {A : Type} (key : A -> Q).

Local Abbreviation desc := (Py.desc key).

Lemma insert_desc_Forall (P : A -> Prop) x l :
  P x -> Forall P l -> Forall P (Py.insert_desc key x l).
Proof.
  intros Hx Hl. induction Hl as [|y l Hy Hl IH]; simpl.
  - auto.
  - destruct (Py.Qlt_bool (key x) (key y)); auto.
Qed.

Lemma insert_desc_sorted x l :
  StronglySorted desc l -> StronglySorted desc (Py.insert_desc key x l).
Proof.
  induction 1 as [|y l Hs IH Hy]; simpl.
  - repeat constructor.
  - destruct (Py.Qlt_bool (key x) (key y)) eqn:E.
    + constructor; [exact IH|].
      apply insert_desc_Forall; [|exact Hy].
      apply Qlt_bool_true in E. unfold Py.desc. now apply Qlt_le_weak.
    + apply Qlt_bool_false in E.
      constructor; [constructor; assumption|].
      constructor; [exact E|].
      eapply Forall_impl; [exact Hy|].
      intros z Hz. unfold Py.desc in *. eapply Qle_trans; eassumption.
Qed.

Lemma sorted_desc_sorted l : StronglySorted desc (Py.sorted_desc key l).
Proof.
  induction l as [|x l IH]; simpl.
  - constructor.
  - now apply insert_desc_sorted.
Qed.

Lemma take_sorted n l : StronglySorted desc l -> StronglySorted desc (take n l).
Proof.
  intros H. revert n. induction H as [|y l Hs IH Hy]; intros [|n]; simpl;
    try constructor; auto.
  apply Forall_take. exact Hy.
Qed.

End SortedDesc.

Lemma slice_to_sorted {A} (key : A -> Q) l k :
  StronglySorted (Py.desc key) l -> StronglySorted (Py.desc key) (Py.slice_to l k).
Proof. intros H. unfold Py.slice_to. destruct (0 <=? k); now apply take_sorted. Qed.

Lemma slice_to_len {A} (l : list A) k : 0 <= k -> Py.len (Py.slice_to l k) <= k.
Proof.
  intros Hk. unfold Py.slice_to, Py.len.
  destruct (Z.leb_spec 0 k); [|lia]. rewrite length_take. lia.
Qed.

(** ** The diversifier keeps the head of the ranking *)

Lemma diversify_loop_prefix db K ranked selected used :
  Py.len selected < K ->
  Scorer.diversify_loop db K ranked selected used
  = selected ++ take (Z.to_nat (K - Py.len selected)) ranked.
Proof.
  revert selected used. induction ranked as [|score rest IH]; intros selected used Hlt.
  - simpl. now rewrite take_nil, app_nil_r.
  - cbn [Scorer.diversify_loop].
    assert (Hstep : exists used',
      (let '(selected', used') :=
         match selected with
         | [] =>
             (selected ++ [score],
              if Py.truthy_str (Scorer.family_of db (RecoScore.product_key score))
              then {[Scorer.family_of db (RecoScore.product_key score)]} ∪ used
              else used)
         | _ :: _ =>
             if bool_decide (Scorer.family_of db (RecoScore.product_key score) ∉ used)
             then (selected ++ [score],
                   {[Scorer.family_of db (RecoScore.product_key score)]} ∪ used)
             else if Py.len selected <? K then (selected ++ [score], used)
             else (selected, used)
         end in
       if K <=? Py.len selected' then selected'
       else Scorer.diversify_loop db K rest selected' used')
      = (if K <=? Py.len (selected ++ [score]) then selected ++ [score]
         else Scorer.diversify_loop db K rest (selected ++ [score]) used')).
    { destruct selected as [|s0 sel].
      - eexists. reflexivity.
      - destruct (bool_decide _).
        + eexists. reflexivity.
        + destruct (Z.ltb_spec (Py.len (s0 :: sel)) K); [|lia].
          eexists. reflexivity. }
    destruct Hstep as [used' ->].
    assert (Hlen : Py.len (selected ++ [score]) = Py.len selected + 1).
    { rewrite len_app. reflexivity. }
    replace (Z.to_nat (K - Py.len selected))
      with (S (Z.to_nat (K - Py.len selected - 1))) by lia.
    rewrite firstn_cons.
    destruct (Z.leb_spec K (Py.len (selected ++ [score]))) as [Hge|Hlt'].
    + replace (Z.to_nat (K - Py.len selected - 1)) with 0%nat by lia.
      now rewrite take_0.
    + rewrite IH by exact Hlt'. rewrite Hlen, <- app_assoc. simpl.
      do 3 f_equal. lia.
Qed.

Lemma diversify_prefix db ranked K :
  1 <= K ->
  Scorer.diversify_recommendations db ranked K = take (Z.to_nat K) ranked.
Proof.
  intros HK. unfold Scorer.diversify_recommendations.
  destruct ranked as [|s rest]; [now rewrite take_nil|].
  rewrite diversify_loop_prefix by (unfold Py.len; simpl; lia).
  simpl app. unfold Py.len. simpl length. f_equal. lia.
Qed.

(** ** Diversification *)

(** C2 (diversification): on the ranked candidates (REBUY, P1, Red, 90),
    (REBUY, P2, Red, 88), (CROSS_SELL, P3, White, 70) with K = 3 the
    diversifier returns P1, P2, P3 in that order: P2, of a family already
    present, is taken during the pass because the slate is not yet full,
    so P3 does not move ahead of it. The procedure the specification
    words, with the same-family candidates held back until the pass is
    over, gives P1, P3, P2. *)
Theorem diversify_e5 :
  List.map RecoScore.product_key
    (Scorer.diversify_recommendations Examples.e5_db Examples.e5_ranked 3)
  = ["P1"; "P2"; "P3"]
  /\ List.map RecoScore.product_key
       (Scorer.specified_diversification Examples.e5_db Examples.e5_ranked 3)
     = ["P1"; "P3"; "P2"].
Proof. vm_compute. split; reflexivity. Qed.

(** ** Scoring *)

Lemma truthy_Q_nonzero (q : Q) : ~ (q == 0)%Q -> Py.truthy_Q (Some q) = true.
Proof.
  intros Hq. unfold Py.truthy_Q. apply negb_true_iff.
  destruct (Qeq_bool q 0) eqn:E; [|reflexivity].
  apply Qeq_bool_iff in E. contradiction.
Qed.

Lemma truthy_Q_zero (q : Q) : (q == 0)%Q -> Py.truthy_Q (Some q) = false.
Proof.
  intros Hq. unfold Py.truthy_Q. apply negb_false_iff. now apply Qeq_bool_iff.
Qed.

(** The example E3 of the scoring formula in binary64: the popularity
    0.8 scales to exactly 80 and the weighted sum is exactly 78.5. *)
Module Binary64Facts.
Import Floats.PrimFloat.
#[local] Set Warnings "-inexact-float".

Lemma e3_final_score_binary64 :
  Binary64.popularity_score 0.8 = 80%float
  /\ Binary64.final_score 75 (Binary64.popularity_score 0.8)
       (Binary64.popularity_score 0.8) 85 = 78.5%float.
Proof. vm_compute. split; reflexivity. Qed.

(** C4 (scoring formula), at a product whose recorded popularity is 0:
    the claim gives it the popularity and profit scores 100 * 0 = 0; the
    code finds the zero falsy and returns the neutral 50 for both, as for
    a missing value. The same holds of the source's expression evaluated
    in binary64. *)
Theorem popularity_zero_scores_50 :
  let s := Scorer.score_recommendation Examples.zero_popularity_db
             "C001" "WINE001" "REBUY" 85%Q in
  Product.popularity_score <$> Db.fetch_product Examples.zero_popularity_db "WINE001"
    = Some (Some 0%Q)
  /\ RecoScore.popularity_score s = 50%Q
  /\ RecoScore.profit_score s = 50%Q
  /\ ~ (RecoScore.popularity_score s == 100 * 0)%Q
  /\ Binary64.compute_popularity_score (Some (Some 0%float)) = 50%float
  /\ (Binary64.compute_popularity_score (Some (Some 0%float)) =? 100 * 0)%float = false.
Proof.
  vm_compute. repeat split; try reflexivity. intros H; discriminate H.
Qed.

End Binary64Facts.

(** ** The rank contract *)

Lemma weakly_decreasing_map {A} (key : A -> Q) (l : list A) :
  StronglySorted (Py.desc key) l -> Py.weakly_decreasing (List.map key l).
Proof.
  unfold Py.weakly_decreasing.
  induction 1 as [|x l Hs IH Hx]; simpl; constructor; [exact IH|].
  apply Forall_map. exact Hx.
Qed.

(** What steps 4 hands to step 5: at most K scores, never increasing. *)
Lemma ranked_diversified db scores K :
  0 <= K ->
  let diversified :=
    Scorer.diversify_recommendations db (Scorer.rank_recommendations scores K) K in
  Py.len diversified <= K
  /\ StronglySorted (Py.desc RecoScore.final_score) diversified.
Proof.
  intros HK diversified. subst diversified.
  assert (Hs : StronglySorted (Py.desc RecoScore.final_score)
                 (Scorer.rank_recommendations scores K)).
  { unfold Scorer.rank_recommendations. apply slice_to_sorted, sorted_desc_sorted. }
  assert (Hl : Py.len (Scorer.rank_recommendations scores K) <= K).
  { unfold Scorer.rank_recommendations. now apply slice_to_len. }
  destruct (Z.eq_dec K 0) as [->|Hne].
  - destruct (Scorer.rank_recommendations scores 0) as [|s l] eqn:E.
    + simpl. split; [unfold Py.len; simpl; lia|constructor].
    + unfold Py.len in Hl. simpl in Hl. lia.
  - rewrite diversify_prefix by lia. split.
    + unfold Py.len. rewrite length_take. lia.
    + now apply take_sorted.
Qed.

Lemma build_items_rank ge db c diversified :
  List.map RecommendationItem.rank
    (RecommendationEngine.build_items ge db c diversified)
  = seqZ 1 (Py.len diversified).
Proof.
  unfold RecommendationEngine.build_items.
  rewrite <- enumerate_fst. generalize 1.
  induction diversified as [|s l IH]; intros start; simpl; [reflexivity|].
  now rewrite IH.
Qed.

Lemma build_items_score ge db c diversified :
  List.map RecommendationItem.score
    (RecommendationEngine.build_items ge db c diversified)
  = diversified.
Proof.
  unfold RecommendationEngine.build_items.
  generalize 1.
  induction diversified as [|s l IH]; intros start; simpl; [reflexivity|].
  now rewrite IH.
Qed.

Lemma build_items_length ge db c diversified :
  length (RecommendationEngine.build_items ge db c diversified) = length diversified.
Proof.
  unfold RecommendationEngine.build_items.
  now rewrite length_map, enumerate_length.
Qed.

(** C5 (rank contract): when [generate_recommendations] succeeds with a
    non-negative K, the rows it adds to [reco_item] all carry the run and
    the customer, their ranks are 1, 2, ..., k in order with k <= K, and
    their total scores never increase along the ranks; the same holds of
    the items of the returned result. *)
Theorem rank_contract {Features : Type}
    (compute_customer_features : Db.t -> string -> Features)
    (match_rebuy match_cross_sell match_upsell match_winback
       : Db.t -> string -> option (list string))
    (generate_explanation : Db.t -> string -> string -> string -> Explanation.t)
    (db : Db.t) (today : Z) (run_id : string) (random : nat -> Q)
    (commit_ok : bool) (customer_code : string) (K : Z) (enable_silence_check : bool)
    (result : RecommendationResult.t Features) (db' : Db.t) :
  0 <= K ->
  RecommendationEngine.generate_recommendations compute_customer_features
    match_rebuy match_cross_sell match_upsell match_winback generate_explanation
    db today run_id random commit_ok customer_code K enable_silence_check
  = (result, true, db') ->
  (exists new : list RecoItem.t,
     Db.reco_item db' = Db.reco_item db ++ new
     /\ Forall (fun r => RecoItem.reco_run_id r = run_id
                         /\ RecoItem.customer_code r = customer_code) new
     /\ List.map RecoItem.rank new = seqZ 1 (Py.len new)
     /\ Py.len new <= K
     /\ Py.weakly_decreasing (List.map RecoItem.score_total new))
  /\ (let items := RecommendationResult.recommendations result in
      List.map RecommendationItem.rank items = seqZ 1 (Py.len items)
      /\ Py.len items <= K
      /\ Py.weakly_decreasing
           (List.map (fun i => RecoScore.final_score (RecommendationItem.score i)) items)).
Proof.
  intros HK Hrun.
  unfold RecommendationEngine.generate_recommendations in Hrun.
  destruct (enable_silence_check && _); [congruence|].
  destruct (ScenarioMatcher.match_scenarios _ _ _ _ _ _ _) as [|sm sms] eqn:Esm;
    [congruence|].
  destruct (RecommendationEngine.score_all _ _ _) as [|sc scs] eqn:Esc;
    [congruence|].
  set (scores := sc :: scs) in *.
  pose proof (ranked_diversified db scores K HK) as [Hlen Hsorted].
  set (diversified :=
         Scorer.diversify_recommendations db
           (Scorer.rank_recommendations scores K) K) in *.
  set (items := RecommendationEngine.build_items generate_explanation db
                  customer_code diversified) in *.
  assert (Hranks : List.map RecommendationItem.rank items
                   = seqZ 1 (Py.len items)).
  { subst items. rewrite build_items_rank.
    unfold Py.len. now rewrite build_items_length. }
  assert (Hilen : Py.len items <= K).
  { subst items. unfold Py.len in *. now rewrite build_items_length. }
  assert (Hdec : Py.weakly_decreasing
            (List.map (fun i => RecoScore.final_score (RecommendationItem.score i)) items)).
  { rewrite <- (List.map_map RecommendationItem.score RecoScore.final_score).
    subst items. rewrite build_items_score. now apply weakly_decreasing_map. }
  injection Hrun as <- <-.
  split; [|cbn [RecommendationResult.recommendations]; auto].
  unfold RecommendationEngine.save_recommendations.
  destruct commit_ok.
  - exists (List.map (RecommendationEngine.reco_row db run_id customer_code) items).
    cbn [Db.reco_item]. split; [reflexivity|].
    split; [apply Forall_map, Forall_forall; intros; split; reflexivity|].
    rewrite !List.map_map. cbn [RecommendationEngine.reco_row RecoItem.rank
      RecoItem.score_total].
    split; [|split].
    + unfold Py.len. rewrite length_map. exact Hranks.
    + unfold Py.len. rewrite length_map. exact Hilen.
    + exact Hdec.
  - exists []. rewrite app_nil_r. split; [reflexivity|].
    split; [constructor|]. split; [reflexivity|].
    split; [unfold Py.len; simpl; lia|constructor].
Qed.

(** The rank contract at E3: the run for C001 succeeds with K = 3 and
    writes its rows, ranked from 1. *)
Lemma rank_contract_witness :
  (0 <= 3)
  /\ (exists new : list RecoItem.t,
        Db.reco_item (snd (Examples.recommend Examples.e3_db Examples.e3_today "C001" 3 true))
        = Db.reco_item Examples.e3_db ++ new
        /\ Forall (fun r => RecoItem.reco_run_id r = "run-1"
                            /\ RecoItem.customer_code r = "C001") new
        /\ List.map RecoItem.rank new = seqZ 1 (Py.len new)
        /\ Py.len new <= 3
        /\ Py.weakly_decreasing (List.map RecoItem.score_total new)).
Proof.
  split; [lia|].
  refine (proj1 (rank_contract Examples.features_none Examples.rebuy_bought
            Examples.match_nothing Examples.match_nothing Examples.match_nothing
            Examples.explain_plain Examples.e3_db Examples.e3_today "run-1"
            Examples.no_random true "C001" 3 true
            (fst (fst (Examples.recommend Examples.e3_db Examples.e3_today "C001" 3 true)))
            (snd (Examples.recommend Examples.e3_db Examples.e3_today "C001" 3 true))
            _ _)).
  - lia.
  - vm_compute. reflexivity.
Defined.

(** ** The silence window *)

Lemma max_contact_date_spec db c :
  match FeatureComputer.max_contact_date db c with
  | None => FeatureComputer.contacts_of db c = []
  | Some m =>
      (exists e, In e (FeatureComputer.contacts_of db c)
                 /\ ContactEvent.contact_date e = m)
      /\ (forall e, In e (FeatureComputer.contacts_of db c) ->
                    ContactEvent.contact_date e <= m)
  end.
Proof.
  unfold FeatureComputer.max_contact_date.
  induction (FeatureComputer.contacts_of db c) as [|e l IH]; simpl; [reflexivity|].
  destruct (List.fold_right _ None l) as [m|].
  - destruct IH as [[e0 [Hin Heq]] Hmax]. split.
    + destruct (Z.max_spec (ContactEvent.contact_date e) m) as [[_ ->]|[_ ->]].
      * exists e0. auto.
      * exists e. auto.
    + intros e' [<-|Hin']; [lia|]. specialize (Hmax e' Hin'). lia.
  - subst l. split.
    + exists e. auto.
    + intros e' [<-|[]]. lia.
Qed.

(** C6 (silence window): the check holds exactly when the customer has a
    contact event and the latest one is strictly less than N days before
    today; when it holds for the engine's N = 30 and the check is
    enabled, [generate_recommendations] returns the empty result with
    success = false and leaves the store as it was, so no RecoItem is
    written; a latest contact N - 1 days ago is inside the window and one
    exactly N days ago is outside, where the enabled engine does what the
    disabled one does. *)
Theorem silence_window :
  (forall db today customer_code N,
     FeatureComputer.get_silence_window db today customer_code N = true
     <-> exists e,
           In e (FeatureComputer.contacts_of db customer_code)
           /\ (forall e', In e' (FeatureComputer.contacts_of db customer_code) ->
                          ContactEvent.contact_date e' <= ContactEvent.contact_date e)
           /\ today - ContactEvent.contact_date e < N)
  /\ (forall (Features : Type) (compute_customer_features : Db.t -> string -> Features)
        match_rebuy match_cross_sell match_upsell match_winback generate_explanation
        db today run_id random commit_ok customer_code K,
        FeatureComputer.get_silence_window db today customer_code 30 = true ->
        RecommendationEngine.generate_recommendations compute_customer_features
          match_rebuy match_cross_sell match_upsell match_winback generate_explanation
          db today run_id random commit_ok customer_code K true
        = (RecommendationResult.mk Features customer_code run_id []
             (compute_customer_features db customer_code) [],
           false, db))
  /\ (forall db today customer_code N last,
        FeatureComputer.max_contact_date db customer_code = Some last ->
        (last = today - (N - 1) ->
         FeatureComputer.get_silence_window db today customer_code N = true)
        /\ (last = today - N ->
            FeatureComputer.get_silence_window db today customer_code N = false))
  /\ (forall (Features : Type) (compute_customer_features : Db.t -> string -> Features)
        match_rebuy match_cross_sell match_upsell match_winback generate_explanation
        db today run_id random commit_ok customer_code K,
        FeatureComputer.max_contact_date db customer_code = Some (today - 30) ->
        RecommendationEngine.generate_recommendations compute_customer_features
          match_rebuy match_cross_sell match_upsell match_winback generate_explanation
          db today run_id random commit_ok customer_code K true
        = RecommendationEngine.generate_recommendations compute_customer_features
            match_rebuy match_cross_sell match_upsell match_winback generate_explanation
            db today run_id random commit_ok customer_code K false).
Proof.
  split; [|split; [|split]].
  - intros db today c N. unfold FeatureComputer.get_silence_window.
    pose proof (max_contact_date_spec db c) as Hspec.
    destruct (FeatureComputer.max_contact_date db c) as [m|].
    + destruct Hspec as [[e [Hin Heq]] Hmax]. rewrite Z.ltb_lt. split.
      * intros Hlt. exists e. subst m. auto.
      * intros [e' [Hin' [Hmax' Hlt]]].
        specialize (Hmax e' Hin'). specialize (Hmax' e Hin). lia.
    + split; [discriminate|]. intros [e [Hin _]]. rewrite Hspec in Hin.
      destruct Hin.
  - intros Features cf mr mc mu mw ge db today run random ok c K Hsil.
    unfold RecommendationEngine.generate_recommendations.
    rewrite Hsil. reflexivity.
  - intros db today c N last Hmax.
    unfold FeatureComputer.get_silence_window. rewrite Hmax. split; intros ->.
    + apply Z.ltb_lt. lia.
    + apply Z.ltb_ge. lia.
  - intros Features cf mr mc mu mw ge db today run random ok c K Hmax.
    unfold RecommendationEngine.generate_recommendations.
    unfold FeatureComputer.get_silence_window. rewrite Hmax.
    replace (today - (today - 30) <? 30) with false by (symmetry; apply Z.ltb_ge; lia).
    reflexivity.
Qed.

(** The silence window at E4 and at the two boundaries: a last contact
    10 or 29 days ago stops the run for C001 with nothing written, one 30
    days ago does not stop it. *)
Lemma silence_window_witness :
  (Examples.recommend (Examples.contacted_db 10) Examples.e3_today "C001" 3 true
   = (RecommendationResult.mk unit "C001" "run-1" [] tt [], false,
      Examples.contacted_db 10))
  /\ FeatureComputer.get_silence_window (Examples.contacted_db 29)
       Examples.e3_today "C001" 30 = true
  /\ FeatureComputer.get_silence_window (Examples.contacted_db 30)
       Examples.e3_today "C001" 30 = false
  /\ snd (fst (Examples.recommend (Examples.contacted_db 30) Examples.e3_today
                 "C001" 3 true)) = true.
Proof.
  destruct silence_window as (_ & Hstop & Hedge & _).
  split; [|split; [|split]].
  - apply (Hstop unit). vm_compute. reflexivity.
  - apply (proj1 (Hedge (Examples.contacted_db 29) Examples.e3_today "C001" 30
                    (Examples.e3_today - 29) eq_refl)).
    reflexivity.
  - apply (proj2 (Hedge (Examples.contacted_db 30) Examples.e3_today "C001" 30
                    (Examples.e3_today - 30) eq_refl)).
    reflexivity.
  - vm_compute. reflexivity.
Defined.

(** ** The audit lifecycle *)

Lemma serve_status table now audit_id r :
  is_Some (table !! audit_id) ->
  fst (AuditService.serve table now audit_id r) = true
  /\ AuditService.status_of (snd (AuditService.serve table now audit_id r)) audit_id
     = Some (AuditService.target r).
Proof.
  intros [e He]. unfold AuditService.status_of.
  destruct r; simpl;
    unfold AuditService.approve_recommendation, AuditService.reject_recommendation,
      AuditService.flag_recommendation;
    rewrite He; simpl; rewrite lookup_insert_eq; auto.
Qed.

Lemma serve_other table now audit_id r other :
  other <> audit_id ->
  snd (AuditService.serve table now audit_id r) !! other = table !! other.
Proof.
  intros Hne.
  destruct r; simpl;
    unfold AuditService.approve_recommendation, AuditService.reject_recommendation,
      AuditService.flag_recommendation;
    destruct (table !! audit_id); simpl; try reflexivity;
    now rewrite lookup_insert_ne.
Qed.

Lemma serve_missing table now audit_id r :
  table !! audit_id = None ->
  AuditService.serve table now audit_id r = (false, table).
Proof.
  intros Hnone.
  destruct r; simpl;
    unfold AuditService.approve_recommendation, AuditService.reject_recommendation,
      AuditService.flag_recommendation;
    now rewrite Hnone.
Qed.

(** C7, where the claim fails: an entry that was rejected, and one that
    was flagged, is moved to APPROVED by [approve_recommendation], which
    reports success. *)
Lemma approve_after_reject :
  AuditService.status_of Examples.audit_rejected "a1" = Some REJECTED
  /\ fst (AuditService.approve_recommendation Examples.audit_rejected 2 "a1" "admin" None)
     = true
  /\ AuditService.status_of
       (snd (AuditService.approve_recommendation Examples.audit_rejected 2 "a1" "admin" None))
       "a1" = Some APPROVED
  /\ AuditService.status_of Examples.audit_flagged "a1" = Some FLAGGED
  /\ AuditService.status_of
       (snd (AuditService.approve_recommendation Examples.audit_flagged 2 "a1" "admin" None))
       "a1" = Some APPROVED.
Proof. vm_compute. repeat split. Qed.

(** C7, amended: on an existing entry each of approve, reject and flag
    succeeds and writes its own status (APPROVED, REJECTED, FLAGGED)
    whatever the status was, and touches no other entry; so after any
    non-empty sequence of requests the status is the one of the last
    request, and an entry that is REJECTED or FLAGGED is moved to APPROVED
    by an approval; on a missing [audit_id] a request returns false and
    changes nothing. *)
Theorem audit_last_write_wins :
  (forall table now audit_id r,
        is_Some (table !! audit_id) ->
        fst (AuditService.serve table now audit_id r) = true
        /\ AuditService.status_of (snd (AuditService.serve table now audit_id r)) audit_id
           = Some (AuditService.target r)
        /\ forall other, other <> audit_id ->
             snd (AuditService.serve table now audit_id r) !! other = table !! other)
  /\ (forall table audit_id rs now r,
        is_Some (table !! audit_id) ->
        AuditService.status_of
          (AuditService.serve_all table audit_id (rs ++ [(now, r)])) audit_id
        = Some (AuditService.target r))
  /\ (forall table now audit_id r,
        table !! audit_id = None ->
        AuditService.serve table now audit_id r = (false, table)).
Proof.
  split; [|split].
  - intros table now audit_id r Hsome.
    destruct (serve_status table now audit_id r Hsome) as [H1 H2].
    split; [exact H1|]. split; [exact H2|].
    intros other Hne. now apply serve_other.
  - intros table audit_id rs. revert table.
    induction rs as [|[now0 r0] rs IH]; intros table now r Hsome.
    + simpl. now apply serve_status.
    + simpl. apply IH.
      destruct (serve_status table now0 audit_id r0 Hsome) as [_ Hst].
      unfold AuditService.status_of in Hst.
      destruct (snd (AuditService.serve table now0 audit_id r0) !! audit_id);
        [eauto|discriminate].
  - intros. now apply serve_missing.
Qed.

(** The amended lifecycle on the log of one rejected entry: approving
    succeeds and the entry ends APPROVED, also after a flag in between. *)
Lemma audit_last_write_wins_witness :
  is_Some (Examples.audit_rejected !! "a1")
  /\ AuditService.status_of
       (snd (AuditService.serve Examples.audit_rejected 2 "a1"
               (AuditService.Approve "admin" None))) "a1"
     = Some APPROVED
  /\ AuditService.status_of
       (AuditService.serve_all Examples.audit_rejected "a1"
          ([(2, AuditService.Flag "check")] ++ [(3, AuditService.Approve "admin" None)]))
       "a1"
     = Some APPROVED.
Proof.
  assert (Hsome : is_Some (Examples.audit_rejected !! "a1")).
  { vm_compute. eauto. }
  destruct audit_last_write_wins as (Hone & Hall & _).
  split; [exact Hsome|]. split.
  - exact (proj1 (proj2 (Hone Examples.audit_rejected 2 "a1"
                           (AuditService.Approve "admin" None) Hsome))).
  - exact (Hall Examples.audit_rejected "a1" [(2, AuditService.Flag "check")] 3
             (AuditService.Approve "admin" None) Hsome).
Defined.

(** ** The NURTURE producer *)

Lemma insert_asc_perm {A} (key : A -> Q) x l : Py.insert_asc key x l ≡ₚ x :: l.
Proof.
  induction l as [|y l IH]; simpl; [reflexivity|].
  destruct (Py.Qlt_bool (key y) (key x)); [|reflexivity].
  rewrite IH. apply Permutation_swap.
Qed.

Lemma sorted_asc_perm {A} (key : A -> Q) l : Py.sorted_asc key l ≡ₚ l.
Proof.
  induction l as [|x l IH]; simpl; [reflexivity|].
  rewrite insert_asc_perm. now rewrite IH.
Qed.

Lemma imap_snd {A} (f : nat -> Q) (l : list A) :
  List.map snd (imap (fun i p => (f i, p)) l) = l.
Proof.
  revert f. induction l as [|x l IH]; intros f; simpl; [reflexivity|].
  f_equal. apply (IH (fun i => f (S i))).
Qed.

Lemma order_by_random_perm random rows :
  ScenarioMatcher.order_by_random random rows ≡ₚ rows.
Proof.
  unfold ScenarioMatcher.order_by_random.
  rewrite sorted_asc_perm. now rewrite imap_snd.
Qed.

Lemma nurture_eligible_spec p :
  ScenarioMatcher.nurture_eligible p = true
  <-> (exists pop, Product.popularity_score p = Some pop /\ (0.3 <= pop)%Q)
      /\ Product.family p <> None.
Proof.
  unfold ScenarioMatcher.nurture_eligible. rewrite andb_true_iff, bool_decide_eq_true.
  destruct (Product.popularity_score p) as [pop|].
  - rewrite Qle_bool_iff. split.
    + intros [H1 H2]. split; [eauto|exact H2].
    + intros [[q [[= <-] H1]] H2]. auto.
  - split.
    + intros [H _]. discriminate H.
    + intros [[q [H _]] _]. discriminate H.
Qed.

(** C8, where the claim fails: over one product table and for the one
    customer C001 (one order line), two draws of the store's random
    numbers give two different product lists; and C002, who has no order
    line at all, gets no list. *)
Lemma nurture_not_reproducible :
  ScenarioMatcher.match_nurture Examples.nurture_db Examples.draw_up "C001"
    = Some ["A"; "B"; "E"]
  /\ ScenarioMatcher.match_nurture Examples.nurture_db Examples.draw_down "C001"
     = Some ["F"; "E"; "B"]
  /\ ScenarioMatcher.match_nurture Examples.nurture_db Examples.draw_up "C001"
     <> ScenarioMatcher.match_nurture Examples.nurture_db Examples.draw_down "C001"
  /\ Py.len (Db.orders_of Examples.nurture_db "C002") <= 3
  /\ ScenarioMatcher.match_nurture Examples.nurture_db Examples.draw_up "C002" = None.
Proof.
  vm_compute. repeat split; discriminate.
Qed.

Lemma insert_asc_Forall {A} (key : A -> Q) (P : A -> Prop) x l :
  P x -> Forall P l -> Forall P (Py.insert_asc key x l).
Proof.
  intros Hx Hl. induction Hl as [|y l Hy Hl IH]; simpl.
  - auto.
  - destruct (Py.Qlt_bool (key y) (key x)); auto.
Qed.

Lemma insert_asc_sorted {A} (key : A -> Q) x l :
  StronglySorted (fun a b => (key a <= key b)%Q) l ->
  StronglySorted (fun a b => (key a <= key b)%Q) (Py.insert_asc key x l).
Proof.
  induction 1 as [|y l Hs IH Hy]; simpl.
  - repeat constructor.
  - destruct (Py.Qlt_bool (key y) (key x)) eqn:E.
    + constructor; [exact IH|].
      apply insert_asc_Forall; [|exact Hy].
      apply Qlt_bool_true in E. now apply Qlt_le_weak.
    + apply Qlt_bool_false in E.
      constructor; [constructor; assumption|].
      constructor; [exact E|].
      eapply Forall_impl; [exact Hy|].
      intros z Hz. cbv beta in *. eapply Qle_trans; eassumption.
Qed.

Lemma sorted_asc_sorted {A} (key : A -> Q) l :
  StronglySorted (fun a b => (key a <= key b)%Q) (Py.sorted_asc key l).
Proof.
  induction l as [|x l IH]; simpl.
  - constructor.
  - now apply insert_asc_sorted.
Qed.

(** C8, amended: NURTURE answers only for a customer with 1 to 3 order
    lines. The store gives each product with popularity >= 0.3 and a
    non-null family a random number, and the answer is the keys of the
    first three of these products in increasing order of their numbers
    (all of them when fewer qualify, no answer when none qualifies); a
    customer with no order line or more than three gets no answer. The
    numbers are the only source of variation and nothing seeds them: two
    executions that draw the same numbers agree, and there are two draws
    on which the answers for one customer and one product table
    differ. *)
Theorem nurture_sample :
  (forall db random customer_code,
     1 <= Py.len (Db.orders_of db customer_code) <= 3 ->
     let eligible := List.filter ScenarioMatcher.nurture_eligible (Db.product db) in
     exists drawn,
       drawn ≡ₚ imap (fun i p => (random i, p)) eligible
       /\ StronglySorted (fun a b => (fst a <= fst b)%Q) drawn
       /\ ScenarioMatcher.match_nurture db random customer_code
          = match take 3 drawn with
            | [] => None
            | first :: rest =>
                Some (List.map (fun d => Product.product_key (snd d)) (first :: rest))
            end)
  /\ (forall p, ScenarioMatcher.nurture_eligible p = true
                <-> (exists pop, Product.popularity_score p = Some pop /\ (0.3 <= pop)%Q)
                    /\ Product.family p <> None)
  /\ (forall db random customer_code,
        Py.len (Db.orders_of db customer_code) = 0
        \/ 3 < Py.len (Db.orders_of db customer_code) ->
        ScenarioMatcher.match_nurture db random customer_code = None)
  /\ (forall db random1 random2 customer_code,
        (forall i, random1 i = random2 i) ->
        ScenarioMatcher.match_nurture db random1 customer_code
        = ScenarioMatcher.match_nurture db random2 customer_code)
  /\ (exists db random1 random2 customer_code,
        ScenarioMatcher.match_nurture db random1 customer_code
        <> ScenarioMatcher.match_nurture db random2 customer_code).
Proof.
  split; [|split; [|split; [|split]]].
  - intros db random c Hcount eligible.
    exists (Py.sorted_asc fst (imap (fun i p => (random i, p)) eligible)).
    split; [apply sorted_asc_perm|]. split; [apply sorted_asc_sorted|].
    unfold ScenarioMatcher.match_nurture, ScenarioMatcher.order_by_random.
    destruct (Z.eqb_spec (Py.len (Db.orders_of db c)) 0) as [|Hne]; [lia|].
    destruct (Z.ltb_spec 3 (Py.len (Db.orders_of db c))) as [|Hle]; [lia|].
    cbn [orb]. fold eligible.
    set (drawn := Py.sorted_asc fst (imap (fun i p => (random i, p)) eligible)).
    change (take 3 (List.map snd drawn)) with (take 3 (snd <$> drawn)).
    rewrite <- fmap_take.
    destruct (take 3 drawn) as [|d ds]; [reflexivity|].
    cbn [fmap list_fmap List.map]. do 2 f_equal.
    rewrite List.map_map. reflexivity.
  - exact nurture_eligible_spec.
  - intros db random c Hcount. unfold ScenarioMatcher.match_nurture.
    destruct Hcount as [Hz|Hgt].
    + rewrite Hz. reflexivity.
    + destruct (Z.ltb_spec 3 (Py.len (Db.orders_of db c))); [|lia].
      now rewrite orb_true_r.
  - intros db r1 r2 c Hext. unfold ScenarioMatcher.match_nurture,
      ScenarioMatcher.order_by_random.
    rewrite (imap_ext (fun i p => (r1 i, p)) (fun i p => (r2 i, p))); [reflexivity|].
    intros i x _. now rewrite Hext.
  - exists Examples.nurture_db, Examples.draw_up, Examples.draw_down, "C001".
    vm_compute. discriminate.
Qed.

(** The amended statement at the product table above: C001 has one order
    line, the products A, B, E and F qualify and draw 0, 1, 2 and 3, and
    the answer is A, B, E. *)
Lemma nurture_sample_witness :
  (1 <= Py.len (Db.orders_of Examples.nurture_db "C001") <= 3)
  /\ (exists drawn,
        StronglySorted (fun a b => (fst a <= fst b)%Q) drawn
        /\ ScenarioMatcher.match_nurture Examples.nurture_db Examples.draw_up "C001"
           = match take 3 drawn with
             | [] => None
             | first :: rest =>
                 Some (List.map (fun d => Product.product_key (snd d)) (first :: rest))
             end)
  /\ ScenarioMatcher.match_nurture Examples.nurture_db Examples.draw_up "C001"
     = Some ["A"; "B"; "E"].
Proof.
  destruct nurture_sample as (Hexact & _).
  assert (Hcount : 1 <= Py.len (Db.orders_of Examples.nurture_db "C001") <= 3).
  { vm_compute. split; discriminate. }
  split; [exact Hcount|]. split.
  - destruct (Hexact Examples.nurture_db Examples.draw_up "C001" Hcount)
      as (drawn & _ & Hsorted & Hm).
    exists drawn. split; assumption.
  - vm_compute. reflexivity.
Defined.

(** ** Idempotence of the raw-staging load *)

Section LoaderFacts.
Context {R : Type}.
Variable json_dumps_sorted : R -> string.
Variable json_dumps : R -> option string.
Variable sha256_hexdigest : string -> string.

Local Abbreviation hash := (RawDataLoader.calculate_row_hash json_dumps_sorted sha256_hexdigest).
Local Abbreviation insert_row :=
  (RawDataLoader.insert_row json_dumps_sorted json_dumps sha256_hexdigest).
Local Abbreviation load :=
  (RawDataLoader.load_raw_customers json_dumps_sorted json_dumps sha256_hexdigest).

Lemma taken_spec records b h :
  RawTable.taken records b h = true <-> In (b, h) (List.map RawTable.key records).
Proof.
  unfold RawTable.taken. rewrite existsb_exists, in_map_iff. split.
  - intros [r [Hin Heq]]. apply andb_true_iff in Heq as [H1 H2].
    apply String.eqb_eq in H1, H2. exists r. unfold RawTable.key. now subst.
  - intros [r [Heq Hin]]. exists r. split; [exact Hin|].
    unfold RawTable.key in Heq. injection Heq as -> ->.
    now rewrite !String.eqb_refl.
Qed.

Lemma taken_keys records records' b h :
  List.map RawTable.key records = List.map RawTable.key records' ->
  RawTable.taken records b h = RawTable.taken records' b h.
Proof.
  intros Hk. apply eq_true_iff_eq. rewrite !taken_spec. now rewrite Hk.
Qed.

(** The rows a load keeps, and its verdict, depend on the table only
    through the keys it holds. *)
Lemma insert_row_keys aborts batch now now' t t' row :
  List.map RawTable.key (RawDataLoader.seen t)
  = List.map RawTable.key (RawDataLoader.seen t') ->
  RawDataLoader.aborted t = RawDataLoader.aborted t' ->
  List.map RawTable.key (RawDataLoader.seen (insert_row aborts batch now t row))
  = List.map RawTable.key (RawDataLoader.seen (insert_row aborts batch now' t' row))
  /\ RawDataLoader.aborted (insert_row aborts batch now t row)
     = RawDataLoader.aborted (insert_row aborts batch now' t' row).
Proof.
  intros Hk Ha. unfold RawDataLoader.insert_row.
  destruct (json_dumps row) as [data|]; [|simpl; auto].
  rewrite <- Ha. destruct (RawDataLoader.aborted t); [simpl; auto|].
  rewrite (taken_keys _ _ _ _ Hk).
  destruct (RawTable.taken _ _ _); simpl; [auto|].
  rewrite !map_app, Hk. auto.
Qed.

Lemma fold_keys aborts batch now now' rows t t' :
  List.map RawTable.key (RawDataLoader.seen t)
  = List.map RawTable.key (RawDataLoader.seen t') ->
  RawDataLoader.aborted t = RawDataLoader.aborted t' ->
  RawDataLoader.aborted (List.fold_left (insert_row aborts batch now) rows t)
  = RawDataLoader.aborted (List.fold_left (insert_row aborts batch now') rows t').
Proof.
  revert t t'. induction rows as [|row rows IH]; intros t t' Hk Ha; simpl; [exact Ha|].
  destruct (insert_row_keys aborts batch now now' t t' row Hk Ha) as [Hk' Ha'].
  now apply IH.
Qed.

(** A load only appends, and what it appends carries the batch and the
    hash of one of the rows. *)
Lemma fold_appends aborts batch now rows t :
  exists added,
    RawDataLoader.seen (List.fold_left (insert_row aborts batch now) rows t)
    = RawDataLoader.seen t ++ added
    /\ Forall (fun r => RawRecord.batch_id r = batch
                        /\ RawRecord.created_at r = now
                        /\ exists row, In row rows
                             /\ RawRecord.row_hash r = hash row
                             /\ json_dumps row = Some (RawRecord.row_data r)) added.
Proof.
  revert t. induction rows as [|row rows IH]; intros t; simpl.
  - exists []. now rewrite app_nil_r.
  - destruct (IH (insert_row aborts batch now t row)) as [added [Hs Hf]].
    assert (Hweak : Forall (fun r => RawRecord.batch_id r = batch
                        /\ RawRecord.created_at r = now
                        /\ exists row0, (row = row0 \/ In row0 rows)
                             /\ RawRecord.row_hash r = hash row0
                             /\ json_dumps row0 = Some (RawRecord.row_data r)) added).
    { eapply Forall_impl; [exact Hf|]. intros r (Hb & Hc & row0 & Hin & Hh & Hj).
      split; [exact Hb|]. split; [exact Hc|]. exists row0. auto. }
    rewrite Hs. unfold RawDataLoader.insert_row.
    destruct (json_dumps row) as [data|] eqn:Ej; [|simpl; eauto].
    destruct (RawDataLoader.aborted t); [simpl; eauto|].
    destruct (RawTable.taken _ _ _); simpl; [eauto|].
    eexists. rewrite <- app_assoc. split; [reflexivity|].
    simpl. constructor; [|exact Hweak].
    simpl. split; [reflexivity|]. split; [reflexivity|].
    exists row. auto.
Qed.

(** The uniqueness constraint is never broken. *)
Lemma fold_unique aborts batch now rows t :
  NoDup (List.map RawTable.key (RawDataLoader.seen t)) ->
  NoDup (List.map RawTable.key
           (RawDataLoader.seen (List.fold_left (insert_row aborts batch now) rows t))).
Proof.
  revert t. induction rows as [|row rows IH]; intros t Hnd; simpl; [exact Hnd|].
  apply IH. unfold RawDataLoader.insert_row.
  destruct (json_dumps row) as [data|]; [|exact Hnd].
  destruct (RawDataLoader.aborted t); [exact Hnd|].
  destruct (RawTable.taken _ _ _) eqn:Et; simpl; [exact Hnd|].
  rewrite map_app. simpl. apply NoDup_app. split; [exact Hnd|]. split.
  - intros k Hin Hin'. apply list_elem_of_In in Hin, Hin'.
    destruct Hin' as [<-|[]].
    apply taken_spec in Hin. unfold RawTable.key in Hin. simpl in Hin. congruence.
  - apply NoDup_singleton.
Qed.

(** A load that ends in a live transaction has the key of every
    serializable row in the table. *)
Lemma fold_covers aborts batch now rows t :
  RawDataLoader.aborted (List.fold_left (insert_row aborts batch now) rows t) = false ->
  RawDataLoader.aborted t = false
  /\ forall row, In row rows -> json_dumps row <> None ->
       RawTable.taken
         (RawDataLoader.seen (List.fold_left (insert_row aborts batch now) rows t))
         batch (hash row) = true.
Proof.
  revert t. induction rows as [|row rows IH]; intros t Hlive; simpl in *.
  - split; [exact Hlive|]. intros row [].
  - destruct (IH _ Hlive) as [Hstep Hcov].
    destruct (fold_appends aborts batch now rows (insert_row aborts batch now t row))
      as [added [Hs _]].
    assert (Hhere : RawDataLoader.aborted t = false
              /\ (json_dumps row <> None ->
                  RawTable.taken (RawDataLoader.seen (insert_row aborts batch now t row))
                    batch (hash row) = true)).
    { revert Hstep. unfold RawDataLoader.insert_row.
      destruct (json_dumps row) as [data|]; [|simpl; intros ->; split; congruence].
      destruct (RawDataLoader.aborted t); [simpl; discriminate|].
      destruct (RawTable.taken _ _ _) eqn:Et; simpl; intros _.
      - split; [reflexivity|]. intros _. exact Et.
      - split; [reflexivity|]. intros _. apply taken_spec.
        rewrite map_app. apply in_or_app. right. left. reflexivity. }
    destruct Hhere as [Ha Hrow]. split; [exact Ha|].
    intros row' [<-|Hin] Hj; [|now apply Hcov].
    apply taken_spec. rewrite Hs, map_app. apply in_or_app. left.
    apply taken_spec. now apply Hrow.
Qed.

(** Over a table that already has all the keys, a load adds nothing. *)
Lemma fold_noop aborts batch now rows t :
  (forall row, In row rows -> json_dumps row <> None ->
     RawTable.taken (RawDataLoader.seen t) batch (hash row) = true) ->
  RawDataLoader.seen (List.fold_left (insert_row aborts batch now) rows t)
  = RawDataLoader.seen t.
Proof.
  revert t. induction rows as [|row rows IH]; intros t Hall; simpl; [reflexivity|].
  assert (Hsame : RawDataLoader.seen (insert_row aborts batch now t row)
                  = RawDataLoader.seen t).
  { unfold RawDataLoader.insert_row.
    destruct (json_dumps row) as [data|] eqn:Ej; [|reflexivity].
    destruct (RawDataLoader.aborted t); [reflexivity|].
    rewrite (Hall row) by (simpl; auto; congruence). reflexivity. }
  rewrite IH; [exact Hsame|].
  intros row' Hin Hj. rewrite Hsame. apply Hall; simpl; auto.
Qed.

Lemma load_idempotent_records aborts table now1 now2 rows batch :
  RawTable.records
    (snd (load aborts (snd (load aborts table now1 rows batch)) now2 rows batch))
  = RawTable.records (snd (load aborts table now1 rows batch)).
Proof.
  unfold RawDataLoader.load_raw_customers.
  destruct rows as [|row0 rows0]; [reflexivity|].
  set (rows := row0 :: rows0).
  set (t1 := List.fold_left (insert_row aborts batch now1) rows
               (RawDataLoader.mk_txn (RawTable.records table) (RawTable.next_id table)
                  false 0 [])).
  cbn [snd RawTable.records RawTable.next_id].
  destruct (RawDataLoader.aborted t1) eqn:Ea.
  - (* the first run was rolled back: the second meets the same table *)
    set (t2 := List.fold_left (insert_row aborts batch now2) rows _).
    assert (Ha2 : RawDataLoader.aborted t2 = true).
    { rewrite <- Ea. subst t1 t2. symmetry. apply fold_keys; reflexivity. }
    now rewrite Ha2.
  - set (t2 := List.fold_left (insert_row aborts batch now2) rows _).
    assert (Hs2 : RawDataLoader.seen t2 = RawDataLoader.seen t1).
    { subst t2. rewrite fold_noop; [reflexivity|].
      cbn [RawDataLoader.seen]. apply (fold_covers _ _ _ _ _ Ea). }
    destruct (RawDataLoader.aborted t2); [reflexivity|exact Hs2].
Qed.

End LoaderFacts.

(** C9 (ingestion idempotence): every record the load adds carries the
    batch id and, as its hash, the SHA-256 digest of the sorted JSON of one
    of the rows; the load never breaks the uniqueness of (batch_id,
    row_hash); and loading the same rows with the same batch id a second
    time, at any later time, leaves the records of the staging table as
    the first load left them. This holds whether the store aborts the
    transaction at the first failed insert or carries on. *)
Theorem load_raw_idempotent {R : Type}
    (json_dumps_sorted : R -> string) (json_dumps : R -> option string)
    (sha256_hexdigest : string -> string)
    (aborts : bool) (table : RawTable.t) (now1 now2 : Z)
    (rows : list R) (batch_id : string) :
  let load := RawDataLoader.load_raw_customers json_dumps_sorted json_dumps
                sha256_hexdigest aborts in
  let table1 := snd (load table now1 rows batch_id) in
  let table2 := snd (load table1 now2 rows batch_id) in
  RawTable.records table2 = RawTable.records table1
  /\ (exists added,
        RawTable.records table1 = RawTable.records table ++ added
        /\ Forall (fun r =>
             RawRecord.batch_id r = batch_id
             /\ exists row, In row rows
                  /\ RawRecord.row_hash r
                     = sha256_hexdigest (json_dumps_sorted row)) added)
  /\ (NoDup (List.map RawTable.key (RawTable.records table)) ->
      NoDup (List.map RawTable.key (RawTable.records table1))).
Proof.
  intros load table1 table2. subst load table1 table2.
  split; [apply load_idempotent_records|].
  unfold RawDataLoader.load_raw_customers.
  destruct rows as [|row0 rows0].
  { split; [exists []; now rewrite app_nil_r|auto]. }
  set (rows := row0 :: rows0).
  cbn [snd RawTable.records].
  set (t0 := RawDataLoader.mk_txn (RawTable.records table) (RawTable.next_id table)
               false 0 []).
  destruct (fold_appends json_dumps_sorted json_dumps sha256_hexdigest
              aborts batch_id now1 rows t0) as [added [Hs Hf]].
  split.
  - destruct (RawDataLoader.aborted _).
    + exists []. now rewrite app_nil_r.
    + exists added. split; [exact Hs|].
      eapply Forall_impl; [exact Hf|].
      intros r (Hb & _ & row & Hin & Hh & _). split; [exact Hb|]. eauto.
  - intros Hnd. destruct (RawDataLoader.aborted _); [exact Hnd|].
    now apply fold_unique.
Qed.

(** The load of a three-row file, the third row equal to the first, into
    an empty table, under both behaviours of the store: the table after
    the second load is the table after the first, and the keys stay
    unique. *)
Lemma load_raw_idempotent_witness :
  NoDup (List.map RawTable.key (RawTable.records Examples.empty_raw_table))
  /\ (forall aborts,
        let load := RawDataLoader.load_raw_customers Examples.json_text
                      Examples.json_text_opt Examples.digest aborts in
        let table1 := snd (load Examples.empty_raw_table 10 Examples.raw_rows "b1") in
        RawTable.records (snd (load table1 20 Examples.raw_rows "b1"))
        = RawTable.records table1
        /\ NoDup (List.map RawTable.key (RawTable.records table1))).
Proof.
  assert (Hnd : NoDup (List.map RawTable.key (RawTable.records Examples.empty_raw_table))).
  { simpl. constructor. }
  split; [exact Hnd|].
  intros aborts.
  pose proof (load_raw_idempotent Examples.json_text Examples.json_text_opt
                Examples.digest aborts Examples.empty_raw_table 10 20
                Examples.raw_rows "b1") as H.
  cbv zeta in H. destruct H as (Hidem & _ & Huniq).
  split; [exact Hidem|exact (Huniq Hnd)].
Defined.

(** ** Duplicate detection in customer validation *)

Lemma lstrip_head l :
  Str.lstrip l = [] \/ exists c t, Str.lstrip l = c :: t /\ Str.is_space c = false.
Proof.
  induction l as [|c l IH]; simpl; [now left|].
  destruct (Str.is_space c) eqn:E; [exact IH|]. right. eauto.
Qed.

Lemma lstrip_suffix l : exists pre, l = pre ++ Str.lstrip l.
Proof.
  induction l as [|c l [pre IH]]; simpl; [now exists []|].
  destruct (Str.is_space c).
  - exists (c :: pre). simpl. now f_equal.
  - now exists [].
Qed.

Lemma lstrip_fixed c t : Str.is_space c = false -> Str.lstrip (c :: t) = c :: t.
Proof. intros H. simpl. now rewrite H. Qed.

Lemma lstrip_idem l : Str.lstrip (Str.lstrip l) = Str.lstrip l.
Proof.
  destruct (lstrip_head l) as [->|[c [t [-> Hc]]]]; [reflexivity|].
  now apply lstrip_fixed.
Qed.

Lemma strip_idem s : Str.strip (Str.strip s) = Str.strip s.
Proof.
  unfold Str.strip. rewrite list_ascii_of_string_of_list_ascii. f_equal.
  set (l1 := Str.lstrip (list_ascii_of_string s)).
  set (l2 := rev (Str.lstrip (rev l1))).
  assert (Hl2 : Str.lstrip l2 = l2).
  { destruct (lstrip_suffix (rev l1)) as [pre Hpre].
    assert (Hsplit : l1 = l2 ++ rev pre).
    { subst l2. rewrite <- rev_app_distr, <- Hpre. now rewrite rev_involutive. }
    destruct l2 as [|c t]; [reflexivity|].
    destruct (lstrip_head (list_ascii_of_string s)) as [He|[c' [t' [He Hc']]]];
      fold l1 in He; rewrite He in Hsplit.
    - discriminate.
    - simpl in Hsplit. injection Hsplit as -> _. now apply lstrip_fixed. }
  rewrite Hl2. subst l2. rewrite rev_involutive, lstrip_idem. reflexivity.
Qed.

Lemma enumerate_snoc {A} (l : list A) (x : A) (start : Z) :
  Py.enumerate start (l ++ [x]) = Py.enumerate start l ++ [(start + Py.len l, x)].
Proof.
  revert start. induction l as [|y l IH]; intros start; simpl.
  - unfold Py.len. simpl. now rewrite Z.add_0_r.
  - rewrite IH. do 4 f_equal. unfold Py.len. simpl length. lia.
Qed.

Lemma run_snoc st rows ir :
  CustomerValidator.run st (rows ++ [ir])
  = CustomerValidator.step (CustomerValidator.run st rows) (fst ir) (snd ir).
Proof. unfold CustomerValidator.run. now rewrite fold_left_app. Qed.

(** A validated row carries the code under which its source row was
    registered. *)
Lemma validate_code row v :
  CustomerSchema.validate row = inl v ->
  CustomerSchema.customer_code v = CustomerValidator.code_of row.
Proof.
  unfold CustomerSchema.validate, CustomerValidator.code_of.
  destruct (CustomerSchema.validate_customer_code (CustomerRow.customer_code row))
    as [c|msg] eqn:Ec; [|discriminate].
  destruct (CustomerSchema.validate_email _); [|discriminate].
  destruct (CustomerSchema.validate_postal_code _); [|discriminate].
  intros [= <-]. cbn [CustomerSchema.customer_code].
  unfold CustomerSchema.validate_customer_code in Ec.
  destruct (CustomerRow.customer_code row) as [s|]; [|discriminate].
  destruct (_ || _); [discriminate|].
  injection Ec as <-. simpl. apply strip_idem.
Qed.

Lemma batch_inv_run rows :
  CustomerValidator.batch_inv rows
    (CustomerValidator.run (CustomerValidator.mk_state [] [] ∅) (Py.enumerate 2 rows)).
Proof.
  induction rows as [|row rows IH] using rev_ind.
  - simpl. constructor.
    + intros c. split; [set_solver|]. intros (k & rk & Hk & _).
      rewrite lookup_nil in Hk. discriminate.
    + intros v [].
    + intros k rk k' rk' _ Hk'. rewrite lookup_nil in Hk'. discriminate.
  - rewrite enumerate_snoc, run_snoc. cbn [fst snd].
    set (st := CustomerValidator.run _ _) in *.
    destruct IH as [Hseen Hvalid Hdup].
    assert (Hlast : forall k rk, (rows ++ [row]) !! k = Some rk ->
              (rows !! k = Some rk /\ (k < length rows)%nat)
              \/ (k = length rows /\ rk = row)).
    { intros k rk Hk. destruct (decide (k < length rows)%nat) as [Hlt|Hge].
      - left. rewrite lookup_app_l in Hk by exact Hlt. auto.
      - right. rewrite lookup_app_r in Hk by lia.
        destruct (k - length rows)%nat eqn:E; simpl in Hk; [|discriminate].
        injection Hk as <-. split; [lia|reflexivity]. }
    assert (Hold : forall k rk, rows !! k = Some rk -> (rows ++ [row]) !! k = Some rk).
    { intros k rk Hk. rewrite lookup_app_l; [exact Hk|].
      now apply lookup_lt_Some in Hk. }
    assert (Hnew : (rows ++ [row]) !! length rows = Some row).
    { rewrite lookup_app_r by lia. now rewrite Nat.sub_diag. }
    unfold CustomerValidator.step.
    destruct (bool_decide (CustomerValidator.code_of row ∈ CustomerValidator.seen_codes st))
      eqn:Edup.
    + (* the code was seen: a duplicate *)
      apply bool_decide_eq_true in Edup.
      constructor; cbn [CustomerValidator.seen_codes CustomerValidator.valid_rows
                        CustomerValidator.errors].
      * intros c. rewrite Hseen. split.
        -- intros (k & rk & Hk & Hc). eauto.
        -- intros (k & rk & Hk & Hc).
           destruct (Hlast k rk Hk) as [[Hk' _]|[-> ->]]; [eauto|].
           subst c. now apply Hseen.
      * intros v Hv. destruct (Hvalid v Hv) as (k & rk & Hk & Hval & Hfirst).
        exists k, rk. split; [auto|]. split; [exact Hval|].
        intros k' rk' Hlt Hk'. apply (Hfirst k' rk' Hlt).
        destruct (Hlast k' rk' Hk') as [[H _]|[-> _]]; [exact H|].
        apply lookup_lt_Some in Hk. lia.
      * intros k rk k' rk' Hlt Hk' Hk Hc. apply in_or_app.
        destruct (Hlast k rk Hk) as [[Hk0 Hklt]|[-> ->]].
        -- left. apply (Hdup k rk k' rk' Hlt); [|exact Hk0|exact Hc].
           destruct (Hlast k' rk' Hk') as [[H _]|[-> _]]; [exact H|lia].
        -- right. left. unfold CustomerValidator.duplicate_error. f_equal.
           unfold Py.len. lia.
    + (* a new code *)
      apply bool_decide_eq_false in Edup.
      assert (Hfresh : forall k rk, rows !! k = Some rk ->
                CustomerValidator.code_of rk <> CustomerValidator.code_of row).
      { intros k rk Hk Hc. apply Edup, Hseen. eauto. }
      assert (Hseen' : forall c,
                c ∈ {[CustomerValidator.code_of row]} ∪ CustomerValidator.seen_codes st
                <-> exists k rk, (rows ++ [row]) !! k = Some rk
                                 /\ CustomerValidator.code_of rk = c).
      { intros c. rewrite elem_of_union, elem_of_singleton, Hseen. split.
        - intros [->|(k & rk & Hk & Hc)]; eauto.
        - intros (k & rk & Hk & Hc).
          destruct (Hlast k rk Hk) as [[Hk' _]|[-> ->]]; [right; eauto|left; auto]. }
      assert (Hvalid' : forall v, In v (CustomerValidator.valid_rows st) ->
                exists k rk, (rows ++ [row]) !! k = Some rk
                  /\ CustomerSchema.validate rk = inl v
                  /\ forall k' rk', (k' < k)%nat -> (rows ++ [row]) !! k' = Some rk' ->
                       CustomerValidator.code_of rk' <> CustomerValidator.code_of rk).
      { intros v Hv. destruct (Hvalid v Hv) as (k & rk & Hk & Hval & Hfirst).
        exists k, rk. split; [auto|]. split; [exact Hval|].
        intros k' rk' Hlt Hk'. apply (Hfirst k' rk' Hlt).
        destruct (Hlast k' rk' Hk') as [[H _]|[-> _]]; [exact H|].
        apply lookup_lt_Some in Hk. lia. }
      assert (Hdup' : forall errs k rk k' rk',
                (k' < k)%nat -> (rows ++ [row]) !! k' = Some rk' ->
                (rows ++ [row]) !! k = Some rk ->
                CustomerValidator.code_of rk' = CustomerValidator.code_of rk ->
                In (CustomerValidator.duplicate_error k rk) (CustomerValidator.errors st ++ errs)).
      { intros errs k rk k' rk' Hlt Hk' Hk Hc. apply in_or_app. left.
        destruct (Hlast k rk Hk) as [[Hk0 Hklt]|[-> ->]].
        - apply (Hdup k rk k' rk' Hlt); [|exact Hk0|exact Hc].
          destruct (Hlast k' rk' Hk') as [[H _]|[-> _]]; [exact H|lia].
        - destruct (Hlast k' rk' Hk') as [[H _]|[-> _]]; [|lia].
          exfalso. exact (Hfresh k' rk' H Hc). }
      unfold CustomerValidator.validate_row.
      destruct (CustomerSchema.validate row) as [v|msgs] eqn:Eval.
      * constructor; cbn [CustomerValidator.seen_codes CustomerValidator.valid_rows
                          CustomerValidator.errors].
        -- exact Hseen'.
        -- intros v' Hv'. apply in_app_or in Hv' as [Hv'|[<-|[]]]; [auto|].
           exists (length rows), row. split; [exact Hnew|]. split; [exact Eval|].
           intros k' rk' Hlt Hk'.
           destruct (Hlast k' rk' Hk') as [[H _]|[-> _]]; [eauto|lia].
        -- intros k rk k' rk' Hlt Hk' Hk Hc.
           specialize (Hdup' [] k rk k' rk' Hlt Hk' Hk Hc).
           now rewrite app_nil_r in Hdup'.
      * constructor; cbn [CustomerValidator.seen_codes CustomerValidator.valid_rows
                          CustomerValidator.errors].
        -- exact Hseen'.
        -- exact Hvalid'.
        -- intros k rk k' rk'. apply Hdup'.
Qed.

(** C10 (duplicate registration before validation): when the first row
    of a batch that carries a given customer code fails the schema and a
    later row with the same code passes it, the later row is reported as
    DUPLICATE_CUSTOMER under its file row number, and no row of the valid
    output has that customer code. *)
Theorem duplicate_after_invalid_first
    (rows : list CustomerRow.t) (i j : nat) (ri rj : CustomerRow.t) (code : string) :
  rows !! i = Some ri ->
  rows !! j = Some rj ->
  (i < j)%nat ->
  CustomerValidator.code_of ri = code ->
  CustomerValidator.code_of rj = code ->
  (forall k rk, (k < i)%nat -> rows !! k = Some rk ->
                CustomerValidator.code_of rk <> code) ->
  (forall v, CustomerSchema.validate ri <> inl v) ->
  (exists v, CustomerSchema.validate rj = inl v) ->
  In (IngestionError.mk (Z.of_nat j + 2) "customers" "DUPLICATE_CUSTOMER"
        ("Duplicate customer_code: " +:+ code) rj)
     (snd (CustomerValidator.validate_batch rows))
  /\ forall v, In v (fst (CustomerValidator.validate_batch rows)) ->
               CustomerSchema.customer_code v <> code.
Proof.
  intros Hi Hj Hlt Hci Hcj Hfirst Hbad _.
  unfold CustomerValidator.validate_batch. cbn [fst snd].
  destruct (batch_inv_run rows) as [_ Hvalid Hdup].
  split.
  - specialize (Hdup j rj i ri Hlt Hi Hj). unfold CustomerValidator.duplicate_error in Hdup.
    rewrite Hcj in Hdup. apply Hdup. congruence.
  - intros v Hv Hcode.
    destruct (Hvalid v Hv) as (k & rk & Hk & Hval & Hkfirst).
    pose proof (validate_code rk v Hval) as Hvc.
    assert (Hck : CustomerValidator.code_of rk = code) by congruence.
    destruct (lt_eq_lt_dec k i) as [[Hki | ->] | Hik].
    + exact (Hfirst k rk Hki Hk Hck).
    + assert (rk = ri) by congruence. subst rk. exact (Hbad v Hval).
    + apply (Hkfirst i ri Hik Hi). congruence.
Qed.

(** The property on the three-row batch above: row 4 of the file (the
    second C1) is the reported duplicate and the valid output has no row
    for C1. *)
Lemma duplicate_after_invalid_first_witness :
  In (IngestionError.mk 4 "customers" "DUPLICATE_CUSTOMER"
        "Duplicate customer_code: C1"
        (Examples.customer_row "C1" (Some " Jean@Ex.com ")))
     (snd (CustomerValidator.validate_batch Examples.customers_batch))
  /\ forall v, In v (fst (CustomerValidator.validate_batch Examples.customers_batch)) ->
               CustomerSchema.customer_code v <> "C1".
Proof.
  apply (duplicate_after_invalid_first Examples.customers_batch 0 2
           (Examples.customer_row " C1 " (Some "not-an-email"))
           (Examples.customer_row "C1" (Some " Jean@Ex.com ")) "C1").
  - reflexivity.
  - reflexivity.
  - lia.
  - reflexivity.
  - reflexivity.
  - intros k rk Hk. lia.
  - intros v. vm_compute. discriminate.
  - eexists. vm_compute. reflexivity.
Defined.

(** ** Stage E: the segment of a master profile *)

Lemma build_profile_segment db c :
  exists p,
    TransformDb.client_master_profile
      (ClientMasterProfileLoader.build_profile db c) !! c = Some p
    /\ ClientMasterProfile.segment p = "STANDARD".
Proof.
  unfold ClientMasterProfileLoader.build_profile.
  destruct (ClientMasterProfileLoader.compute_rfm_scores db c) as [[r f] m].
  cbn [TransformDb.client_master_profile]. rewrite lookup_insert_eq. eauto.
Qed.

Lemma build_profile_keeps db c c' p :
  TransformDb.client_master_profile db !! c = Some p ->
  ClientMasterProfile.segment p = "STANDARD" ->
  exists p',
    TransformDb.client_master_profile
      (ClientMasterProfileLoader.build_profile db c') !! c = Some p'
    /\ ClientMasterProfile.segment p' = "STANDARD".
Proof.
  intros Hp Hs. destruct (decide (c' = c)) as [->|Hne].
  - apply build_profile_segment.
  - unfold ClientMasterProfileLoader.build_profile.
    destruct (ClientMasterProfileLoader.compute_rfm_scores db c') as [[r f] m].
    cbn [TransformDb.client_master_profile]. rewrite lookup_insert_ne by exact Hne.
    eauto.
Qed.

(** Every profile the stage writes has the segment STANDARD, whatever
    the orders of the customer are. *)
Lemma build_profiles_all_standard db c :
  In c (TransformDb.customer db) ->
  exists p,
    TransformDb.client_master_profile
      (snd (ClientMasterProfileLoader.build_profiles db)) !! c = Some p
    /\ ClientMasterProfile.segment p = "STANDARD".
Proof.
  unfold ClientMasterProfileLoader.build_profiles. cbn [snd].
  generalize (TransformDb.customer db) as codes. intros codes.
  assert (Hgen : forall codes db0,
    In c codes
    \/ (exists p, TransformDb.client_master_profile db0 !! c = Some p
                  /\ ClientMasterProfile.segment p = "STANDARD") ->
    exists p,
      TransformDb.client_master_profile
        (List.fold_left ClientMasterProfileLoader.build_profile codes db0) !! c = Some p
      /\ ClientMasterProfile.segment p = "STANDARD").
  { clear. induction codes as [|c' codes IH]; intros db0 H; simpl.
    - destruct H as [[]|H]; exact H.
    - apply IH. destruct H as [[->|Hin]|(p & Hp & Hs)].
      + right. apply build_profile_segment.
      + now left.
      + right. eapply build_profile_keeps; eassumption. }
  intros Hin. apply Hgen. now left.
Qed.

(** C1 (segment rule), at a customer without orders: C002 has no order
    line, and the profile [build_profiles] writes for it has the segment
    STANDARD and the score 0, not the segment PROSPECT; C001, with three
    order lines, gets the fixed scores 3, 3, 3 and STANDARD as well. *)
Theorem build_profiles_no_orders :
  let db' := snd (ClientMasterProfileLoader.build_profiles Examples.profiles_db) in
  ClientMasterProfileLoader.rfm_row Examples.profiles_db "C002" = None
  /\ TransformDb.client_master_profile db' !! "C002"
     = Some (ClientMasterProfile.mk 0 "STANDARD")
  /\ ClientMasterProfile.segment <$> TransformDb.client_master_profile db' !! "C002"
     <> Some "PROSPECT"
  /\ ClientMasterProfileLoader.compute_rfm_scores Examples.profiles_db "C001"
     = (Some 3, Some 3, Some 3)
  /\ TransformDb.client_master_profile db' !! "C001"
     = Some (ClientMasterProfile.mk 9 "STANDARD").
Proof. vm_compute. repeat split. discriminate. Qed.

(** ** Stage A: deduplication *)

(** C3 (deduplication by email, then phone), at two rows that share a
    phone number and have no email: [get_phone_groups] finds the one
    group of two, and [deduplicate_batch] still returns two customers,
    unmerged, with no duplicate recorded. *)
Theorem dedup_same_phone :
  List.map (fun g => length (snd g))
    (CustomerDeduplicator.get_phone_groups
       (List.map CustomerDeduplicator.with_id Examples.same_phone_batch)) = [2%nat]
  /\ CustomerDeduplicator.get_email_groups
       (List.map CustomerDeduplicator.with_id Examples.same_phone_batch) = []
  /\ CustomerDeduplicator.deduplicate_batch Examples.same_phone_batch
     = (List.map CustomerDeduplicator.with_id Examples.same_phone_batch, [])
  /\ length (fst (CustomerDeduplicator.deduplicate_batch Examples.same_phone_batch))
     = 2%nat.
Proof. vm_compute. repeat split. Qed.

(** The email path does merge (E2): the rows with the emails a@x, a@x,
    b@x give two customers, the first with both codes and a duplicate
    count of 2. *)
Lemma dedup_e2 :
  CustomerDeduplicator.deduplicate_batch Examples.e2_batch
  = ([ [ ("_id", VInt 1); ("customer_code", VStr "C001,C002");
         ("last_name", VStr "Dupont"); ("email", VStr "a@x"); ("phone", VNone);
         ("customer_codes_merged", VBool true); ("duplicate_count", VInt 2) ];
       CustomerDeduplicator.with_id (3, Examples.staged "C003" (VStr "b@x") VNone) ],
     [ (VInt 1, ["2"]) ]).
Proof. vm_compute. reflexivity. Qed.

(** * Further properties of the modelled code *)

(** ** Ranking and diversification *)

Lemma insert_desc_perm {A} (key : A -> Q) x l : Py.insert_desc key x l ≡ₚ x :: l.
Proof.
  induction l as [|y l IH]; simpl; [reflexivity|].
  destruct (Py.Qlt_bool (key x) (key y)); [|reflexivity].
  rewrite IH. apply Permutation_swap.
Qed.

Lemma sorted_desc_perm {A} (key : A -> Q) l : Py.sorted_desc key l ≡ₚ l.
Proof.
  induction l as [|x l IH]; simpl; [reflexivity|].
  rewrite insert_desc_perm. now rewrite IH.
Qed.

Lemma sorted_app_order {A} (R : A -> A -> Prop) l1 l2 x y :
  StronglySorted R (l1 ++ l2) -> In x l1 -> In y l2 -> R x y.
Proof.
  induction l1 as [|a l1 IH]; simpl; intros Hs Hx Hy; [destruct Hx|].
  apply StronglySorted_inv in Hs as [Hs Ha]. destruct Hx as [->|Hx].
  - rewrite Forall_forall in Ha. apply Ha, list_elem_of_In, in_or_app. now right.
  - now apply IH.
Qed.

(** X1: [diversify_recommendations] never reorders and never skips: with
    K >= 1 it returns the first K candidates of the ranked list it is
    given (all of them when there are fewer), whatever their families;
    with K <= 0 and a non-empty list it still returns the first
    candidate. *)
Theorem diversify_keeps_ranked_prefix (db : Db.t) (ranked : list RecoScore.t) (K : Z) :
  (1 <= K ->
   Scorer.diversify_recommendations db ranked K = take (Z.to_nat K) ranked)
  /\ (K <= 0 ->
      Scorer.diversify_recommendations db ranked K = take 1 ranked).
Proof.
  split.
  - apply diversify_prefix.
  - intros HK. destruct ranked as [|s rest]; [reflexivity|].
    unfold Scorer.diversify_recommendations. cbn [Scorer.diversify_loop app].
    replace (Py.len [s]) with 1 by reflexivity.
    destruct (Py.truthy_str _);
      (destruct (Z.leb_spec K 1); [reflexivity|lia]).
Qed.

(** The prefix property on the candidates of E5, for K = 2 and K = 0. *)
Lemma diversify_keeps_ranked_prefix_witness :
  List.map RecoScore.product_key
    (Scorer.diversify_recommendations Examples.e5_db Examples.e5_ranked 2)
  = ["P1"; "P2"]
  /\ List.map RecoScore.product_key
       (Scorer.diversify_recommendations Examples.e5_db Examples.e5_ranked 0)
     = ["P1"].
Proof.
  split.
  - rewrite (proj1 (diversify_keeps_ranked_prefix Examples.e5_db Examples.e5_ranked 2));
      [reflexivity|lia].
  - rewrite (proj2 (diversify_keeps_ranked_prefix Examples.e5_db Examples.e5_ranked 0));
      [reflexivity|lia].
Defined.

(** X2: [rank_recommendations] returns the K best: for K >= 0 the result
    has min(K, n) scores in never-increasing order, result and dropped
    scores together are the input up to order, and no dropped score is
    greater than a kept one. *)
Theorem rank_returns_top_k (scores : list RecoScore.t) (K : Z) :
  0 <= K ->
  let ranked := Scorer.rank_recommendations scores K in
  exists dropped,
    ranked ++ dropped ≡ₚ scores
    /\ Py.len ranked = Z.min K (Py.len scores)
    /\ StronglySorted (Py.desc RecoScore.final_score) ranked
    /\ forall kept low, In kept ranked -> In low dropped ->
         (RecoScore.final_score low <= RecoScore.final_score kept)%Q.
Proof.
  intros HK ranked. subst ranked. unfold Scorer.rank_recommendations, Py.slice_to.
  destruct (Z.leb_spec 0 K); [|lia].
  set (sorted := Py.sorted_desc RecoScore.final_score scores).
  exists (drop (Z.to_nat K) sorted).
  assert (Hperm : sorted ≡ₚ scores) by apply sorted_desc_perm.
  assert (Hsorted : StronglySorted (Py.desc RecoScore.final_score) sorted)
    by apply sorted_desc_sorted.
  split; [now rewrite take_drop|]. split.
  - unfold Py.len. rewrite length_take, (Permutation_length Hperm). lia.
  - split; [now apply take_sorted|].
    intros kept low Hk Hl.
    rewrite <- (take_drop (Z.to_nat K) sorted) in Hsorted.
    exact (sorted_app_order _ _ _ _ _ Hsorted Hk Hl).
Qed.

(** The top-K property on the three candidates of E5 given in reverse
    order, K = 2: P1 and P2 are kept, in that order. *)
Lemma rank_returns_top_k_witness :
  0 <= 2
  /\ exists dropped,
       Scorer.rank_recommendations (rev Examples.e5_ranked) 2 ++ dropped
         ≡ₚ rev Examples.e5_ranked
       /\ Py.len (Scorer.rank_recommendations (rev Examples.e5_ranked) 2)
          = Z.min 2 (Py.len (rev Examples.e5_ranked))
       /\ StronglySorted (Py.desc RecoScore.final_score)
            (Scorer.rank_recommendations (rev Examples.e5_ranked) 2)
       /\ forall kept low,
            In kept (Scorer.rank_recommendations (rev Examples.e5_ranked) 2) ->
            In low dropped ->
            (RecoScore.final_score low <= RecoScore.final_score kept)%Q.
Proof.
  split; [lia|].
  apply (rank_returns_top_k (rev Examples.e5_ranked) 2). lia.
Defined.

(** ** Score bounds *)

Lemma affinity_range db c pk :
  (50 <= Scorer.compute_affinity_score db c pk
   /\ Scorer.compute_affinity_score db c pk <= 75)%Q.
Proof.
  unfold Scorer.compute_affinity_score.
  destruct (Db.fetch_product db pk) as [p|]; [|split; discriminate].
  cbv zeta.
  destruct (Scorer.preferred_family db c) as [pf|];
    [destruct (Py.eq_opt_str (Product.family p) pf)|];
    destruct (Py.truthy_str (Product.family p)); vm_compute; split; discriminate.
Qed.

Lemma popularity_range db pk :
  (forall p q, Db.fetch_product db pk = Some p ->
               Product.popularity_score p = Some q -> (0 <= q /\ q <= 1)%Q) ->
  (0 <= Scorer.compute_popularity_score db pk
   /\ Scorer.compute_popularity_score db pk <= 100)%Q.
Proof.
  intros Hq. unfold Scorer.compute_popularity_score.
  destruct (Db.fetch_product db pk) as [p|]; [|split; discriminate].
  destruct (Product.popularity_score p) as [q|] eqn:Ep; simpl.
  - destruct (Hq p q eq_refl Ep) as [H0 H1].
    destruct (Qeq_bool q 0); simpl; [split; discriminate|]. lra.
  - split; discriminate.
Qed.

(** X3: every score the scorer produces is bounded: the affinity lies
    between 50 and 75 (so the cap at 100 never applies); when the stored
    popularity of the product, if any, lies in [0, 1], popularity and
    profit lie in [0, 100]; and when the base score also lies in [0, 100]
    the final score lies in [20, 100]. *)
Theorem score_bounds (db : Db.t) (customer_code product_key scenario : string)
    (base : Q) :
  let s := Scorer.score_recommendation db customer_code product_key scenario base in
  (50 <= RecoScore.affinity_score s /\ RecoScore.affinity_score s <= 75)%Q
  /\ ((forall p q, Db.fetch_product db product_key = Some p ->
                   Product.popularity_score p = Some q -> (0 <= q /\ q <= 1)%Q) ->
      (0 <= RecoScore.popularity_score s /\ RecoScore.popularity_score s <= 100)%Q
      /\ (0 <= RecoScore.profit_score s /\ RecoScore.profit_score s <= 100)%Q
      /\ ((0 <= base /\ base <= 100)%Q ->
          (20 <= RecoScore.final_score s /\ RecoScore.final_score s <= 100)%Q)).
Proof.
  intros s. subst s. unfold Scorer.score_recommendation.
  cbn [RecoScore.affinity_score RecoScore.popularity_score RecoScore.profit_score
       RecoScore.final_score].
  pose proof (affinity_range db customer_code product_key) as Ha.
  split; [exact Ha|]. intros Hq.
  pose proof (popularity_range db product_key Hq) as Hp.
  assert (Hprofit : Scorer.compute_profit_score db product_key
                    = Scorer.compute_popularity_score db product_key) by reflexivity.
  rewrite Hprofit.
  split; [exact Hp|]. split; [exact Hp|].
  intros Hb.
  unfold Scorer.weight_affinity, Scorer.weight_popularity, Scorer.weight_profit,
    Scorer.weight_base.
  set (a := Scorer.compute_affinity_score db customer_code product_key) in *.
  set (p := Scorer.compute_popularity_score db product_key) in *.
  lra.
Qed.

(** The bounds at E3: WINE001 has the popularity 0.8 and REBUY the base
    score 85. *)
Lemma score_bounds_witness :
  let s := Scorer.score_recommendation Examples.e3_db "C001" "WINE001" "REBUY" 85%Q in
  (20 <= RecoScore.final_score s /\ RecoScore.final_score s <= 100)%Q.
Proof.
  refine (proj2 (proj2 (proj2 (score_bounds Examples.e3_db "C001" "WINE001" "REBUY" 85%Q) _)) _).
  - intros p q Hp Hq. vm_compute in Hp. injection Hp as <-.
    vm_compute in Hq. injection Hq as <-. split; discriminate.
  - split; discriminate.
Defined.

(** ** The orchestrator and the store *)

Lemma score_all_spec db c scenarios_match score :
  In score (RecommendationEngine.score_all db c scenarios_match)
  <-> exists s ps pk,
        In (s, ps) scenarios_match /\ In pk ps
        /\ score = Scorer.score_recommendation db c pk (ScenarioMatcher.value s)
                     (RecommendationEngine.scenario_base_score s).
Proof.
  unfold RecommendationEngine.score_all. rewrite in_flat_map. split.
  - intros [[s ps] [Hin Hs]]. apply in_map_iff in Hs as [pk [<- Hpk]].
    exists s, ps, pk. auto.
  - intros (s & ps & pk & Hin & Hpk & ->). exists (s, ps). split; [exact Hin|].
    apply in_map_iff. exists pk. auto.
Qed.

(** X5: [generate_recommendations] only ever adds rows to [reco_item]:
    orders, products and contact events come back as they were and the
    rows already in [reco_item] stay in front; a run that reports failure
    adds nothing and returns no recommendation; a run that reports
    success adds one row per returned recommendation when the save goes
    through and none when the store refuses it (the refusal is swallowed
    and success is still reported). *)
Theorem engine_only_appends {Features : Type}
    (compute_customer_features : Db.t -> string -> Features)
    (match_rebuy match_cross_sell match_upsell match_winback
       : Db.t -> string -> option (list string))
    (generate_explanation : Db.t -> string -> string -> string -> Explanation.t)
    (db : Db.t) (today : Z) (run_id : string) (random : nat -> Q)
    (commit_ok : bool) (customer_code : string) (K : Z)
    (enable_silence_check : bool) :
  let '(result, success, db') :=
    RecommendationEngine.generate_recommendations compute_customer_features
      match_rebuy match_cross_sell match_upsell match_winback generate_explanation
      db today run_id random commit_ok customer_code K enable_silence_check in
  Db.order_line db' = Db.order_line db
  /\ Db.product db' = Db.product db
  /\ Db.contact_event db' = Db.contact_event db
  /\ exists new,
       Db.reco_item db' = Db.reco_item db ++ new
       /\ (success = false ->
           new = [] /\ RecommendationResult.recommendations result = [])
       /\ (success = true ->
           length new
           = if commit_ok
             then length (RecommendationResult.recommendations result)
             else 0%nat).
Proof.
  unfold RecommendationEngine.generate_recommendations.
  assert (Hsame : Db.order_line db = Db.order_line db
            /\ Db.product db = Db.product db
            /\ Db.contact_event db = Db.contact_event db
            /\ exists new : list RecoItem.t,
                 Db.reco_item db = Db.reco_item db ++ new
                 /\ (false = false -> new = [] /\ @nil RecommendationItem.t = [])
                 /\ (false = true ->
                     length new
                     = if commit_ok then length (@nil RecommendationItem.t) else 0%nat)).
  { repeat split. exists []. rewrite app_nil_r. repeat split; discriminate. }
  destruct (enable_silence_check && _); [exact Hsame|].
  destruct (ScenarioMatcher.match_scenarios _ _ _ _ _ _ _) as [|sm sms];
    [exact Hsame|].
  destruct (RecommendationEngine.score_all _ _ _) as [|sc scs]; [exact Hsame|].
  unfold RecommendationEngine.save_recommendations.
  cbn [RecommendationResult.recommendations].
  destruct commit_ok; cbn [Db.order_line Db.product Db.contact_event Db.reco_item].
  - repeat split. eexists. split; [reflexivity|]. split; [discriminate|].
    intros _. now rewrite length_map.
  - repeat split. exists []. rewrite app_nil_r. split; [reflexivity|].
    split; [discriminate|reflexivity].
Qed.

(** The store discipline on a run stopped by the silence window (last
    contact 10 days ago): failure, nothing added, nothing returned; and
    on the run of E3, which succeeds and adds one row per item. *)
Lemma engine_only_appends_witness :
  (exists new,
     Db.reco_item
       (snd (Examples.recommend (Examples.contacted_db 10) Examples.e3_today "C001" 3 true))
     = Db.reco_item (Examples.contacted_db 10) ++ new
     /\ new = [])
  /\ (exists new,
        Db.reco_item
          (snd (Examples.recommend Examples.e3_db Examples.e3_today "C001" 3 true))
        = Db.reco_item Examples.e3_db ++ new
        /\ length new = 2%nat).
Proof.
  split.
  - pose proof (engine_only_appends Examples.features_none Examples.rebuy_bought
                  Examples.match_nothing Examples.match_nothing Examples.match_nothing
                  Examples.explain_plain (Examples.contacted_db 10) Examples.e3_today
                  "run-1" Examples.no_random true "C001" 3 true) as H.
    fold (Examples.recommend (Examples.contacted_db 10) Examples.e3_today "C001" 3 true) in H.
    destruct (Examples.recommend (Examples.contacted_db 10) Examples.e3_today "C001" 3 true)
      as [[result success] db'] eqn:E.
    destruct H as (_ & _ & _ & new & Hnew & Hfail & _).
    assert (Hs : success = false).
    { apply (f_equal (fun x => snd (fst x))) in E. vm_compute in E. now symmetry. }
    exists new. split; [exact Hnew|]. exact (proj1 (Hfail Hs)).
  - pose proof (engine_only_appends Examples.features_none Examples.rebuy_bought
                  Examples.match_nothing Examples.match_nothing Examples.match_nothing
                  Examples.explain_plain Examples.e3_db Examples.e3_today
                  "run-1" Examples.no_random true "C001" 3 true) as H.
    fold (Examples.recommend Examples.e3_db Examples.e3_today "C001" 3 true) in H.
    destruct (Examples.recommend Examples.e3_db Examples.e3_today "C001" 3 true)
      as [[result success] db'] eqn:E.
    destruct H as (_ & _ & _ & new & Hnew & _ & Hok).
    assert (Hs : success = true).
    { apply (f_equal (fun x => snd (fst x))) in E. vm_compute in E. now symmetry. }
    assert (Hr : length (RecommendationResult.recommendations result) = 2%nat).
    { apply (f_equal (fun x => length (RecommendationResult.recommendations (fst (fst x)))))
        in E. vm_compute in E. now symmetry. }
    exists new. split; [exact Hnew|]. rewrite (Hok Hs). exact Hr.
Defined.

(** X6: what a successful run recommends: with K >= 1, the run returns
    min(K, n) recommendations, n >= 1 being the number of (scenario,
    product) candidates of the matched scenarios, and each of them is one
    of those candidates, scored with the base score of its scenario. *)
Theorem engine_recommends_candidates {Features : Type}
    (compute_customer_features : Db.t -> string -> Features)
    (match_rebuy match_cross_sell match_upsell match_winback
       : Db.t -> string -> option (list string))
    (generate_explanation : Db.t -> string -> string -> string -> Explanation.t)
    (db : Db.t) (today : Z) (run_id : string) (random : nat -> Q)
    (commit_ok : bool) (customer_code : string) (K : Z)
    (enable_silence_check : bool)
    (result : RecommendationResult.t Features) (db' : Db.t) :
  1 <= K ->
  RecommendationEngine.generate_recommendations compute_customer_features
    match_rebuy match_cross_sell match_upsell match_winback generate_explanation
    db today run_id random commit_ok customer_code K enable_silence_check
  = (result, true, db') ->
  let scenarios_match :=
    ScenarioMatcher.match_scenarios match_rebuy match_cross_sell match_upsell
      match_winback db random customer_code in
  let candidates := RecommendationEngine.score_all db customer_code scenarios_match in
  let items := RecommendationResult.recommendations result in
  1 <= Py.len candidates
  /\ Py.len items = Z.min K (Py.len candidates)
  /\ forall item, In item items ->
       exists s ps,
         In (s, ps) scenarios_match
         /\ In (RecommendationItem.product_key item) ps
         /\ RecommendationItem.scenario item = ScenarioMatcher.value s
         /\ RecommendationItem.score item
            = Scorer.score_recommendation db customer_code
                (RecommendationItem.product_key item) (ScenarioMatcher.value s)
                (RecommendationEngine.scenario_base_score s).
Proof.
  intros HK Hrun scenarios_match candidates items.
  unfold RecommendationEngine.generate_recommendations in Hrun.
  destruct (enable_silence_check && _); [congruence|].
  fold scenarios_match in Hrun.
  destruct scenarios_match as [|sm sms] eqn:Esm; [congruence|].
  fold candidates in Hrun.
  destruct candidates as [|sc scs] eqn:Esc; [congruence|].
  injection Hrun as <- _. subst items. cbn [RecommendationResult.recommendations].
  rewrite diversify_prefix by exact HK.
  set (scores := sc :: scs) in *.
  assert (Hranked : Scorer.rank_recommendations scores K
                    = take (Z.to_nat K) (Py.sorted_desc RecoScore.final_score scores)).
  { unfold Scorer.rank_recommendations, Py.slice_to.
    destruct (Z.leb_spec 0 K); [reflexivity|lia]. }
  rewrite Hranked, take_take.
  set (kept := take _ _).
  assert (Hlen : length kept = Nat.min (Z.to_nat K) (length scores)).
  { subst kept. rewrite length_take.
    rewrite (Permutation_length (sorted_desc_perm RecoScore.final_score scores)). lia. }
  split; [unfold Py.len; subst scores; simpl; lia|]. split.
  - unfold Py.len. rewrite build_items_length, Hlen. lia.
  - intros item Hitem.
    assert (Hscore : In (RecommendationItem.score item) kept).
    { rewrite <- (build_items_score generate_explanation db customer_code kept).
      now apply in_map. }
    assert (Hkeys : RecommendationItem.product_key item
                    = RecoScore.product_key (RecommendationItem.score item)
                    /\ RecommendationItem.scenario item
                       = RecoScore.scenario (RecommendationItem.score item)).
    { unfold RecommendationEngine.build_items in Hitem.
      apply in_map_iff in Hitem as [[rank score] [<- _]]. auto. }
    destruct Hkeys as [Hpk Hsc].
    assert (Hcand : In (RecommendationItem.score item) scores).
    { subst kept. apply list_elem_of_In in Hscore.
      apply elem_of_take in Hscore as [i [Hi _]].
      apply list_elem_of_lookup_2 in Hi.
      rewrite (sorted_desc_perm RecoScore.final_score scores) in Hi.
      now apply list_elem_of_In. }
    subst scores. rewrite <- Esc in Hcand. subst candidates.
    apply score_all_spec in Hcand as (s & ps & pk & Hin & Hpk' & Hs).
    exists s, ps. rewrite Hpk, Hsc, Hs.
    cbn [RecoScore.product_key RecoScore.scenario]. auto.
Qed.

(** The candidate property at E3: the run for C001 with K = 3 returns
    the two candidates there are, WINE001 under REBUY and WINE001 again
    under NURTURE (C001 has a single order line). *)
Lemma engine_recommends_candidates_witness :
  1 <= 3
  /\ List.map RecommendationItem.product_key
       (RecommendationResult.recommendations
          (fst (fst (Examples.recommend Examples.e3_db Examples.e3_today "C001" 3 true))))
     = ["WINE001"; "WINE001"]
  /\ Py.len (RecommendationResult.recommendations
               (fst (fst (Examples.recommend Examples.e3_db Examples.e3_today "C001" 3 true))))
     = Z.min 3 (Py.len (RecommendationEngine.score_all Examples.e3_db "C001"
                          (ScenarioMatcher.match_scenarios Examples.rebuy_bought
                             Examples.match_nothing Examples.match_nothing
                             Examples.match_nothing Examples.e3_db
                             Examples.no_random "C001"))).
Proof.
  split; [lia|]. split; [vm_compute; reflexivity|].
  refine (proj1 (proj2 (engine_recommends_candidates Examples.features_none
            Examples.rebuy_bought Examples.match_nothing Examples.match_nothing
            Examples.match_nothing Examples.explain_plain Examples.e3_db
            Examples.e3_today "run-1" Examples.no_random true "C001" 3 true
            (fst (fst (Examples.recommend Examples.e3_db Examples.e3_today "C001" 3 true)))
            (snd (Examples.recommend Examples.e3_db Examples.e3_today "C001" 3 true))
            _ _))).
  - lia.
  - vm_compute. reflexivity.
Defined.

(** ** The audit trail *)

Lemma serve_entry table now audit_id r e :
  table !! audit_id = Some e ->
  exists e',
    snd (AuditService.serve table now audit_id r) !! audit_id = Some e'
    /\ AuditTrail.identity e' = AuditTrail.identity e
    /\ AuditTrail.flags_of e'
       = AuditTrail.written_once (AuditTrail.flags_of e)
           (AuditTrail.flag_reasons [(now, r)]).
Proof.
  intros He.
  destruct r; simpl;
    unfold AuditService.approve_recommendation, AuditService.reject_recommendation,
      AuditService.flag_recommendation;
    rewrite He; cbn [snd]; rewrite lookup_insert_eq; eexists;
    (split; [reflexivity|]); (split; [reflexivity|]);
    unfold AuditTrail.flags_of, AuditTrail.flag_reasons, AuditTrail.written_once; cbn.
  - now destruct (default [] (AuditLogDB.flags e)).
  - now destruct (default [] (AuditLogDB.flags e)).
  - destruct (AuditLogDB.flags e) as [[|f fs]|]; reflexivity.
Qed.

Lemma written_once_step (stored reasons more : list string) :
  AuditTrail.written_once (AuditTrail.written_once stored reasons) more
  = AuditTrail.written_once stored (reasons ++ more).
Proof.
  unfold AuditTrail.written_once.
  destruct stored as [|f fs]; [|reflexivity].
  destruct reasons as [|r reasons]; reflexivity.
Qed.

(** X7: the logged facts never change and the stored flags are written
    once. After any sequence of approve, reject and flag requests on an
    existing entry, the entry still exists and its run, customer, product,
    scenario, score and creation time are as they were; if the entry had
    flags they are unchanged, and otherwise its flags are the reason of
    the first flag request alone: the reasons of later flag requests are
    not stored. Approving or rejecting never drops a flag. *)
Theorem audit_flags_written_once (table : gmap string AuditLogDB.t)
    (audit_id : string) (e : AuditLogDB.t) (rs : list (Z * AuditService.request)) :
  table !! audit_id = Some e ->
  exists e',
    AuditService.serve_all table audit_id rs !! audit_id = Some e'
    /\ AuditTrail.identity e' = AuditTrail.identity e
    /\ AuditTrail.flags_of e'
       = match AuditTrail.flags_of e with
         | [] => take 1 (AuditTrail.flag_reasons rs)
         | f :: fs => f :: fs
         end.
Proof.
  change (match AuditTrail.flags_of e with
          | [] => take 1 (AuditTrail.flag_reasons rs)
          | f :: fs => f :: fs
          end)
    with (AuditTrail.written_once (AuditTrail.flags_of e) (AuditTrail.flag_reasons rs)).
  revert table e. induction rs as [|[now r] rs IH]; intros table e He.
  - exists e. simpl. split; [exact He|]. split; [reflexivity|].
    unfold AuditTrail.written_once. now destruct (AuditTrail.flags_of e).
  - simpl.
    destruct (serve_entry table now audit_id r e He) as (e1 & He1 & Hid1 & Hf1).
    destruct (IH _ e1 He1) as (e' & He' & Hid & Hf).
    exists e'. split; [exact He'|]. split; [congruence|].
    rewrite Hf, Hf1, written_once_step. f_equal.
    unfold AuditTrail.flag_reasons. cbn [List.flat_map]. now rewrite app_nil_r.
Qed.

(** The rejected entry of the example, which has no flag: flagged,
    approved and flagged again, it stores the first reason only, and is
    still the entry of C001 created at time 0. *)
Lemma audit_flags_written_once_witness :
  exists e',
    AuditService.serve_all Examples.audit_rejected "a1"
      [ (2, AuditService.Flag "check stock");
        (3, AuditService.Approve "admin" None);
        (4, AuditService.Flag "check price") ] !! "a1" = Some e'
    /\ AuditTrail.flags_of e' = ["check stock"]
    /\ AuditLogDB.customer_code e' = "C001"
    /\ AuditLogDB.created_at e' = 0.
Proof.
  assert (He : Examples.audit_rejected !! "a1"
               = Some (AuditLogDB.mk "run-1" "C001" "WINE001" "REBUY" 40%Q REJECTED
                         (Some "Score too low") 0 (Some 1) (Some "admin") (Some []))).
  { vm_compute. reflexivity. }
  destruct (audit_flags_written_once Examples.audit_rejected "a1" _
              [ (2, AuditService.Flag "check stock");
                (3, AuditService.Approve "admin" None);
                (4, AuditService.Flag "check price") ] He) as (e' & He' & Hid & Hf).
  exists e'. split; [exact He'|]. split; [exact Hf|].
  unfold AuditTrail.identity in Hid. injection Hid as _ Hc _ _ _ Ht. auto.
Defined.

(** ** Gating *)

Lemma Qlt_bool_iff (x y : Q) : Py.Qlt_bool x y = true <-> (x < y)%Q.
Proof.
  split; [apply Qlt_bool_true|]. intros Hlt.
  destruct (Py.Qlt_bool x y) eqn:E; [reflexivity|].
  apply Qlt_bool_false in E. exfalso. exact (Qlt_not_le _ _ Hlt E).
Qed.

(** X8: a recommendation passes [check_recommendation] exactly when the
    named policy is unknown, or disabled, or its score lies between the
    policy's minimum and maximum; so an unknown policy name lets
    everything through. The issues reported are exactly the reasons for
    failing: one for a score below the minimum, one for a score above the
    maximum, and never a compliance issue. *)
Theorem gating_passes_iff (policies : gmap string GatingPolicy.t)
    (r : GatingService.reco) (policy_name : string) :
  let '(passed, issues) := GatingService.check_recommendation policies r policy_name in
  (passed = true
   <-> match policies !! policy_name with
       | None => True
       | Some policy =>
           GatingPolicy.enabled policy = false
           \/ (GatingPolicy.min_score policy <= GatingService.recommendation_score r
               /\ GatingService.recommendation_score r <= GatingPolicy.max_score policy)%Q
       end)
  /\ (passed = true <-> issues = [])
  /\ (length issues <= 2)%nat
  /\ forall rule, ~ In (GatingService.ComplianceRuleFailed rule) issues.
Proof.
  unfold GatingService.check_recommendation.
  destruct (policies !! policy_name) as [policy|];
    [|repeat split; auto; intros rule []].
  destruct (GatingPolicy.enabled policy); cbn [negb].
  2:{ repeat split; auto; intros rule []. }
  assert (Hrules : List.flat_map
            (fun rule =>
               if GatingService.check_compliance_rule r rule then []
               else [GatingService.ComplianceRuleFailed rule])
            (GatingPolicy.compliance_rules policy) = []).
  { induction (GatingPolicy.compliance_rules policy); [reflexivity|exact IHl]. }
  rewrite Hrules, app_nil_r.
  destruct (Py.Qlt_bool (GatingService.recommendation_score r)
              (GatingPolicy.min_score policy)) eqn:Emin;
  destruct (Py.Qlt_bool (GatingPolicy.max_score policy)
              (GatingService.recommendation_score r)) eqn:Emax;
    cbn [app];
    try apply Qlt_bool_true in Emin; try apply Qlt_bool_false in Emin;
    try apply Qlt_bool_true in Emax; try apply Qlt_bool_false in Emax.
  all: first [rewrite bool_decide_eq_false_2 by discriminate
             | rewrite bool_decide_eq_true_2 by reflexivity].
  all: split;
    [split;
       [intros H; first [discriminate H | right; split; assumption]
       |intros [Hd|[H1 H2]];
          first [discriminate Hd | reflexivity
                | exfalso; exact (Qlt_not_le _ _ Emin H1)
                | exfalso; exact (Qlt_not_le _ _ Emax H2)]]
    |split;
       [split; intros H; first [discriminate H | reflexivity]
       |split; [simpl; lia|intros rule Hin; cbn in Hin; intuition discriminate]]].
Qed.

Lemma check_batch_fold policies policy_name recos passed failed :
  let '(passed', failed') :=
    List.fold_left
      (fun pf r =>
         let '(is_passed, issues) :=
           GatingService.check_recommendation policies r policy_name in
         if is_passed then (fst pf ++ [r], snd pf)
         else (fst pf, snd pf ++ [(r, issues)]))
      recos (passed, failed) in
  passed' = passed ++ List.filter
              (fun r => fst (GatingService.check_recommendation policies r policy_name))
              recos
  /\ failed' = failed ++ List.map
                 (fun r => (r, snd (GatingService.check_recommendation policies r policy_name)))
                 (List.filter
                    (fun r => negb (fst (GatingService.check_recommendation policies r
                                           policy_name)))
                    recos).
Proof.
  revert passed failed. induction recos as [|r recos IH]; intros passed failed.
  - simpl. now rewrite !app_nil_r.
  - cbn [List.fold_left List.filter].
    destruct (GatingService.check_recommendation policies r policy_name)
      as [is_passed issues] eqn:E.
    cbn [fst snd]. destruct is_passed; cbn [negb].
    + specialize (IH (passed ++ [r]) failed).
      destruct (List.fold_left _ recos _) as [p' f']. destruct IH as [-> ->].
      rewrite <- app_assoc. auto.
    + specialize (IH passed (failed ++ [(r, issues)])).
      destruct (List.fold_left _ recos _) as [p' f']. destruct IH as [-> ->].
      cbn [List.map]. rewrite E. cbn [snd]. rewrite <- app_assoc. auto.
Qed.

(** X9: the counts of [check_batch] add up: passed + failed = total, the
    failed list has one entry per failed recommendation, in input order
    and with its issues, and the pass rate is passed / max(total, 1), a
    number between 0 and 1 that is 0 for an empty batch. *)
Theorem check_batch_accounts (policies : gmap string GatingPolicy.t)
    (recos : list GatingService.reco) (policy_name : string) :
  let report := GatingService.check_batch policies recos policy_name in
  GatingService.total report = Py.len recos
  /\ GatingService.passed report + GatingService.failed report
     = GatingService.total report
  /\ GatingService.failed report = Py.len (GatingService.failed_recommendations report)
  /\ GatingService.failed_recommendations report
     = List.map
         (fun r => (r, snd (GatingService.check_recommendation policies r policy_name)))
         (List.filter
            (fun r => negb (fst (GatingService.check_recommendation policies r policy_name)))
            recos)
  /\ (GatingService.pass_rate report
      == inject_Z (GatingService.passed report)
         / inject_Z (Z.max (GatingService.total report) 1))%Q
  /\ (0 <= GatingService.pass_rate report /\ GatingService.pass_rate report <= 1)%Q
  /\ (recos = [] -> (GatingService.pass_rate report == 0)%Q).
Proof.
  intros report. subst report. unfold GatingService.check_batch.
  pose proof (check_batch_fold policies policy_name recos [] []) as Hfold.
  destruct (List.fold_left _ recos ([], [])) as [passed failed].
  destruct Hfold as [Hp Hf]. cbn [app] in Hp, Hf.
  cbn [GatingService.total GatingService.passed GatingService.failed
       GatingService.pass_rate GatingService.failed_recommendations].
  assert (Hsum : Py.len passed + Py.len failed = Py.len recos).
  { subst passed failed. unfold Py.len. rewrite length_map.
    pose proof (List.filter_length
                  (fun r => fst (GatingService.check_recommendation policies r policy_name))
                  recos) as H.
    lia. }
  pose proof (len_nonneg passed) as Hp0. pose proof (len_nonneg failed) as Hf0.
  assert (Hden : (0 < inject_Z (Z.max (Py.len recos) 1))%Q).
  { rewrite <- (Zlt_Qlt 0). lia. }
  split; [reflexivity|]. split; [exact Hsum|]. split; [reflexivity|].
  split; [exact Hf|]. split; [reflexivity|]. split.
  - split.
    + apply Qle_shift_div_l; [exact Hden|]. rewrite Qmult_0_l.
      rewrite <- (Zle_Qle 0). exact Hp0.
    + apply Qle_shift_div_r; [exact Hden|]. rewrite Qmult_1_l.
      rewrite <- Zle_Qle. lia.
  - intros ->. subst passed. reflexivity.
Qed.

(** The batch of E6 under the standard policy: two checked, one passed,
    one failed with the single issue "score 40 below minimum 60", pass
    rate one half. *)
Lemma check_batch_accounts_witness :
  let report :=
    GatingService.check_batch GatingService.default_policies Examples.e6_recos
      "standard" in
  GatingService.total report = 2
  /\ GatingService.passed report = 1
  /\ GatingService.failed_recommendations report
     = [ (GatingService.mk_reco "C001" "WINE002" 40%Q,
          [GatingService.ScoreBelowMinimum 40%Q 60%Q]) ]
  /\ (GatingService.pass_rate report == 0.5)%Q.
Proof.
  pose proof (check_batch_accounts GatingService.default_policies Examples.e6_recos
                "standard") as H.
  cbv zeta in H. destruct H as (Ht & Hs & Hf & Hl & Hr & _ & _).
  cbv zeta. split; [exact Ht|]. split; [vm_compute; reflexivity|].
  split; [rewrite Hl; vm_compute; reflexivity|].
  rewrite Hr. vm_compute. reflexivity.
Defined.

(** ** Dictionaries *)

Section DictFacts.
Context {K V : Type} `{EqDecision K}.

Lemma dict_get_set_eq (d : Dict.t K V) k v : Dict.get (Dict.set d k v) k = Some v.
Proof.
  induction d as [|[k' v'] d IH]; simpl.
  - now rewrite decide_True.
  - destruct (decide (k' = k)) as [->|Hne]; simpl.
    + now rewrite decide_True.
    + now rewrite decide_False.
Qed.

Lemma dict_get_set_ne (d : Dict.t K V) k k' v :
  k <> k' -> Dict.get (Dict.set d k v) k' = Dict.get d k'.
Proof.
  intros Hne. induction d as [|[k0 v0] d IH]; simpl.
  - now rewrite decide_False.
  - destruct (decide (k0 = k)) as [->|Hne0]; simpl.
    + now rewrite !decide_False.
    + destruct (decide (k0 = k')); [reflexivity|exact IH].
Qed.

Lemma dict_get_None (d : Dict.t K V) k :
  Dict.get d k = None <-> ~ In k (List.map fst d).
Proof.
  induction d as [|[k' v'] d IH]; simpl; [tauto|].
  destruct (decide (k' = k)) as [->|Hne].
  - split; [discriminate|]. intros H. exfalso. auto.
  - rewrite IH. tauto.
Qed.

Lemma dict_set_keys (d : Dict.t K V) k v :
  List.map fst (Dict.set d k v)
  = if decide (k ∈ List.map fst d) then List.map fst d else List.map fst d ++ [k].
Proof.
  induction d as [|[k' v'] d IH]; cbn [Dict.set List.map fst].
  - destruct (decide (k ∈ [])) as [H|H]; [|reflexivity].
    now apply not_elem_of_nil in H.
  - destruct (decide (k' = k)) as [->|Hne]; cbn [List.map fst].
    + destruct (decide (k ∈ k :: List.map fst d)) as [H|H]; [reflexivity|].
      exfalso. apply H, elem_of_cons. now left.
    + rewrite IH.
      destruct (decide (k ∈ List.map fst d)) as [Hin|Hnin];
        destruct (decide (k ∈ k' :: List.map fst d)) as [H|H]; try reflexivity.
      * exfalso. apply H, elem_of_cons. now right.
      * exfalso. apply elem_of_cons in H as [->|H]; contradiction.
Qed.

Lemma dict_set_NoDup (d : Dict.t K V) k v :
  NoDup (List.map fst d) -> NoDup (List.map fst (Dict.set d k v)).
Proof.
  intros Hnd. rewrite dict_set_keys.
  destruct (decide (k ∈ List.map fst d)) as [Hin|Hnin]; [exact Hnd|].
  apply NoDup_app. split; [exact Hnd|]. split.
  - intros x Hx Hx'. apply list_elem_of_singleton in Hx'. now subst.
  - apply NoDup_singleton.
Qed.

Lemma dict_get_In (d : Dict.t K V) k v :
  NoDup (List.map fst d) -> (In (k, v) d <-> Dict.get d k = Some v).
Proof.
  induction d as [|[k' v'] d IH]; simpl; intros Hnd.
  - split; [intros []|discriminate].
  - apply NoDup_cons in Hnd as [Hnin Hnd].
    destruct (decide (k' = k)) as [->|Hne].
    + split.
      * intros [[= ->]|Hin]; [reflexivity|].
        exfalso. apply Hnin, list_elem_of_In, in_map_iff. exists (k, v). auto.
      * intros [= ->]. now left.
    + rewrite <- (IH Hnd). split.
      * intros [[= -> _]|Hin]; [contradiction|exact Hin].
      * auto.
Qed.

Lemma dict_set_length_new (d : Dict.t K V) k v :
  Dict.get d k = None -> length (Dict.set d k v) = S (length d).
Proof.
  intros Hnone. apply dict_get_None in Hnone.
  rewrite <- (length_map fst), dict_set_keys.
  rewrite decide_False by (rewrite list_elem_of_In; exact Hnone).
  rewrite length_app, length_map. simpl. lia.
Qed.

Lemma dict_set_length_old (d : Dict.t K V) k v :
  Dict.get d k <> None -> length (Dict.set d k v) = length d.
Proof.
  intros Hsome. rewrite <- (length_map fst), dict_set_keys.
  destruct (decide (k ∈ List.map fst d)) as [H|H]; [now rewrite length_map|].
  rewrite list_elem_of_In in H. apply dict_get_None in H. contradiction.
Qed.

End DictFacts.

(** ** Grouping by email or phone *)

Section Grouping.
Variable name : string.

(** The loop body shared by [get_email_groups] and [get_phone_groups]. *)
Local Abbreviation group_step :=
  (fun (groups : Dict.t Value (list Row)) (row : Row) =>
     let key := CustomerDeduplicator.field row name in
     if Dict.truthy key then CustomerDeduplicator.add_to_group groups key row
     else groups).

Lemma rows_with_snoc key rows row :
  DedupFacts.rows_with name key (rows ++ [row])
  = DedupFacts.rows_with name key rows
    ++ (if bool_decide (CustomerDeduplicator.field row name = key) then [row] else []).
Proof. unfold DedupFacts.rows_with. now rewrite List.filter_app. Qed.

(** The groups after the rows [rows]: keys without repetition, and under
    each truthy key that occurs, the rows that have it. *)
Lemma grouping_inv rows :
  let groups := List.fold_left group_step rows [] in
  NoDup (List.map fst groups)
  /\ forall key,
       Dict.get groups key
       = match DedupFacts.rows_with name key rows with
         | [] => None
         | g => if Dict.truthy key then Some g else None
         end.
Proof.
  induction rows as [|row rows IH] using rev_ind.
  - simpl. split; [constructor|reflexivity].
  - rewrite fold_left_app. cbn [List.fold_left].
    set (groups := List.fold_left group_step rows []) in *.
    destruct IH as [Hnd Hget].
    set (k := CustomerDeduplicator.field row name).
    destruct (Dict.truthy k) eqn:Ek.
    + unfold CustomerDeduplicator.add_to_group.
      assert (Hstep : forall g0,
        NoDup (List.map fst (Dict.set groups k g0))
        /\ (g0 = DedupFacts.rows_with name k rows ++ [row] ->
            forall key,
              Dict.get (Dict.set groups k g0) key
              = match DedupFacts.rows_with name key (rows ++ [row]) with
                | [] => None
                | g => if Dict.truthy key then Some g else None
                end)).
      { intros g0. split; [now apply dict_set_NoDup|].
        intros -> key. rewrite rows_with_snoc. fold k.
        destruct (decide (k = key)) as [<-|Hne].
        - rewrite dict_get_set_eq, bool_decide_eq_true_2 by reflexivity.
          rewrite Ek. destruct (DedupFacts.rows_with name k rows); reflexivity.
        - rewrite dict_get_set_ne by exact Hne.
          rewrite bool_decide_eq_false_2 by exact Hne.
          rewrite app_nil_r. apply Hget. }
      specialize (Hget k) as Hk. rewrite Ek in Hk.
      destruct (Dict.get groups k) as [g|] eqn:Eg.
      * destruct (Hstep (g ++ [row])) as [H1 H2]. split; [exact H1|].
        apply H2. destruct (DedupFacts.rows_with name k rows); congruence.
      * destruct (Hstep [row]) as [H1 H2]. split; [exact H1|].
        apply H2. destruct (DedupFacts.rows_with name k rows); [reflexivity|discriminate].
    + split; [exact Hnd|]. intros key. rewrite rows_with_snoc. fold k.
      destruct (decide (k = key)) as [<-|Hne].
      * rewrite Hget, Ek.
        destruct (DedupFacts.rows_with name k rows);
          rewrite bool_decide_eq_true_2 by reflexivity; reflexivity.
      * rewrite bool_decide_eq_false_2 by exact Hne. rewrite app_nil_r. apply Hget.
Qed.

Lemma grouping_spec rows :
  let groups := List.fold_left group_step rows [] in
  NoDup (List.map fst groups)
  /\ (forall key g,
        In (key, g) groups
        <-> Dict.truthy key = true /\ g <> []
            /\ g = DedupFacts.rows_with name key rows)
  /\ (forall row, In row rows ->
        Dict.truthy (CustomerDeduplicator.field row name) = true ->
        exists g, In (CustomerDeduplicator.field row name, g) groups /\ In row g).
Proof.
  intros groups. destruct (grouping_inv rows) as [Hnd Hget]. fold groups in Hnd, Hget.
  assert (Hin : forall key g,
            In (key, g) groups
            <-> Dict.truthy key = true /\ g <> []
                /\ g = DedupFacts.rows_with name key rows).
  { intros key g. rewrite (dict_get_In groups key g Hnd), Hget.
    destruct (DedupFacts.rows_with name key rows) as [|r0 l] eqn:E.
    - split; [discriminate|]. intros [_ [H ->]]. contradiction.
    - destruct (Dict.truthy key).
      + split; [intros [= <-]; auto|]. intros [_ [_ ->]]. reflexivity.
      + split; [discriminate|]. intros [[=] _]. }
  split; [exact Hnd|]. split; [exact Hin|].
  intros row Hrow Htruthy.
  exists (DedupFacts.rows_with name (CustomerDeduplicator.field row name) rows).
  assert (Hmem : In row (DedupFacts.rows_with name
                           (CustomerDeduplicator.field row name) rows)).
  { apply filter_In. split; [exact Hrow|]. now apply bool_decide_eq_true_2. }
  split; [|exact Hmem].
  apply Hin. split; [exact Htruthy|]. split; [|reflexivity].
  intros Hnil. rewrite Hnil in Hmem. destruct Hmem.
Qed.

End Grouping.

(** X10: [get_email_groups] and [get_phone_groups] partition the rows
    that have the column: no key appears twice, every group has a truthy
    key, is not empty and holds exactly the rows with that email (phone),
    in input order, and every row with a truthy email (phone) is in the
    group of its key; rows with a null or empty value are in no group. *)
Theorem groups_partition_rows (rows : list Row) :
  (NoDup (List.map fst (CustomerDeduplicator.get_email_groups rows))
   /\ (forall key g,
         In (key, g) (CustomerDeduplicator.get_email_groups rows)
         <-> Dict.truthy key = true /\ g <> []
             /\ g = DedupFacts.rows_with "email" key rows)
   /\ (forall row, In row rows ->
         Dict.truthy (CustomerDeduplicator.field row "email") = true ->
         exists g,
           In (CustomerDeduplicator.field row "email", g)
             (CustomerDeduplicator.get_email_groups rows)
           /\ In row g))
  /\ (NoDup (List.map fst (CustomerDeduplicator.get_phone_groups rows))
      /\ (forall key g,
            In (key, g) (CustomerDeduplicator.get_phone_groups rows)
            <-> Dict.truthy key = true /\ g <> []
                /\ g = DedupFacts.rows_with "phone" key rows)
      /\ (forall row, In row rows ->
            Dict.truthy (CustomerDeduplicator.field row "phone") = true ->
            exists g,
              In (CustomerDeduplicator.field row "phone", g)
                (CustomerDeduplicator.get_phone_groups rows)
              /\ In row g)).
Proof.
  split.
  - exact (grouping_spec "email" rows).
  - exact (grouping_spec "phone" rows).
Qed.

(** The partition on the rows of E2: the row of C003 is in the group of
    b@x. *)
Lemma groups_partition_rows_witness :
  exists g,
    In (VStr "b@x", g)
      (CustomerDeduplicator.get_email_groups
         (List.map CustomerDeduplicator.with_id Examples.e2_batch))
    /\ In (CustomerDeduplicator.with_id (3, Examples.staged "C003" (VStr "b@x") VNone)) g.
Proof.
  apply (proj2 (proj2 (proj1 (groups_partition_rows
           (List.map CustomerDeduplicator.with_id Examples.e2_batch))))
           (CustomerDeduplicator.with_id (3, Examples.staged "C003" (VStr "b@x") VNone))).
  - right. right. left. reflexivity.
  - reflexivity.
Defined.

(** ** Counting the deduplicated customers *)

Lemma NoDup_map_inj {A B} (f : A -> B) (l : list A) x y :
  NoDup (List.map f l) -> In x l -> In y l -> f x = f y -> x = y.
Proof.
  induction l as [|a l IH]; simpl; intros Hnd Hx Hy Hf; [destruct Hx|].
  apply NoDup_cons in Hnd as [Ha Hnd].
  destruct Hx as [->|Hx], Hy as [->|Hy]; auto.
  - exfalso. apply Ha, list_elem_of_In, in_map_iff. exists y. auto.
  - exfalso. apply Ha, list_elem_of_In, in_map_iff. exists x. auto.
Qed.

Lemma with_id_field raw_id data :
  Dict.get data "_id" = None ->
  CustomerDeduplicator.field (CustomerDeduplicator.with_id (raw_id, data)) "_id"
  = VInt raw_id.
Proof.
  intros Hnone. unfold CustomerDeduplicator.with_id, CustomerDeduplicator.field.
  cbn [fst snd].
  assert (Hgen : forall acc : Row,
            Dict.get acc "_id" = Some (VInt raw_id) ->
            Dict.get (List.fold_left (fun d kv => Dict.set d (fst kv) (snd kv)) data acc)
              "_id" = Some (VInt raw_id)).
  { revert Hnone. induction data as [|[k v] data IH]; intros Hnone acc Hacc; simpl.
    - exact Hacc.
    - cbn [Dict.get] in Hnone.
      destruct (decide (k = "_id")) as [->|Hne]; [discriminate|].
      apply IH; [exact Hnone|]. now rewrite dict_get_set_ne. }
  rewrite Hgen; reflexivity.
Qed.

Section DedupCount.
Variable rows : list Row.
Hypothesis ids_unique :
  NoDup (List.map (fun r => CustomerDeduplicator.field r "_id") rows).

Local Abbreviation ID := (fun r : Row => CustomerDeduplicator.field r "_id").
Local Abbreviation email := (fun r : Row => CustomerDeduplicator.field r "email").

Local Abbreviation groups_ok := (DedupFacts.groups_ok rows).

Lemma process_groups_inv ps :
  groups_ok ps ->
  let st :=
    List.fold_left CustomerDeduplicator.process_group (List.map snd ps)
      (CustomerDeduplicator.mk_state [] [] ∅) in
  length (CustomerDeduplicator.dedup_customers st) = length ps
  /\ forall v, v ∈ CustomerDeduplicator.processed_ids st
               <-> exists key g r, In (key, g) ps /\ In r g /\ ID r = v.
Proof.
  induction ps as [|[key g] ps IH] using rev_ind; intros Hok.
  - simpl. split; [reflexivity|]. intros v. split; [set_solver|].
    intros (k & g & r & [] & _).
  - destruct Hok as [Hnd Hrows].
    assert (Hok' : groups_ok ps).
    { split.
      - rewrite map_app in Hnd. now apply NoDup_app in Hnd as [H _].
      - intros k0 g0 Hin. apply Hrows, in_or_app. now left. }
    specialize (IH Hok'). cbv zeta in IH.
    rewrite map_app, fold_left_app. cbn [List.map List.fold_left snd].
    set (st := List.fold_left CustomerDeduplicator.process_group (List.map snd ps) _) in *.
    destruct IH as [Hlen Hproc].
    assert (Hlast : In (key, g) (ps ++ [(key, g)])).
    { apply in_or_app. right. now left. }
    destruct (Hrows key g Hlast) as [Hne Hg].
    assert (Hfresh : forall r, In r g -> ID r ∉ CustomerDeduplicator.processed_ids st).
    { intros r Hr Hin. apply Hproc in Hin as (k' & g' & r' & Hin' & Hr' & Hid).
      destruct (Hrows k' g' (in_or_app _ _ _ (or_introl Hin'))) as [_ Hg'].
      destruct (Hg r Hr) as [Hrrows Hrk]. destruct (Hg' r' Hr') as [Hr'rows Hr'k].
      assert (r' = r) by (eapply NoDup_map_inj; eauto). subst r'.
      assert (Hkk : k' = key) by congruence.
      rewrite map_app in Hnd. apply NoDup_app in Hnd as (_ & Hdisj & _).
      apply (Hdisj key).
      - apply list_elem_of_In, in_map_iff. exists (k', g').
        split; [exact Hkk|exact Hin'].
      - simpl. apply elem_of_cons. now left. }
    assert (Hpairs : forall v,
      (exists k0 g0 r, In (k0, g0) (ps ++ [(key, g)]) /\ In r g0 /\ ID r = v)
      <-> (exists k0 g0 r, In (k0, g0) ps /\ In r g0 /\ ID r = v)
          \/ exists r, In r g /\ ID r = v).
    { intros v. split.
      - intros (k0 & g0 & r & Hin & Hr & Hid). apply in_app_or in Hin as [Hin|[[= -> ->]|[]]].
        + left. eauto 6.
        + right. eauto.
      - intros [(k0 & g0 & r & Hin & Hr & Hid)|(r & Hr & Hid)].
        + exists k0, g0, r. split; [apply in_or_app; now left|auto].
        + exists key, g, r. split; [apply in_or_app; right; now left|auto]. }
    rewrite length_app. cbn [length].
    unfold CustomerDeduplicator.process_group.
    destruct g as [|first [|second rest]]; [contradiction| |].
    + rewrite bool_decide_eq_true_2 by (apply Hfresh; now left).
      cbn [CustomerDeduplicator.dedup_customers CustomerDeduplicator.processed_ids].
      split; [rewrite length_app; simpl; lia|].
      intros v. rewrite Hpairs, elem_of_union, elem_of_singleton, Hproc. split.
      * intros [->|H]; [right; exists first; split; [now left|reflexivity]|now left].
      * intros [H|(r & [<-|[]] & <-)]; [now right|now left].
    + cbn [CustomerDeduplicator.dedup_customers CustomerDeduplicator.processed_ids].
      split; [rewrite length_app; simpl; lia|].
      intros v. rewrite Hpairs, elem_of_union, elem_of_list_to_set, Hproc.
      rewrite list_elem_of_In, in_map_iff. split.
      * intros [(r & Hid & Hr)|H]; [right; eauto|now left].
      * intros [H|(r & Hr & Hid)]; [now right|left; eauto].
Qed.

Lemma process_rows_inv (st0 : CustomerDeduplicator.dedup_state) pre suf :
  rows = pre ++ suf ->
  (forall r, In r rows -> Dict.truthy (email r) = true ->
             ID r ∈ CustomerDeduplicator.processed_ids st0) ->
  (forall r, In r rows -> Dict.truthy (email r) = false ->
             ID r ∉ CustomerDeduplicator.processed_ids st0) ->
  let st := List.fold_left CustomerDeduplicator.process_row pre st0 in
  length (CustomerDeduplicator.dedup_customers st)
  = (length (CustomerDeduplicator.dedup_customers st0)
     + length (List.filter (fun r => negb (Dict.truthy (email r))) pre))%nat
  /\ forall v, v ∈ CustomerDeduplicator.processed_ids st
               <-> v ∈ CustomerDeduplicator.processed_ids st0
                   \/ exists r, In r pre /\ Dict.truthy (email r) = false /\ ID r = v.
Proof.
  revert suf. induction pre as [|row pre IH] using rev_ind; intros suf Hrows Hin Hout.
  - simpl. split; [lia|]. intros v. split; [auto|]. intros [H|(r & [] & _)]. exact H.
  - rewrite <- app_assoc in Hrows.
    destruct (IH _ Hrows Hin Hout) as [Hlen Hproc].
    rewrite fold_left_app. cbn [List.fold_left].
    set (st := List.fold_left CustomerDeduplicator.process_row pre st0) in *.
    rewrite List.filter_app, length_app. cbn [List.filter].
    assert (Hrow : In row rows).
    { rewrite Hrows. apply in_or_app. right. now left. }
    assert (Hsnoc : forall v,
      (exists r, In r (pre ++ [row]) /\ Dict.truthy (email r) = false /\ ID r = v)
      <-> (exists r, In r pre /\ Dict.truthy (email r) = false /\ ID r = v)
          \/ (Dict.truthy (email row) = false /\ ID row = v)).
    { intros v. split.
      - intros (r & Hr & Ht & Hid). apply in_app_or in Hr as [Hr|[<-|[]]]; eauto.
      - intros [(r & Hr & Ht & Hid)|[Ht Hid]].
        + exists r. split; [apply in_or_app; now left|auto].
        + exists row. split; [apply in_or_app; right; now left|auto]. }
    unfold CustomerDeduplicator.process_row.
    destruct (Dict.truthy (email row)) eqn:Et; cbn [negb length].
    + rewrite bool_decide_eq_false_2.
      * split; [lia|]. intros v. rewrite Hproc, Hsnoc. split.
        -- intros [H|H]; auto.
        -- intros [H|[H|[Hf _]]]; [auto|auto|discriminate Hf].
      * intros Hnot. apply Hnot, Hproc. left. now apply Hin.
    + rewrite bool_decide_eq_true_2.
      * cbn [CustomerDeduplicator.dedup_customers CustomerDeduplicator.processed_ids].
        split; [rewrite length_app, Hlen; simpl; lia|].
        intros v. rewrite elem_of_union, elem_of_singleton, Hproc, Hsnoc. split.
        -- intros [->|[H|H]]; auto.
        -- intros [H|[H|[_ <-]]]; auto.
      * intros Hmem. apply Hproc in Hmem as [H|(r & Hr & Ht & Hid)].
        -- exact (Hout row Hrow Et H).
        -- pose proof ids_unique as Hnd. rewrite Hrows, map_app in Hnd.
           apply NoDup_app in Hnd as (_ & Hdisj & _).
           apply (Hdisj (ID row)).
           ++ apply list_elem_of_In, in_map_iff. exists r. auto.
           ++ simpl. apply elem_of_cons. now left.
Qed.

End DedupCount.

(** X11: what Stage A returns: when the staged rows have distinct ids
    and no row data carries an [_id] of its own, [deduplicate_batch]
    returns one customer per email group plus one per row without email;
    phone numbers play no part in the count. *)
Theorem dedup_count_by_email (raw_customers : list (Z * Row)) :
  NoDup (List.map fst raw_customers) ->
  (forall raw_id data, In (raw_id, data) raw_customers -> Dict.get data "_id" = None) ->
  let rows := List.map CustomerDeduplicator.with_id raw_customers in
  length (fst (CustomerDeduplicator.deduplicate_batch raw_customers))
  = (length (CustomerDeduplicator.get_email_groups rows)
     + length (List.filter
                 (fun r => negb (Dict.truthy (CustomerDeduplicator.field r "email")))
                 rows))%nat.
Proof.
  intros Hnd Hdata rows.
  assert (Hid : List.map (fun r => CustomerDeduplicator.field r "_id") rows
                = List.map (fun raw => VInt (fst raw)) raw_customers).
  { subst rows. rewrite List.map_map. apply map_ext_in. intros [i d] Hin.
    apply with_id_field. exact (Hdata i d Hin). }
  assert (Hids : NoDup (List.map (fun r => CustomerDeduplicator.field r "_id") rows)).
  { rewrite Hid, <- (List.map_map fst VInt).
    assert (Hinj : Inj eq eq VInt) by (intros a b [= ->]; reflexivity).
    apply (NoDup_fmap_2 VInt). exact Hnd. }
  unfold CustomerDeduplicator.deduplicate_batch. fold rows.
  destruct rows as [|row0 rows0] eqn:Erows; [reflexivity|].
  rewrite <- Erows in *. clear Erows row0 rows0.
  cbn [fst].
  destruct (groups_partition_rows rows) as [(Hgnd & Hgspec & Hgmem) _].
  set (groups := CustomerDeduplicator.get_email_groups rows) in *.
  assert (Hok : DedupFacts.groups_ok rows groups).
  { split; [exact Hgnd|]. intros key g Hin.
    apply Hgspec in Hin as (Ht & Hne & ->). split; [exact Hne|].
    intros r Hr. apply filter_In in Hr as [Hr Hk].
    apply bool_decide_eq_true in Hk. auto. }
  destruct (process_groups_inv rows Hids groups Hok) as [Hlen1 Hproc1].
  set (st1 := List.fold_left CustomerDeduplicator.process_group (List.map snd groups) _) in *.
  destruct (process_rows_inv rows Hids st1 rows [] (eq_sym (app_nil_r rows)))
    as [Hlen2 _].
  - intros r Hr Ht. apply Hproc1. destruct (Hgmem r Hr Ht) as (g & Hg & Hrg). eauto 6.
  - intros r Hr Ht Hmem. apply Hproc1 in Hmem as (k & g & r' & Hg & Hr' & Hid').
    destruct Hok as [_ Hrows]. destruct (Hrows k g Hg) as [_ Hg'].
    destruct (Hg' r' Hr') as [Hr'rows Hr'k].
    assert (Hrr : r' = r) by (eapply NoDup_map_inj; eauto).
    rewrite Hrr in Hr'k.
    apply Hgspec in Hg as (Htk & _). congruence.
  - rewrite Hlen2, Hlen1. reflexivity.
Qed.

(** The count on the rows of E2 (two email groups, no row without
    email) and on the two rows that share a phone (no email group, two
    rows without email). *)
Lemma dedup_count_by_email_witness :
  length (fst (CustomerDeduplicator.deduplicate_batch Examples.e2_batch)) = (2 + 0)%nat
  /\ length (fst (CustomerDeduplicator.deduplicate_batch Examples.same_phone_batch))
     = (0 + 2)%nat.
Proof.
  split.
  - refine (dedup_count_by_email Examples.e2_batch _ _).
    + apply (bool_decide_unpack _). vm_compute. exact I.
    + intros i d Hin. cbn in Hin.
      destruct Hin as [[= <- <-]|[[= <- <-]|[[= <- <-]|[]]]]; reflexivity.
  - refine (dedup_count_by_email Examples.same_phone_batch _ _).
    + apply (bool_decide_unpack _). vm_compute. exact I.
    + intros i d Hin. cbn in Hin.
      destruct Hin as [[= <- <-]|[[= <- <-]|[]]]; reflexivity.
Defined.

(** ** Merging duplicate records *)

Lemma field_cons_eq name v (row : Row) :
  CustomerDeduplicator.field ((name, v) :: row) name = v.
Proof. unfold CustomerDeduplicator.field. cbn [Dict.get]. now rewrite decide_True. Qed.

Lemma field_cons_ne name name' v (row : Row) :
  name' <> name ->
  CustomerDeduplicator.field ((name', v) :: row) name
  = CustomerDeduplicator.field row name.
Proof.
  intros Hne. unfold CustomerDeduplicator.field. cbn [Dict.get].
  now rewrite decide_False.
Qed.

Lemma field_absent name (row : Row) :
  ~ In name (List.map fst row) -> CustomerDeduplicator.field row name = VNone.
Proof.
  intros Hnin. unfold CustomerDeduplicator.field.
  now rewrite (proj2 (dict_get_None row name) Hnin).
Qed.

Lemma field_set_eq (d : Row) name v :
  CustomerDeduplicator.field (Dict.set d name v) name = v.
Proof. unfold CustomerDeduplicator.field. now rewrite dict_get_set_eq. Qed.

Lemma field_set_ne (d : Row) name name' v :
  name' <> name ->
  CustomerDeduplicator.field (Dict.set d name' v) name
  = CustomerDeduplicator.field d name.
Proof.
  intros Hne. unfold CustomerDeduplicator.field. now rewrite dict_get_set_ne.
Qed.

Lemma coalesce_none kept : MergeFacts.coalesce kept VNone = kept.
Proof. reflexivity. Qed.

(** One later record: every column but the code is coalesced with the
    record's value, and the record's code is appended. *)
Lemma merge_row_spec (row : Row) :
  DedupFacts.is_dict row ->
  forall merged codes,
    let '(merged', codes') := CustomerDeduplicator.merge_row (merged, codes) row in
    (forall name, name <> "customer_code" ->
       CustomerDeduplicator.field merged' name
       = MergeFacts.coalesce (CustomerDeduplicator.field merged name)
           (CustomerDeduplicator.field row name))
    /\ codes' = codes ++ MergeFacts.code_items row.
Proof.
  unfold DedupFacts.is_dict, CustomerDeduplicator.merge_row.
  induction row as [|[fld value] row IH]; intros Hnd merged codes.
  - simpl. split; [intros; reflexivity|now rewrite app_nil_r].
  - cbn [List.map fst] in Hnd. apply NoDup_cons in Hnd as [Hnin Hnd].
    rewrite list_elem_of_In in Hnin.
    cbn [List.fold_left].
    destruct (String.eqb_spec fld "customer_code") as [->|Hfld].
    + specialize (IH Hnd merged (codes ++ [value])).
      destruct (List.fold_left _ row _) as [merged' codes'].
      destruct IH as [Hf Hc]. split.
      * intros name Hname. rewrite Hf by exact Hname.
        now rewrite field_cons_ne by congruence.
      * rewrite Hc. unfold MergeFacts.code_items. cbn [Dict.get].
        rewrite decide_True by reflexivity.
        rewrite (proj2 (dict_get_None row "customer_code") Hnin).
        now rewrite app_nil_r.
    + set (merged1 :=
             if Dict.truthy value && negb (Dict.truthy (CustomerDeduplicator.field merged fld))
             then Dict.set merged fld value else merged).
      assert (Hstep : (if Dict.truthy value
                          && negb (Dict.truthy (CustomerDeduplicator.field merged fld))
                       then (Dict.set merged fld value, codes)
                       else (merged, codes)) = (merged1, codes)).
      { subst merged1. now destruct (_ && _). }
      rewrite Hstep. specialize (IH Hnd merged1 codes).
      destruct (List.fold_left _ row _) as [merged' codes'].
      destruct IH as [Hf Hc]. split.
      * intros name Hname. rewrite Hf by exact Hname.
        destruct (decide (fld = name)) as [<-|Hne].
        -- rewrite field_cons_eq, (field_absent fld row Hnin), coalesce_none.
           subst merged1. unfold MergeFacts.coalesce.
           destruct (_ && _); [apply field_set_eq|reflexivity].
        -- rewrite field_cons_ne by exact Hne. f_equal.
           subst merged1. destruct (_ && _); [|reflexivity].
           now apply field_set_ne.
      * rewrite Hc. unfold MergeFacts.code_items. cbn [Dict.get].
        now rewrite decide_False.
Qed.

Lemma merge_rows_spec (rest : list Row) :
  Forall DedupFacts.is_dict rest ->
  forall merged codes,
    let '(merged', codes') :=
      List.fold_left CustomerDeduplicator.merge_row rest (merged, codes) in
    (forall name, name <> "customer_code" ->
       CustomerDeduplicator.field merged' name
       = List.fold_left MergeFacts.coalesce
           (List.map (fun r => CustomerDeduplicator.field r name) rest)
           (CustomerDeduplicator.field merged name))
    /\ codes' = codes ++ List.flat_map MergeFacts.code_items rest.
Proof.
  induction 1 as [|row rest Hrow Hrest IH]; intros merged codes.
  - simpl. split; [reflexivity|now rewrite app_nil_r].
  - cbn [List.fold_left List.map List.flat_map].
    pose proof (merge_row_spec row Hrow merged codes) as Hone.
    destruct (CustomerDeduplicator.merge_row (merged, codes) row) as [m1 c1].
    destruct Hone as [Hf1 Hc1]. specialize (IH m1 c1).
    destruct (List.fold_left CustomerDeduplicator.merge_row rest (m1, c1)) as [m' c'].
    destruct IH as [Hf Hc]. split.
    + intros name Hname. rewrite Hf, Hf1 by exact Hname. reflexivity.
    + rewrite Hc, Hc1. now rewrite app_assoc.
Qed.

Lemma coalesce_fold_first (values : list Value) (start : Value) :
  List.fold_left MergeFacts.coalesce values start
  = match List.find Dict.truthy (start :: values) with
    | Some v => v
    | None => start
    end.
Proof.
  revert start. induction values as [|b values IH]; intros start.
  - simpl. now destruct (Dict.truthy start).
  - cbn [List.fold_left]. rewrite IH. cbn [List.find].
    unfold MergeFacts.coalesce.
    destruct (Dict.truthy start) eqn:Es; cbn [negb andb].
    + rewrite andb_false_r, Es. reflexivity.
    + rewrite andb_true_r. destruct (Dict.truthy b) eqn:Eb.
      * rewrite Eb. reflexivity.
      * rewrite Es. destruct (List.find Dict.truthy values); reflexivity.
Qed.

Lemma join_codes_text (rows : list Row) :
  Forall DedupFacts.code_is_text rows ->
  List.map Dict.str
    (List.filter Dict.truthy
       (List.flat_map (fun r => [CustomerDeduplicator.field r "customer_code"]) rows))
  = DedupFacts.codes_of rows.
Proof.
  induction 1 as [|row rows Hrow Hrows IH]; [reflexivity|].
  cbn [List.flat_map]. rewrite List.filter_app, map_app, IH.
  unfold DedupFacts.codes_of at 2. cbn [List.flat_map]. f_equal.
  unfold DedupFacts.code_is_text in Hrow.
  destruct (CustomerDeduplicator.field row "customer_code") as [|s| |];
    try contradiction; [reflexivity|].
  cbn. destruct (String.eqb s ""); reflexivity.
Qed.

Lemma filter_truthy_code_items (rows : list Row) :
  List.filter Dict.truthy (List.flat_map MergeFacts.code_items rows)
  = List.filter Dict.truthy
      (List.flat_map (fun r => [CustomerDeduplicator.field r "customer_code"]) rows).
Proof.
  induction rows as [|row rows IH]; [reflexivity|].
  cbn [List.flat_map]. rewrite !List.filter_app, IH. f_equal.
  unfold MergeFacts.code_items, CustomerDeduplicator.field.
  destruct (Dict.get row "customer_code"); reflexivity.
Qed.

(** X12: the merge of two or more duplicate records (the later ones
    being dicts, the codes strings or null): every column other than the
    three computed ones holds its first truthy value over the records in
    order, or what the first record had when no record has a truthy
    value; [customer_code] is the comma-joined list of the non-empty
    codes in order; [duplicate_count] is the number of records. *)
Theorem merge_takes_first_non_null (first second : Row) (rest : list Row) :
  let duplicates := first :: second :: rest in
  Forall DedupFacts.is_dict (second :: rest) ->
  Forall DedupFacts.code_is_text duplicates ->
  let merged := CustomerDeduplicator.merge_customer_records duplicates in
  CustomerDeduplicator.field merged "duplicate_count" = VInt (Py.len duplicates)
  /\ CustomerDeduplicator.field merged "customer_code"
     = VStr (String.concat "," (DedupFacts.codes_of duplicates))
  /\ forall name, ~ MergeFacts.computed name ->
       CustomerDeduplicator.field merged name
       = match DedupFacts.first_truthy name duplicates with
         | Some v => v
         | None => CustomerDeduplicator.field first name
         end.
Proof.
  intros duplicates Hdicts Htext merged. subst merged duplicates.
  unfold CustomerDeduplicator.merge_customer_records.
  pose proof (merge_rows_spec (second :: rest) Hdicts first
                [CustomerDeduplicator.field first "customer_code"]) as Hspec.
  destruct (List.fold_left CustomerDeduplicator.merge_row (second :: rest) _)
    as [merged codes].
  destruct Hspec as [Hfields Hcodes].
  split; [apply field_set_eq|]. split.
  - rewrite !field_set_ne by discriminate. rewrite field_set_eq. do 2 f_equal.
    unfold CustomerDeduplicator.join_codes. rewrite Hcodes.
    change ([CustomerDeduplicator.field first "customer_code"]
            ++ List.flat_map MergeFacts.code_items (second :: rest))
      with (CustomerDeduplicator.field first "customer_code"
            :: List.flat_map MergeFacts.code_items (second :: rest)).
    rewrite <- (join_codes_text (first :: second :: rest) Htext).
    change (List.flat_map (fun r => [CustomerDeduplicator.field r "customer_code"])
              (first :: second :: rest))
      with (CustomerDeduplicator.field first "customer_code"
            :: List.flat_map (fun r => [CustomerDeduplicator.field r "customer_code"])
                 (second :: rest)).
    cbn [List.filter].
    rewrite (filter_truthy_code_items (second :: rest)). reflexivity.
  - intros name Hname. unfold MergeFacts.computed in Hname.
    rewrite !field_set_ne by (intros E; subst name; tauto).
    rewrite Hfields by (intros E; subst name; tauto).
    rewrite coalesce_fold_first. reflexivity.
Qed.

(** The merge on the two a@x rows of E2, the second given a phone the
    first lacks: codes joined, count 2, the phone taken from the second
    record and the last name kept from the first. *)
Lemma merge_takes_first_non_null_witness :
  let merged :=
    CustomerDeduplicator.merge_customer_records
      [ Examples.staged "C001" (VStr "a@x") VNone;
        Examples.staged "C002" (VStr "a@x") (VStr "+33612345678") ] in
  CustomerDeduplicator.field merged "duplicate_count" = VInt 2
  /\ CustomerDeduplicator.field merged "customer_code" = VStr "C001,C002"
  /\ CustomerDeduplicator.field merged "phone" = VStr "+33612345678"
  /\ CustomerDeduplicator.field merged "last_name" = VStr "Dupont".
Proof.
  assert (Hdict : Forall DedupFacts.is_dict
            [Examples.staged "C002" (VStr "a@x") (VStr "+33612345678")]).
  { constructor; [|constructor]. apply (bool_decide_unpack _). vm_compute. exact I. }
  assert (Htext : Forall DedupFacts.code_is_text
            [ Examples.staged "C001" (VStr "a@x") VNone;
              Examples.staged "C002" (VStr "a@x") (VStr "+33612345678") ]).
  { repeat constructor. }
  destruct (merge_takes_first_non_null
              (Examples.staged "C001" (VStr "a@x") VNone)
              (Examples.staged "C002" (VStr "a@x") (VStr "+33612345678")) []
              Hdict Htext) as (Hcount & Hcode & Hfield).
  cbv zeta. split; [exact Hcount|]. split; [exact Hcode|]. split.
  - rewrite Hfield; [reflexivity|].
    unfold MergeFacts.computed. intros [H|[H|H]]; discriminate H.
  - rewrite Hfield; [reflexivity|].
    unfold MergeFacts.computed. intros [H|[H|H]]; discriminate H.
Defined.

(** ** What a validated batch guarantees *)

(** What the loop of [validate_batch] keeps about its two lists. *)
Lemma run_distinct rows :
  let st := CustomerValidator.run (CustomerValidator.mk_state [] [] ∅)
              (Py.enumerate 2 rows) in
  NoDup (List.map CustomerSchema.customer_code (CustomerValidator.valid_rows st))
  /\ (forall v, In v (CustomerValidator.valid_rows st) ->
        CustomerSchema.customer_code v ∈ CustomerValidator.seen_codes st)
  /\ (length (CustomerValidator.valid_rows st) + length (CustomerValidator.errors st)
      = length rows)%nat.
Proof.
  induction rows as [|row rows IH] using rev_ind.
  - simpl. split; [constructor|]. split; [intros v []|reflexivity].
  - cbv zeta in *. rewrite enumerate_snoc, run_snoc. cbn [fst snd].
    set (st := CustomerValidator.run _ _) in *.
    destruct IH as (Hnd & Hseen & Hlen).
    rewrite length_app. cbn [length].
    unfold CustomerValidator.step.
    destruct (bool_decide (CustomerValidator.code_of row ∈ CustomerValidator.seen_codes st))
      eqn:Edup;
      cbn [CustomerValidator.valid_rows CustomerValidator.errors
           CustomerValidator.seen_codes].
    + split; [exact Hnd|]. split; [exact Hseen|]. rewrite length_app. cbn [length]. lia.
    + apply bool_decide_eq_false in Edup.
      unfold CustomerValidator.validate_row.
      destruct (CustomerSchema.validate row) as [v|msgs] eqn:Ev;
        cbn [CustomerValidator.valid_rows CustomerValidator.errors
             CustomerValidator.seen_codes].
      * pose proof (validate_code row v Ev) as Hcode.
        split; [|split].
        -- rewrite map_app. cbn [List.map]. apply NoDup_app. split; [exact Hnd|].
           split; [|apply NoDup_singleton].
           intros c Hc Hc'. apply list_elem_of_singleton in Hc'. subst c.
           apply list_elem_of_In, in_map_iff in Hc as (v' & Hv' & Hin).
           apply Edup. rewrite <- Hcode, <- Hv'. now apply Hseen.
        -- intros v' Hv'. apply in_app_or in Hv' as [Hv'|[<-|[]]].
           ++ apply elem_of_union_r. now apply Hseen.
           ++ apply elem_of_union_l, elem_of_singleton. exact Hcode.
        -- rewrite length_app. cbn [length]. lia.
      * split; [exact Hnd|]. split.
        -- intros v' Hv'. apply elem_of_union_r. now apply Hseen.
        -- rewrite length_app. cbn [length]. lia.
Qed.

(** X13: [validate_batch] answers for every row exactly once, with a
    validated row or with an error, and no two of the validated rows carry
    the same customer code. *)
Theorem validate_batch_distinct_codes (rows : list CustomerRow.t) :
  let '(valid_rows, errors) := CustomerValidator.validate_batch rows in
  NoDup (List.map CustomerSchema.customer_code valid_rows)
  /\ (length valid_rows + length errors = length rows)%nat.
Proof.
  unfold CustomerValidator.validate_batch.
  destruct (run_distinct rows) as (Hnd & _ & Hlen). split; assumption.
Qed.

(** ** Validation is a normal form *)

Lemma is_space_lower c : Str.is_space (Str.lower_ascii c) = Str.is_space c.
Proof. destruct c as [[] [] [] [] [] [] [] []]; reflexivity. Qed.

Lemma lower_ascii_idem c : Str.lower_ascii (Str.lower_ascii c) = Str.lower_ascii c.
Proof. destruct c as [[] [] [] [] [] [] [] []]; reflexivity. Qed.

Lemma lstrip_lower l :
  Str.lstrip (List.map Str.lower_ascii l) = List.map Str.lower_ascii (Str.lstrip l).
Proof.
  induction l as [|c l IH]; [reflexivity|].
  cbn [List.map Str.lstrip]. rewrite is_space_lower.
  destruct (Str.is_space c); [exact IH|reflexivity].
Qed.

Lemma strip_lower s : Str.strip (Str.lower s) = Str.lower (Str.strip s).
Proof.
  unfold Str.strip, Str.lower. rewrite !list_ascii_of_string_of_list_ascii.
  now rewrite lstrip_lower, <- List.map_rev, lstrip_lower, <- List.map_rev.
Qed.

Lemma lower_idem s : Str.lower (Str.lower s) = Str.lower s.
Proof.
  unfold Str.lower. rewrite list_ascii_of_string_of_list_ascii, List.map_map.
  f_equal. apply List.map_ext. exact lower_ascii_idem.
Qed.

Lemma strip_fmap_idem (x : option string) :
  Str.strip <$> (Str.strip <$> x) = Str.strip <$> x.
Proof. destruct x as [s|]; [|reflexivity]. cbn. now rewrite strip_idem. Qed.

Lemma validate_customer_code_fixed x c :
  CustomerSchema.validate_customer_code x = inl c ->
  CustomerSchema.validate_customer_code (Some c) = inl c
  /\ Str.strip c = c.
Proof.
  unfold CustomerSchema.validate_customer_code.
  destruct x as [s|]; [|discriminate]. rewrite !strip_idem.
  destruct (String.eqb (Str.strip s) "") eqn:E; [discriminate|].
  cbn [orb]. intros [= <-]. rewrite !strip_idem, E. auto.
Qed.

Lemma validate_email_fixed x e :
  CustomerSchema.validate_email x = inl e ->
  CustomerSchema.validate_email e = inl e.
Proof.
  unfold CustomerSchema.validate_email.
  destruct x as [s|]; [|now intros [= <-]]. rewrite !strip_idem.
  destruct (String.eqb (Str.strip s) "") eqn:E; cbn [negb andb];
    [now intros [= <-]|].
  destruct (Str.email_format (Str.lower (Str.strip s))) eqn:Ef; [|discriminate].
  intros [= <-]. rewrite !strip_lower, !strip_idem, lower_idem, Ef.
  destruct (String.eqb (Str.lower (Str.strip s)) "") eqn:E'; [|reflexivity].
  apply String.eqb_eq in E'. rewrite E' in Ef. discriminate Ef.
Qed.

Lemma validate_postal_code_fixed x p :
  CustomerSchema.validate_postal_code x = inl p ->
  CustomerSchema.validate_postal_code p = inl p.
Proof.
  unfold CustomerSchema.validate_postal_code.
  destruct x as [s|]; [|now intros [= <-]]. rewrite !strip_idem.
  destruct (String.eqb (Str.strip s) "") eqn:E; cbn [negb andb];
    [now intros [= <-]|].
  destruct (Str.postal_format (Str.strip s)) eqn:Ef; [|discriminate].
  intros [= <-]. now rewrite !strip_idem, E, Ef.
Qed.

(** A validated row passes the schema again, unchanged, and is
    registered under its own code. *)
Lemma validate_as_row row v :
  CustomerSchema.validate row = inl v ->
  CustomerSchema.validate (ValidationFacts.as_row v) = inl v
  /\ CustomerValidator.code_of (ValidationFacts.as_row v)
     = CustomerSchema.customer_code v.
Proof.
  unfold CustomerSchema.validate.
  destruct (CustomerSchema.validate_customer_code (CustomerRow.customer_code row))
    as [c|] eqn:Ec; [|discriminate].
  destruct (CustomerSchema.validate_email (CustomerRow.email row))
    as [e|] eqn:Ee; [|discriminate].
  destruct (CustomerSchema.validate_postal_code (CustomerRow.postal_code row))
    as [p|] eqn:Ep; [|discriminate].
  intros [= <-].
  destruct (validate_customer_code_fixed _ _ Ec) as [Hc Hstrip].
  unfold ValidationFacts.as_row, CustomerValidator.code_of.
  cbn [CustomerRow.customer_code CustomerRow.email CustomerRow.postal_code
       CustomerRow.last_name CustomerRow.first_name CustomerRow.phone
       CustomerRow.address CustomerRow.city CustomerRow.country
       CustomerSchema.customer_code CustomerSchema.email CustomerSchema.postal_code
       CustomerSchema.last_name CustomerSchema.first_name CustomerSchema.phone
       CustomerSchema.address CustomerSchema.city CustomerSchema.country default].
  rewrite Hc, (validate_email_fixed _ _ Ee), (validate_postal_code_fixed _ _ Ep).
  rewrite !strip_fmap_idem. split; [reflexivity|exact Hstrip].
Qed.

Lemma run_fixed_rows (vs : list CustomerSchema.t) :
  NoDup (List.map CustomerSchema.customer_code vs) ->
  Forall (fun v => CustomerSchema.validate (ValidationFacts.as_row v) = inl v
                   /\ CustomerValidator.code_of (ValidationFacts.as_row v)
                      = CustomerSchema.customer_code v) vs ->
  let st := CustomerValidator.run (CustomerValidator.mk_state [] [] ∅)
              (Py.enumerate 2 (List.map ValidationFacts.as_row vs)) in
  CustomerValidator.valid_rows st = vs
  /\ CustomerValidator.errors st = []
  /\ forall c, c ∈ CustomerValidator.seen_codes st
               -> In c (List.map CustomerSchema.customer_code vs).
Proof.
  induction vs as [|v vs IH] using rev_ind; intros Hnd Hfix.
  - simpl. split; [reflexivity|]. split; [reflexivity|]. intros c Hc. set_solver.
  - cbv zeta in *. rewrite map_app in Hnd. apply NoDup_app in Hnd as (Hnd & Hfresh & _).
    apply Forall_app in Hfix as [Hfix Hv]. apply Forall_inv in Hv as [Hval Hcode].
    specialize (IH Hnd Hfix).
    rewrite map_app. cbn [List.map]. rewrite enumerate_snoc, run_snoc. cbn [fst snd].
    set (st := CustomerValidator.run _ _) in *.
    destruct IH as (Hvalid & Herrors & Hseen).
    unfold CustomerValidator.step. rewrite Hcode.
    rewrite bool_decide_eq_false_2.
    + unfold CustomerValidator.validate_row. rewrite Hval.
      cbn [CustomerValidator.valid_rows CustomerValidator.errors
           CustomerValidator.seen_codes].
      rewrite Hvalid, Herrors. split; [reflexivity|]. split; [reflexivity|].
      intros c Hc. rewrite map_app. apply in_or_app.
      apply elem_of_union in Hc as [Hc|Hc].
      * right. apply elem_of_singleton in Hc. subst c. now left.
      * left. now apply Hseen.
    + intros Hin. apply Hseen in Hin. apply (Hfresh (CustomerSchema.customer_code v)).
      * now apply list_elem_of_In.
      * cbn [List.map]. apply list_elem_of_singleton. reflexivity.
Qed.

(** X14: validation is a normal form. Handing the validated rows of a
    batch to [validate_batch] again accepts every one of them unchanged
    and reports no error. *)
Theorem validate_batch_fixed_point (rows : list CustomerRow.t) :
  let valid_rows := fst (CustomerValidator.validate_batch rows) in
  CustomerValidator.validate_batch (List.map ValidationFacts.as_row valid_rows)
  = (valid_rows, []).
Proof.
  cbv zeta. unfold CustomerValidator.validate_batch at 2. cbn [fst].
  set (valid := CustomerValidator.valid_rows _).
  destruct (run_distinct rows) as (Hnd & _ & _). fold valid in Hnd.
  assert (Hfix : Forall (fun v =>
            CustomerSchema.validate (ValidationFacts.as_row v) = inl v
            /\ CustomerValidator.code_of (ValidationFacts.as_row v)
               = CustomerSchema.customer_code v) valid).
  { apply List.Forall_forall. intros v Hv.
    destruct (CustomerValidator.inv_valid _ _ (batch_inv_run rows) v Hv)
      as (k & rk & _ & Hval & _).
    exact (validate_as_row rk v Hval). }
  destruct (run_fixed_rows valid Hnd Hfix) as (Hvalid & Herrors & _).
  unfold CustomerValidator.validate_batch. now rewrite Hvalid, Herrors.
Qed.

(** ** What a raw load reports *)

Section LoaderAccounts.
Context {R : Type}.
Variable json_dumps_sorted : R -> string.
Variable json_dumps : R -> option string.
Variable sha256_hexdigest : string -> string.

Local Abbreviation insert_row :=
  (RawDataLoader.insert_row json_dumps_sorted json_dumps sha256_hexdigest).

(** What the loop of the load keeps: the two results account for the
    rows met so far, an error is numbered by the rows loaded before it,
    and as long as nothing failed every row has its record. *)
Lemma fold_accounts aborts batch now records seq rows :
  let t := List.fold_left (insert_row aborts batch now) rows
             (RawDataLoader.mk_txn records seq false 0 []) in
  RawDataLoader.loaded_count t + Py.len (RawDataLoader.errors t) = Py.len rows
  /\ 0 <= RawDataLoader.loaded_count t
  /\ (forall n e, In (n, e) (RawDataLoader.errors t) ->
        1 <= n <= RawDataLoader.loaded_count t + 1)
  /\ (RawDataLoader.errors t = [] ->
      RawDataLoader.aborted t = false
      /\ exists added,
           RawDataLoader.seen t = records ++ added
           /\ List.map RawRecord.row_hash added
              = List.map (fun row => sha256_hexdigest (json_dumps_sorted row)) rows
           /\ List.map (fun r => Some (RawRecord.row_data r)) added
              = List.map json_dumps rows
           /\ Forall (fun r => RawRecord.batch_id r = batch) added).
Proof.
  induction rows as [|row rows IH] using rev_ind.
  - cbn. split; [reflexivity|]. split; [lia|]. split; [intros n e []|].
    intros _. split; [reflexivity|]. exists []. now rewrite app_nil_r.
  - cbv zeta in *. rewrite fold_left_app. cbn [List.fold_left].
    set (t := List.fold_left _ rows _) in *.
    destruct IH as (Hsum & Hpos & Hnum & Hclean).
    rewrite len_app. change (Py.len [row]) with 1.
    assert (Hfail : forall le aborted' seq',
      let t' := RawDataLoader.mk_txn (RawDataLoader.seen t) seq' aborted'
                  (RawDataLoader.loaded_count t)
                  (RawDataLoader.errors t ++ [(RawDataLoader.loaded_count t + 1, le)]) in
      RawDataLoader.loaded_count t' + Py.len (RawDataLoader.errors t') = Py.len rows + 1
      /\ 0 <= RawDataLoader.loaded_count t'
      /\ (forall n e, In (n, e) (RawDataLoader.errors t') ->
            1 <= n <= RawDataLoader.loaded_count t' + 1)
      /\ (RawDataLoader.errors t' = [] ->
          RawDataLoader.aborted t' = false
          /\ exists added,
               RawDataLoader.seen t' = records ++ added
               /\ List.map RawRecord.row_hash added
                  = List.map (fun row => sha256_hexdigest (json_dumps_sorted row))
                      (rows ++ [row])
               /\ List.map (fun r => Some (RawRecord.row_data r)) added
                  = List.map json_dumps (rows ++ [row])
               /\ Forall (fun r => RawRecord.batch_id r = batch) added)).
    { intros le aborted' seq'. cbn. rewrite len_app. change (Py.len [_]) with 1.
      split; [lia|]. split; [exact Hpos|]. split.
      - intros n e Hin. apply in_app_or in Hin as [Hin|[[= <- <-]|[]]]; [exact (Hnum n e Hin)|lia].
      - intros Hnil. now apply app_eq_nil in Hnil as [_ Hnil]. }
    unfold RawDataLoader.insert_row.
    destruct (json_dumps row) as [row_data|] eqn:Ej; [|apply Hfail].
    destruct (RawDataLoader.aborted t) eqn:Ea; [apply Hfail|].
    destruct (RawTable.taken _ _ _); [apply Hfail|].
    cbn [RawDataLoader.loaded_count RawDataLoader.errors RawDataLoader.seen
         RawDataLoader.aborted].
    split; [lia|]. split; [lia|]. split.
    + intros n e Hin. specialize (Hnum n e Hin). lia.
    + intros Hnil. destruct (Hclean Hnil) as (_ & added & Hs & Hh & Hd & Hb).
      split; [reflexivity|].
      exists (added ++ [RawRecord.mk (RawDataLoader.seq t) batch
                          (RawDataLoader.calculate_row_hash json_dumps_sorted
                             sha256_hexdigest row) row_data now]).
      rewrite Hs, <- app_assoc. split; [reflexivity|].
      rewrite !map_app, Hh, Hd. cbn [List.map RawRecord.row_hash RawRecord.row_data].
      rewrite Ej. split; [reflexivity|]. split; [reflexivity|].
      apply Forall_app. split; [exact Hb|]. now constructor.
Qed.

(** One row either is loaded, or adds one error that carries the count
    of the rows loaded so far plus one. *)
Lemma insert_row_outcome aborts batch now t row :
  let t' := insert_row aborts batch now t row in
  (RawDataLoader.loaded_count t' = RawDataLoader.loaded_count t + 1
   /\ RawDataLoader.errors t' = RawDataLoader.errors t)
  \/ (RawDataLoader.loaded_count t' = RawDataLoader.loaded_count t
      /\ exists e, RawDataLoader.errors t'
                   = RawDataLoader.errors t ++ [(RawDataLoader.loaded_count t + 1, e)]).
Proof.
  unfold RawDataLoader.insert_row.
  destruct (json_dumps row); [|right; cbn; eauto].
  destruct (RawDataLoader.aborted t); [right; cbn; eauto|].
  destruct (RawTable.taken _ _ _); [right; cbn; eauto|].
  left. cbn. auto.
Qed.

Lemma fold_numbered aborts batch now t0 rows k n e :
  let run := fun l => List.fold_left (insert_row aborts batch now) l t0 in
  RawDataLoader.errors t0 = [] ->
  RawDataLoader.errors (run rows) !! k = Some (n, e) ->
  exists pre row suf,
    rows = pre ++ row :: suf
    /\ RawDataLoader.loaded_count (run pre) = n - 1
    /\ RawDataLoader.errors (run pre) = take k (RawDataLoader.errors (run rows))
    /\ RawDataLoader.loaded_count (run (pre ++ [row])) = n - 1
    /\ RawDataLoader.errors (run (pre ++ [row]))
       = take (S k) (RawDataLoader.errors (run rows)).
Proof.
  intros run Ht0. induction rows as [|r rows IH] using rev_ind; intros Hk.
  - subst run. cbn in Hk. rewrite Ht0 in Hk. discriminate Hk.
  - assert (Hrun : run (rows ++ [r]) = insert_row aborts batch now (run rows) r).
    { subst run. cbn beta. now rewrite fold_left_app. }
    assert (Hold : (k < length (RawDataLoader.errors (run rows)))%nat ->
              RawDataLoader.errors (run rows) !! k = Some (n, e) ->
              (exists l, RawDataLoader.errors (run (rows ++ [r]))
                         = RawDataLoader.errors (run rows) ++ l) ->
              exists pre row suf,
                rows ++ [r] = pre ++ row :: suf
                /\ RawDataLoader.loaded_count (run pre) = n - 1
                /\ RawDataLoader.errors (run pre)
                   = take k (RawDataLoader.errors (run (rows ++ [r])))
                /\ RawDataLoader.loaded_count (run (pre ++ [row])) = n - 1
                /\ RawDataLoader.errors (run (pre ++ [row]))
                   = take (S k) (RawDataLoader.errors (run (rows ++ [r])))).
    { intros Hlt Hk' [l Hl].
      destruct (IH Hk') as (pre & row & suf & Hrows & Hn & He & Hn' & He').
      exists pre, row, (suf ++ [r]).
      split; [rewrite Hrows, <- app_assoc; reflexivity|].
      split; [exact Hn|]. rewrite Hl.
      split; [rewrite take_app_le by lia; exact He|].
      split; [exact Hn'|]. rewrite take_app_le by lia. exact He'. }
    destruct (insert_row_outcome aborts batch now (run rows) r) as [[Hc He]|[Hc [le He]]];
      rewrite <- Hrun in Hc, He.
    + rewrite He in Hk. apply Hold; [|exact Hk|exists []; now rewrite app_nil_r].
      now apply lookup_lt_Some in Hk.
    + destruct (decide (k < length (RawDataLoader.errors (run rows)))%nat) as [Hlt|Hge].
      * apply Hold; [exact Hlt| |eauto].
        rewrite He, lookup_app_l in Hk by exact Hlt. exact Hk.
      * rewrite He in Hk. rewrite lookup_app_r in Hk by lia.
        destruct (k - length (RawDataLoader.errors (run rows)))%nat eqn:Ek;
          [|destruct n0; discriminate Hk].
        cbn in Hk. injection Hk as <- <-.
        assert (Hklen : k = length (RawDataLoader.errors (run rows))) by lia.
        exists rows, r, []. split; [reflexivity|].
        split; [lia|]. rewrite He.
        split; [rewrite Hklen, take_app_length; reflexivity|].
        split; [lia|].
        rewrite take_ge; [reflexivity|].
        rewrite length_app. cbn [length]. lia.
Qed.

(** The two results of a load are those of the loop, also on no row. *)
Lemma load_results aborts table now rows batch :
  fst (RawDataLoader.load_raw_customers json_dumps_sorted json_dumps sha256_hexdigest
         aborts table now rows batch)
  = (let t := List.fold_left (insert_row aborts batch now) rows
                (RawDataLoader.mk_txn (RawTable.records table) (RawTable.next_id table)
                   false 0 []) in
     (RawDataLoader.loaded_count t, RawDataLoader.errors t)).
Proof.
  unfold RawDataLoader.load_raw_customers. destruct rows; reflexivity.
Qed.

End LoaderAccounts.

(** X15: the two results of a raw load account for every row
    ([loaded_count] plus the number of errors is the number of rows). The
    number an error message carries is exactly one more than the count of
    rows loaded before the row that failed, not the position of that row:
    the error of index k is that of a row before which the load had
    loaded n - 1 rows and reported k errors, and which was itself not
    loaded. A load that reports no error has put one record per row after
    the records of the table, in row order, each under the batch id with
    the row's hash and JSON text. This holds under both behaviours of the
    store. *)
Theorem load_raw_accounts {R : Type}
    (json_dumps_sorted : R -> string) (json_dumps : R -> option string)
    (sha256_hexdigest : string -> string)
    (aborts : bool) (table : RawTable.t) (now : Z)
    (rows : list R) (batch_id : string) :
  let load :=
    RawDataLoader.load_raw_customers json_dumps_sorted json_dumps sha256_hexdigest
      aborts table now in
  let '(loaded_count, errors, table') := load rows batch_id in
  loaded_count + Py.len errors = Py.len rows
  /\ (forall k n e, errors !! k = Some (n, e) ->
      exists pre row suf,
        rows = pre ++ row :: suf
        /\ fst (load pre batch_id) = (n - 1, take k errors)
        /\ fst (load (pre ++ [row]) batch_id) = (n - 1, take (S k) errors))
  /\ (errors = [] ->
      exists added,
        RawTable.records table' = RawTable.records table ++ added
        /\ List.map RawRecord.row_hash added
           = List.map (fun row => sha256_hexdigest (json_dumps_sorted row)) rows
        /\ List.map (fun r => Some (RawRecord.row_data r)) added
           = List.map json_dumps rows
        /\ Forall (fun r => RawRecord.batch_id r = batch_id) added).
Proof.
  intros load.
  assert (Hsides :
    let '(loaded_count, errors, table') := load rows batch_id in
    loaded_count + Py.len errors = Py.len rows
    /\ (errors = [] ->
        exists added,
          RawTable.records table' = RawTable.records table ++ added
          /\ List.map RawRecord.row_hash added
             = List.map (fun row => sha256_hexdigest (json_dumps_sorted row)) rows
          /\ List.map (fun r => Some (RawRecord.row_data r)) added
             = List.map json_dumps rows
          /\ Forall (fun r => RawRecord.batch_id r = batch_id) added)).
  { subst load. unfold RawDataLoader.load_raw_customers.
    destruct rows as [|row0 rows0].
    { split; [reflexivity|]. intros _.
      exists []. rewrite app_nil_r. repeat split; constructor. }
    destruct (fold_accounts json_dumps_sorted json_dumps sha256_hexdigest aborts batch_id
                now (RawTable.records table) (RawTable.next_id table) (row0 :: rows0))
      as (Hsum & _ & _ & Hclean).
    split; [exact Hsum|].
    intros Hnil. destruct (Hclean Hnil) as (Ha & added & Hs & Hrest).
    exists added. cbn [RawTable.records]. rewrite Ha. split; [exact Hs|exact Hrest]. }
  assert (Hnumbered : forall k n e,
    snd (fst (load rows batch_id)) !! k = Some (n, e) ->
    exists pre row suf,
      rows = pre ++ row :: suf
      /\ fst (load pre batch_id) = (n - 1, take k (snd (fst (load rows batch_id))))
      /\ fst (load (pre ++ [row]) batch_id)
         = (n - 1, take (S k) (snd (fst (load rows batch_id))))).
  { intros k n e. subst load. rewrite !load_results. cbn [snd]. intros Hk.
    destruct (fold_numbered json_dumps_sorted json_dumps sha256_hexdigest
                aborts batch_id now
                (RawDataLoader.mk_txn (RawTable.records table) (RawTable.next_id table)
                   false 0 [])
                rows k n e eq_refl Hk) as (pre & row & suf & Hrows & Hn & He & Hn' & He').
    exists pre, row, suf. split; [exact Hrows|].
    rewrite !load_results. cbv zeta. rewrite Hn, He, Hn', He'. split; reflexivity. }
  destruct (load rows batch_id) as [[loaded_count errors] table'].
  cbn [fst snd] in Hnumbered. destruct Hsides as [Hsum Hclean].
  split; [exact Hsum|]. split; [exact Hnumbered|exact Hclean].
Qed.

(** The same row three times into an empty table, under the store that
    carries on after a failed insert: one row loaded and two errors, both
    numbered 2, the second for the row in third position; before that row
    the load had loaded one row and reported one error. *)
Lemma load_raw_accounts_witness :
  let load :=
    RawDataLoader.load_raw_customers Examples.json_text Examples.json_text_opt
      Examples.digest false Examples.empty_raw_table 10 in
  fst (load Examples.repeated_rows "b1")
  = (1, [(2, RawDataLoader.UniqueViolation); (2, RawDataLoader.UniqueViolation)])
  /\ exists pre row suf,
       Examples.repeated_rows = pre ++ row :: suf
       /\ fst (load pre "b1") = (2 - 1, [(2, RawDataLoader.UniqueViolation)])
       /\ fst (load (pre ++ [row]) "b1")
          = (2 - 1, [(2, RawDataLoader.UniqueViolation);
                     (2, RawDataLoader.UniqueViolation)]).
Proof.
  intros load.
  pose proof (load_raw_accounts Examples.json_text Examples.json_text_opt
                Examples.digest false Examples.empty_raw_table 10
                Examples.repeated_rows "b1") as H.
  cbv zeta in H. fold load in H.
  assert (E : load Examples.repeated_rows "b1"
              = (1, [(2, RawDataLoader.UniqueViolation);
                     (2, RawDataLoader.UniqueViolation)],
                 RawTable.mk
                   [RawRecord.mk 1 "b1" "sha256:{c1}" "{c1}" 10] 4)).
  { vm_compute. reflexivity. }
  rewrite E in H. destruct H as (_ & Hnum & _).
  split; [rewrite E; reflexivity|].
  exact (Hnum 1%nat 2 RawDataLoader.UniqueViolation eq_refl).
Defined.

(** ** The alias cache *)

Lemma fold_aliases_lookup (rows : list (string * string)) (c : gmap string string)
    (label_norm : string) :
  List.fold_left (fun c row => <[fst row := snd row]> c) rows c !! label_norm
  = match List.find (fun row => String.eqb (fst row) label_norm) (rev rows) with
    | Some row => Some (snd row)
    | None => c !! label_norm
    end.
Proof.
  induction rows as [|row rows IH] using rev_ind; [reflexivity|].
  rewrite fold_left_app, rev_app_distr. cbn [List.fold_left rev app List.find].
  destruct (String.eqb_spec (fst row) label_norm) as [->|Hne].
  - now rewrite lookup_insert_eq.
  - rewrite lookup_insert_ne by exact Hne. exact IH.
Qed.

Lemma resolve_loaded rows query label_norm c :
  (forall l, c !! l
     = match List.find (fun row => String.eqb (fst row) l) (rev rows) with
       | Some row => Some (snd row)
       | None => None
       end) ->
  ProductResolver.resolve (ProductResolver.mk c true) query label_norm
  = (ResolverFacts.answer rows label_norm, ProductResolver.mk c true).
Proof.
  intros Hc. unfold ProductResolver.resolve, ResolverFacts.answer,
    ResolverFacts.last_alias.
  cbn [ProductResolver.loaded negb ProductResolver.cache]. rewrite Hc.
  destruct (List.find _ (rev rows)) as [row|]; [|reflexivity].
  cbn [Py.truthy_str]. destruct (String.eqb (snd row) ""); reflexivity.
Qed.

(** X17: a resolver reads the alias table once. The first [resolve] of
    a fresh resolver loads the rows the store answers and resolves a label
    to the key of its last row, provided that key is not empty, and
    otherwise reports it as not found; every later [resolve] answers from
    those rows whatever the store holds by then; [clear_cache] makes the
    next [resolve] read the store again; and a load that fails is not
    remembered: the label is reported as not found and the next call asks
    the store again. *)
Theorem resolver_reads_once (rows : list (string * string))
    (later : option (list (string * string))) (label_norm label_norm' : string) :
  let '(answer, self) :=
    ProductResolver.resolve ProductResolver.init (Some rows) label_norm in
  answer = ResolverFacts.answer rows label_norm
  /\ ProductResolver.loaded self = true
  /\ ProductResolver.resolve self later label_norm'
     = (ResolverFacts.answer rows label_norm', self)
  /\ (forall rows',
        fst (ProductResolver.resolve (ProductResolver.clear_cache self) (Some rows')
               label_norm')
        = ResolverFacts.answer rows' label_norm')
  /\ ProductResolver.resolve ProductResolver.init None label_norm
     = ((None, Some (ProductResolver.not_found label_norm)), ProductResolver.init).
Proof.
  assert (Hfresh : forall rs l,
            ProductResolver.resolve ProductResolver.init (Some rs) l
            = (ResolverFacts.answer rs l,
               ProductResolver.mk
                 (List.fold_left (fun c row => <[fst row := snd row]> c) rs ∅) true)).
  { intros rs l. unfold ProductResolver.resolve, ProductResolver.load_aliases.
    cbn [ProductResolver.init ProductResolver.loaded negb snd ProductResolver.cache].
    rewrite fold_aliases_lookup, lookup_empty.
    unfold ResolverFacts.answer, ResolverFacts.last_alias.
    destruct (List.find _ (rev rs)) as [row|]; [|reflexivity].
    cbn [Py.truthy_str]. destruct (String.eqb (snd row) ""); reflexivity. }
  rewrite Hfresh. split; [reflexivity|]. split; [reflexivity|]. split; [|split].
  - apply resolve_loaded. intros l. now rewrite fold_aliases_lookup, lookup_empty.
  - intros rows'. unfold ProductResolver.clear_cache.
    change (ProductResolver.mk ∅ false) with ProductResolver.init.
    now rewrite Hfresh.
  - reflexivity.
Qed.

(** The three aliases of the example: the label of the first row
    resolves to its key, the alias with the empty key does not resolve,
    and once loaded the resolver answers the same from an emptied
    table. *)
Lemma resolver_reads_once_witness :
  let '(answer, self) :=
    ProductResolver.resolve ProductResolver.init (Some Examples.alias_rows)
      "pinot noir" in
  answer = (Some "PINOT_NOIR_2022", None)
  /\ fst (ProductResolver.resolve self (Some []) "pinot noir 2022")
     = (Some "PINOT_NOIR_2022", None)
  /\ fst (ProductResolver.resolve self (Some []) "riesling")
     = (None, Some "Product not found in alias mapping: riesling").
Proof.
  pose proof (resolver_reads_once Examples.alias_rows (Some [])
                "pinot noir" "pinot noir 2022") as H1.
  pose proof (resolver_reads_once Examples.alias_rows (Some [])
                "pinot noir" "riesling") as H2.
  destruct (ProductResolver.resolve ProductResolver.init (Some Examples.alias_rows)
              "pinot noir") as [answer self].
  destruct H1 as (Ha & _ & Hl1 & _). destruct H2 as (_ & _ & Hl2 & _).
  split; [rewrite Ha; reflexivity|].
  split; [rewrite Hl1; reflexivity|rewrite Hl2; reflexivity].
Defined.

(** ** WINBACK *)

Lemma last_purchase_spec db c :
  match Winback.last_purchase db c with
  | None => forall ol, In ol (Db.orders_of db c) -> OrderLine.order_date ol = None
  | Some m =>
      forall ol d, In ol (Db.orders_of db c) -> OrderLine.order_date ol = Some d ->
                   d <= m
  end.
Proof.
  unfold Winback.last_purchase.
  induction (Db.orders_of db c) as [|ol l IH]; cbn [List.fold_right].
  - intros ol [].
  - destruct (OrderLine.order_date ol) as [d|] eqn:Ed;
      destruct (List.fold_right _ None l) as [m|].
    + intros ol' d' [<-|Hin] Hd'.
      * rewrite Ed in Hd'. injection Hd' as <-. lia.
      * specialize (IH ol' d' Hin Hd'). lia.
    + intros ol' d' [<-|Hin] Hd'.
      * rewrite Ed in Hd'. injection Hd' as <-. lia.
      * rewrite (IH ol' Hin) in Hd'. discriminate.
    + intros ol' d' [<-|Hin] Hd'; [congruence|]. exact (IH ol' d' Hin Hd').
    + intros ol' [<-|Hin]; [exact Ed|]. exact (IH ol' Hin).
Qed.

(** X18: WINBACK goes to lapsed customers only, and to all of them
    alike. When [match_winback] proposes products, the customer has no
    order line dated less than 365 days before today; the products are
    one to three products of popularity 0.7 or more, most popular first,
    and no product left out is more popular than one proposed; and every
    other customer gets either nothing or this same list. *)
Theorem winback_same_for_all (db : Db.t) (today : Z) (customer_code : string)
    (products : list string) :
  Winback.match_winback db today customer_code = Some products ->
  (forall ol d, In ol (Db.orders_of db customer_code) ->
     OrderLine.order_date ol = Some d -> 365 <= today - d)
  /\ (exists chosen dropped,
        products = List.map Product.product_key chosen
        /\ (1 <= length chosen <= 3)%nat
        /\ chosen ++ dropped ≡ₚ List.filter Winback.popular (Db.product db)
        /\ StronglySorted (Py.desc Winback.popularity) chosen
        /\ forall kept low, In kept chosen -> In low dropped ->
             (Winback.popularity low <= Winback.popularity kept)%Q)
  /\ forall other,
       Winback.match_winback db today other = None
       \/ Winback.match_winback db today other = Some products.
Proof.
  unfold Winback.match_winback.
  set (sorted := Py.sorted_desc Winback.popularity
                   (List.filter Winback.popular (Db.product db))).
  pose proof (last_purchase_spec db customer_code) as Hlast.
  destruct (Winback.last_purchase db customer_code) as [m|]; [|discriminate].
  destruct (Z.ltb_spec (today - m) Winback.winback_days) as [|Hdays]; [discriminate|].
  destruct (List.map Product.product_key (take 3 sorted)) as [|pk pks] eqn:Eps;
    [discriminate|].
  intros [= <-]. split; [|split].
  - intros ol d Hin Hd. specialize (Hlast ol d Hin Hd).
    unfold Winback.winback_days in Hdays. lia.
  - exists (take 3 sorted), (drop 3 sorted).
    assert (Hsorted : StronglySorted (Py.desc Winback.popularity) sorted)
      by apply sorted_desc_sorted.
    split; [now rewrite Eps|]. split.
    + assert (Hlen : length (List.map Product.product_key (take 3 sorted))
                     = length (pk :: pks)) by now rewrite Eps.
      rewrite length_map in Hlen. cbn [length] in Hlen.
      rewrite length_take in *. lia.
    + split; [rewrite take_drop; apply sorted_desc_perm|].
      split; [now apply take_sorted|].
      intros kept low Hk Hl. rewrite <- (take_drop 3 sorted) in Hsorted.
      exact (sorted_app_order _ _ _ _ _ Hsorted Hk Hl).
  - intros other. destruct (Winback.last_purchase db other); [|now left].
    destruct (_ <? _); [now left|]. right. reflexivity.
Qed.

(** On day 1000, C001, whose only order is 400 days old, is proposed the
    three most popular of the four popular products; C002, who bought 10
    days ago, is proposed nothing. *)
Lemma winback_same_for_all_witness :
  Winback.match_winback Examples.winback_db 1000 "C001"
  = Some ["WINE002"; "WINE004"; "WINE001"]
  /\ (forall ol d, In ol (Db.orders_of Examples.winback_db "C001") ->
        OrderLine.order_date ol = Some d -> 365 <= 1000 - d)
  /\ Winback.match_winback Examples.winback_db 1000 "C002" = None.
Proof.
  assert (H : Winback.match_winback Examples.winback_db 1000 "C001"
              = Some ["WINE002"; "WINE004"; "WINE001"]) by (vm_compute; reflexivity).
  split; [exact H|]. split.
  - exact (proj1 (winback_same_for_all Examples.winback_db 1000 "C001" _ H)).
  - vm_compute. reflexivity.
Defined.

(** ** Customer features at the edges *)

Lemma recency_bin_range d : 1 <= FeatureAggregates.recency_bin d <= 5.
Proof.
  unfold FeatureAggregates.recency_bin.
  repeat match goal with |- context [?a <=? ?b] => destruct (a <=? b) end; lia.
Qed.

Lemma frequency_bin_spec n :
  0 <= FeatureAggregates.frequency_bin n <= 5
  /\ FeatureAggregates.frequency_bin n <> 1
  /\ (1 <= n -> 2 <= FeatureAggregates.frequency_bin n)
  /\ (n <= 0 -> FeatureAggregates.frequency_bin n = 0).
Proof.
  unfold FeatureAggregates.frequency_bin.
  destruct (Z.leb_spec 10 n); [lia|]. destruct (Z.leb_spec 5 n); [lia|].
  destruct (Z.leb_spec 2 n); [lia|]. destruct (Z.eqb_spec n 1); lia.
Qed.

Lemma monetary_bin_range q : 0 <= FeatureAggregates.monetary_bin q <= 5.
Proof.
  unfold FeatureAggregates.monetary_bin.
  repeat match goal with |- context [Qle_bool ?a ?b] => destruct (Qle_bool a b) end;
    try lia.
  destruct (Py.Qlt_bool 0 q); lia.
Qed.

Lemma fold_max_ge (l : list Z) (d0 d : Z) :
  d <= d0 \/ In d l -> d <= List.fold_left Z.max l d0.
Proof.
  revert d0. induction l as [|x l IH]; intros d0 H; cbn [List.fold_left].
  - destruct H as [H|[]]. exact H.
  - apply IH. destruct H as [H|[->|Hin]]; [left; lia|left; lia|now right].
Qed.

Lemma max_order_date_spec lines ol d :
  In ol lines -> OrderLine.order_date ol = Some d ->
  exists m, FeatureAggregates.max_order_date lines = Some m /\ d <= m.
Proof.
  intros Hin Hd. unfold FeatureAggregates.max_order_date, FeatureAggregates.dates.
  assert (Hel : d ∈ omap OrderLine.order_date lines).
  { apply list_elem_of_omap. exists ol. split; [now apply list_elem_of_In|exact Hd]. }
  destruct (omap OrderLine.order_date lines) as [|d0 ds].
  - now apply elem_of_nil in Hel.
  - eexists. split; [reflexivity|]. apply fold_max_ge.
    apply list_elem_of_In in Hel. destruct Hel as [->|Hel]; [left; lia|now right].
Qed.

(** X19: the features of a customer at the edges. The three RFM scores
    are always between 0 and 5 and the frequency score is never 1. A
    customer without order lines gets a purchase count, a total and an
    average of 0, no dates, no [days_since_purchase] and the scores 0, 0,
    0, and the budget level STANDARD. A customer with an order line gets a
    frequency score of 2 or more, and with a dated order line a recency
    score of 1 or more and a [days_since_purchase] that is never negative
    and never more than the age of that order line. *)
Theorem features_edges (db : Db.t) (now today : Z) (customer_code : string) :
  let f := FeatureAggregates.compute_customer_features db now today customer_code in
  let lines := Db.orders_of db customer_code in
  (0 <= CustomerFeatures.recency_score f <= 5
   /\ 0 <= CustomerFeatures.frequency_score f <= 5
   /\ 0 <= CustomerFeatures.monetary_score f <= 5
   /\ CustomerFeatures.frequency_score f <> 1)
  /\ (lines = [] ->
      f = CustomerFeatures.mk customer_code now 0 0%Q 0%Q None None None 0 0 0
      /\ FeatureAggregates.get_budget_level db customer_code = "STANDARD")
  /\ (lines <> [] ->
      CustomerFeatures.purchase_count f = Py.len lines
      /\ 2 <= CustomerFeatures.frequency_score f)
  /\ (forall ol d, In ol lines -> OrderLine.order_date ol = Some d ->
      1 <= CustomerFeatures.recency_score f
      /\ exists days, CustomerFeatures.days_since_purchase f = Some days
                      /\ 0 <= days <= Z.max 0 (today - d)).
Proof.
  intros f lines. subst f.
  unfold FeatureAggregates.compute_customer_features. fold lines.
  cbn [CustomerFeatures.recency_score CustomerFeatures.frequency_score
       CustomerFeatures.monetary_score CustomerFeatures.purchase_count
       CustomerFeatures.days_since_purchase].
  split; [|split; [|split]].
  - split.
    + destruct (FeatureAggregates.max_order_date lines); [|lia].
      pose proof (recency_bin_range (today - z)). lia.
    + split; [apply frequency_bin_spec|].
      split; [apply monetary_bin_range|apply frequency_bin_spec].
  - intros Hnil. unfold FeatureAggregates.get_budget_level. fold lines.
    rewrite Hnil. split; reflexivity.
  - intros Hne. split; [reflexivity|]. apply frequency_bin_spec.
    unfold Py.len. destruct lines; [contradiction|]. cbn [length]. lia.
  - intros ol d Hin Hd.
    destruct (max_order_date_spec lines ol d Hin Hd) as (m & -> & Hm).
    split; [apply recency_bin_range|].
    eexists. split; [reflexivity|]. lia.
Qed.

(** On day 1000 in the store of the WINBACK example: C001, with one
    order line of day 600, has the frequency score 2, the recency score 1
    and 400 days since the purchase; a customer the store does not know
    has the empty features and the budget level STANDARD. *)
Lemma features_edges_witness :
  let f := FeatureAggregates.compute_customer_features Examples.winback_db 0 1000 "C001" in
  CustomerFeatures.frequency_score f = 2
  /\ CustomerFeatures.recency_score f = 1
  /\ (exists days, CustomerFeatures.days_since_purchase f = Some days
                   /\ 0 <= days <= Z.max 0 (1000 - 600))
  /\ FeatureAggregates.compute_customer_features Examples.winback_db 0 1000 "C009"
     = CustomerFeatures.mk "C009" 0 0 0%Q 0%Q None None None 0 0 0
  /\ FeatureAggregates.get_budget_level Examples.winback_db "C009" = "STANDARD".
Proof.
  destruct (features_edges Examples.winback_db 0 1000 "C001") as (_ & _ & _ & Hdated).
  destruct (features_edges Examples.winback_db 0 1000 "C009") as (_ & Hnone & _ & _).
  cbv zeta. split; [reflexivity|]. split; [reflexivity|]. split.
  - apply (Hdated (OrderLine.mk "C001" "WINE001" (Some 600) (Some 50%Q)) 600);
      [left; reflexivity|reflexivity].
  - apply Hnone. reflexivity.
Defined.

(** ** Quality metrics stay in range *)

Lemma unique_le_len (l : list string) : QualityService.unique l <= Py.len l.
Proof.
  unfold QualityService.unique, Py.len. apply inj_le.
  induction l as [|x l IH]; [reflexivity|].
  cbn [list_to_set length]. rewrite size_union_alt, size_singleton.
  assert (size (list_to_set l ∖ {[x]} : gset string) <= size (list_to_set l : gset string))%nat
    by (apply subseteq_size, subseteq_difference_l; reflexivity).
  lia.
Qed.

Lemma unique_pos (l : list string) : l <> [] -> 1 <= QualityService.unique l.
Proof.
  unfold QualityService.unique. destruct l as [|x l]; [contradiction|]. intros _.
  cbn [list_to_set]. rewrite size_union_alt, size_singleton. lia.
Qed.

Lemma inject_Z_pos (n : Z) : 0 < n -> (0 < inject_Z n)%Q.
Proof. intros H. unfold Qlt. cbn. lia. Qed.

Lemma ratio_range (u n : Z) :
  1 <= u -> u <= n ->
  (0 < inject_Z u / inject_Z n)%Q /\ (inject_Z u / inject_Z n <= 1)%Q.
Proof.
  intros Hu Hn.
  assert (Hn0 : (0 < inject_Z n)%Q) by (apply inject_Z_pos; lia).
  assert (Hu0 : (0 < inject_Z u)%Q) by (apply inject_Z_pos; lia).
  assert (Hun : (inject_Z u <= inject_Z n)%Q) by (rewrite <- Zle_Qle; exact Hn).
  split.
  - apply Qlt_shift_div_l; [exact Hn0|]. lra.
  - apply Qle_shift_div_r; [exact Hn0|]. lra.
Qed.

Lemma sum_fold_range (l : list Q) (a : Q) :
  Forall (fun q => (0 < q)%Q /\ (q <= 1)%Q) l ->
  (a <= List.fold_left Qplus l a)%Q
  /\ (List.fold_left Qplus l a <= a + inject_Z (Py.len l))%Q
  /\ (l <> [] -> (a < List.fold_left Qplus l a)%Q).
Proof.
  intros Hl. revert a. induction Hl as [|q l [Hq0 Hq1] Hl IH]; intros a.
  - cbn [List.fold_left].
    assert (Hnil : inject_Z (Py.len (@nil Q)) == 0) by reflexivity.
    split; [lra|]. split; [lra|]. intros H. contradiction.
  - cbn [List.fold_left]. destruct (IH (a + q)%Q) as (H1 & H2 & _).
    assert (Hlen : inject_Z (Py.len (q :: l)) == inject_Z (Py.len l) + 1).
    { unfold Py.len. cbn [length]. rewrite Nat2Z.inj_succ, <- Z.add_1_r.
      rewrite inject_Z_plus. reflexivity. }
    split; [lra|]. split; [rewrite Hlen; lra|]. intros _. lra.
Qed.

Lemma dict_set_Forall {V} (P : string * V -> Prop) (d : Dict.t string V) k v :
  Forall P d -> P (k, v) -> Forall P (Dict.set d k v).
Proof.
  intros Hd Hkv. induction Hd as [|[k' v'] d Hk' Hd IH]; cbn [Dict.set].
  - now constructor.
  - destruct (decide (k' = k)) as [->|Hne]; constructor; auto.
Qed.

Lemma dict_set_nonempty {V} (d : Dict.t string V) k v : Dict.set d k v <> [].
Proof. destruct d as [|[k' v'] d]; cbn [Dict.set]; [|destruct (decide _)]; discriminate. Qed.

Lemma dict_set_set {V} (d : Dict.t string V) k v v' :
  Dict.set (Dict.set d k v) k v' = Dict.set d k v'.
Proof.
  induction d as [|[k0 v0] d IH]; cbn [Dict.set].
  - now rewrite decide_True.
  - destruct (decide (k0 = k)) as [->|Hne]; cbn [Dict.set].
    + now rewrite decide_True.
    + rewrite decide_False by exact Hne. now rewrite IH.
Qed.

Lemma group_by_customer_groups (recos : list RunItem.t) :
  Forall (fun g => snd g <> []) (QualityService.group_by_customer recos)
  /\ (recos <> [] -> QualityService.group_by_customer recos <> []).
Proof.
  unfold QualityService.group_by_customer.
  induction recos as [|r recos IH] using rev_ind.
  - split; [constructor|intros H; contradiction].
  - destruct IH as [IH _]. rewrite fold_left_app. cbn [List.fold_left].
    split; [|intros _; apply dict_set_nonempty].
    assert (Hnew : forall g : list RunItem.t, g ++ [r] <> []).
    { intros g H. now apply app_eq_nil in H as [_ H]. }
    destruct (Dict.get _ (RunItem.customer_code r)).
    + apply dict_set_Forall; [exact IH|apply Hnew].
    + rewrite dict_set_set. apply dict_set_Forall; [exact IH|apply Hnew].
Qed.

Lemma customer_ratio_range (g : list RunItem.t) :
  g <> [] ->
  (0 < QualityService.customer_ratio g)%Q /\ (QualityService.customer_ratio g <= 1)%Q.
Proof.
  intros Hg. unfold QualityService.customer_ratio.
  assert (Hlen : 0 < Py.len g).
  { unfold Py.len. destruct g; [contradiction|]. cbn [length]. lia. }
  destruct (Z.ltb_spec 0 (Py.len g)); [|lia].
  apply ratio_range.
  - apply unique_pos. destruct g; [contradiction|discriminate].
  - etransitivity; [apply unique_le_len|]. unfold Py.len. now rewrite length_map.
Qed.

Lemma diversity_ratio_range (recos : list RunItem.t) :
  recos <> [] ->
  (0 < QualityService.compute_diversity_ratio recos)%Q
  /\ (QualityService.compute_diversity_ratio recos <= 1)%Q.
Proof.
  intros Hne. unfold QualityService.compute_diversity_ratio.
  destruct recos as [|r0 recos0]; [contradiction|]. set (recos := r0 :: recos0) in *.
  destruct (group_by_customer_groups recos) as [Hgroups Hsome].
  specialize (Hsome Hne).
  set (ratios := List.map _ (QualityService.group_by_customer recos)).
  assert (Hratios : Forall (fun q => (0 < q)%Q /\ (q <= 1)%Q) ratios).
  { subst ratios. apply Forall_map. eapply Forall_impl; [exact Hgroups|].
    intros g Hg. now apply customer_ratio_range. }
  assert (Hrne : ratios <> []).
  { subst ratios. destruct (QualityService.group_by_customer recos);
      [contradiction|discriminate]. }
  destruct ratios as [|q ratios']; [contradiction|]. set (ratios := q :: ratios') in *.
  destruct (sum_fold_range ratios 0%Q Hratios) as (_ & Hup & Hlow).
  specialize (Hlow Hrne).
  assert (Hlen : (0 < inject_Z (Py.len ratios))%Q).
  { apply inject_Z_pos. unfold Py.len. subst ratios. cbn [length]. lia. }
  unfold QualityService.sum. split.
  - apply Qlt_shift_div_l; [exact Hlen|]. lra.
  - apply Qle_shift_div_r; [exact Hlen|]. lra.
Qed.

Lemma diversity_score_range (recos : list RunItem.t) :
  recos <> [] ->
  (0 < QualityService.compute_diversity_score recos)%Q
  /\ (QualityService.compute_diversity_score recos <= 1)%Q.
Proof.
  intros Hne. unfold QualityService.compute_diversity_score.
  destruct recos as [|r0 recos0]; [contradiction|]. set (recos := r0 :: recos0) in *.
  assert (Hmax : Z.max (Py.len recos) 1 = Py.len recos).
  { unfold Py.len. subst recos. cbn [length]. lia. }
  rewrite Hmax.
  destruct (ratio_range (QualityService.unique (List.map RunItem.product_key recos))
              (Py.len recos)) as [Hlow Hup].
  - apply unique_pos. discriminate.
  - etransitivity; [apply unique_le_len|]. unfold Py.len. now rewrite length_map.
  - set (ratio := (_ / _)%Q) in *. split; [|apply Q.le_min_r].
    apply Q.min_case_strong.
    + intros x y Hxy Hx. now rewrite <- Hxy.
    + intros _. apply Qlt_shift_div_l; lra.
    + intros _. lra.
Qed.

Lemma median_in_scores (scores : list Q) :
  scores <> [] ->
  In (nth (Z.to_nat (Py.len scores / 2)) (Py.sorted_asc (fun x => x) scores) 0%Q) scores.
Proof.
  intros Hne.
  assert (Hperm : Py.sorted_asc (fun x => x) scores ≡ₚ scores) by apply sorted_asc_perm.
  apply (Permutation_in _ Hperm). apply nth_In.
  rewrite (Permutation_length Hperm). unfold Py.len.
  assert (0 < length scores)%nat by (destruct scores; [contradiction|cbn; lia]).
  apply Nat2Z.inj_lt. rewrite Z2Nat.id by (apply Z.div_pos; lia).
  apply Z.div_lt_upper_bound; lia.
Qed.

(** X20: the quality metrics of a run that has recommendations, when the
    run has no stored metrics yet and [total_customers] is at least the
    number of customers the run reaches. The call stores one row and
    returns metrics in which coverage, diversity score and diversity
    ratio lie in (0, 1], the accuracy score is at most 1 and the median is
    one of the scores; the level is EXCELLENT only if the coverage is at
    least 3/4 and the average score at least 200/3; and a second call for
    the same run fails on the primary key of the stored row. *)
Theorem quality_metrics_bounds (items : list RunItem.t)
    (stored : gmap string QualityMetricsDB.t) (now now' : Z)
    (run_id : string) (total_customers total_customers' : Z) :
  let recos := List.filter (fun r => String.eqb (RunItem.run_id r) run_id) items in
  recos <> [] ->
  stored !! run_id = None ->
  QualityService.unique (List.map RunItem.customer_code recos) <= total_customers ->
  exists m stored',
    QualityService.compute_quality_metrics items stored now run_id total_customers
    = Some (m, stored')
    /\ QualityMetrics.total_recommendations m = Py.len recos
    /\ ((0 < QualityMetrics.coverage_score m)%Q
        /\ (QualityMetrics.coverage_score m <= 1)%Q)
    /\ ((0 < QualityMetrics.diversity_score m)%Q
        /\ (QualityMetrics.diversity_score m <= 1)%Q)
    /\ (QualityMetrics.accuracy_score m <= 1)%Q
    /\ ((0 < QualityMetrics.diversity_ratio m)%Q
        /\ (QualityMetrics.diversity_ratio m <= 1)%Q)
    /\ In (QualityMetrics.median_score m) (QualityService.scores_of recos)
    /\ (QualityMetrics.quality_level m = EXCELLENT ->
        (3 / 4 <= QualityMetrics.coverage_score m)%Q
        /\ (200 / 3 <= QualityMetrics.avg_score m)%Q)
    /\ (exists row, stored' !! run_id = Some row
                    /\ forall other, other <> run_id -> stored' !! other = stored !! other)
    /\ QualityService.compute_quality_metrics items stored' now' run_id total_customers'
       = None.
Proof.
  intros recos Hne Hfresh Hcov.
  unfold QualityService.compute_quality_metrics. fold recos.
  destruct recos as [|r0 recos0] eqn:Erecos; [contradiction|].
  rewrite <- Erecos in *. rewrite Hfresh.
  eexists. eexists. split; [reflexivity|].
  cbn [QualityMetrics.total_recommendations QualityMetrics.coverage_score
       QualityMetrics.diversity_score QualityMetrics.accuracy_score
       QualityMetrics.diversity_ratio QualityMetrics.median_score
       QualityMetrics.quality_level QualityMetrics.avg_score].
  assert (Hu : 1 <= QualityService.unique (List.map RunItem.customer_code recos)).
  { apply unique_pos. rewrite Erecos. discriminate. }
  assert (Hmax : Z.max total_customers 1 = total_customers) by lia.
  rewrite Hmax.
  destruct (ratio_range _ _ Hu Hcov) as [Hc0 Hc1].
  destruct (diversity_score_range recos Hne) as [Hd0 Hd1].
  destruct (diversity_ratio_range recos Hne) as [Hr0 Hr1].
  pose proof (Q.le_min_r
                (QualityService.sum (QualityService.scores_of recos)
                 / inject_Z (Py.len (QualityService.scores_of recos)) / 100) 1) as Ha1.
  pose proof (Q.le_min_l
                (QualityService.sum (QualityService.scores_of recos)
                 / inject_Z (Py.len (QualityService.scores_of recos)) / 100) 1) as Ha2.
  assert (Hacc : QualityService.compute_accuracy_score recos
                 = Qmin (QualityService.sum (QualityService.scores_of recos)
                         / inject_Z (Py.len (QualityService.scores_of recos)) / 100) 1).
  { unfold QualityService.compute_accuracy_score. now rewrite Erecos. }
  split; [reflexivity|]. split; [split; assumption|]. split; [split; assumption|].
  split; [rewrite Hacc; exact Ha1|]. split; [split; assumption|].
  split.
  { apply median_in_scores. unfold QualityService.scores_of. rewrite Erecos. discriminate. }
  split.
  { unfold QualityService.quality_level_of.
    set (c := (inject_Z _ / inject_Z total_customers)%Q) in *.
    set (d := QualityService.compute_diversity_score recos) in *.
    rewrite Hacc.
    set (avg := (QualityService.sum _ / inject_Z _)%Q) in *.
    set (a := Qmin (avg / 100) 1) in *.
    destruct (Qle_bool 0.90 (c * 0.4 + d * 0.3 + a * 0.3)) eqn:E.
    - apply Qle_bool_iff in E. intros _. clear Hacc. clearbody a c d avg.
      assert (Hdiv : avg / 100 == avg * (1 # 100)) by (field; discriminate).
      assert (H34 : 3 / 4 == 3 # 4) by reflexivity.
      assert (H23 : 200 / 3 == 200 # 3) by reflexivity.
      rewrite H34, H23. split; lra.
    - destruct (Qle_bool 0.75 _); [discriminate|].
      destruct (Qle_bool 0.60 _); discriminate. }
  split.
  { eexists. split; [apply lookup_insert_eq|].
    intros other Hother. now rewrite lookup_insert_ne by congruence. }
  rewrite Erecos. rewrite lookup_insert_eq. reflexivity.
Qed.

(** Run r1 of the example, three recommendations for two customers out
    of two: the metrics are stored under r1 and a second call fails. *)
Lemma quality_metrics_bounds_witness :
  exists m stored',
    QualityService.compute_quality_metrics Examples.run_items ∅ 5 "r1" 2
    = Some (m, stored')
    /\ QualityMetrics.total_recommendations m = 3
    /\ (QualityMetrics.diversity_score m <= 1)%Q
    /\ QualityService.compute_quality_metrics Examples.run_items stored' 6 "r1" 2 = None.
Proof.
  destruct (quality_metrics_bounds Examples.run_items ∅ 5 6 "r1" 2 2)
    as (m & stored' & Hm & Htotal & _ & [_ Hd] & _ & _ & _ & _ & _ & Hagain).
  - discriminate.
  - apply lookup_empty.
  - vm_compute. discriminate.
  - exists m, stored'. split; [exact Hm|]. split; [exact Htotal|]. split; assumption.
Defined.
